(** * Autonomous coding agent: ledger, outcome evaluator, decision adapter
      and control loop

    Shallow embedding of [agents/enhanced_coding_agent]:
    - [agent_state.py]            ([AgentState], the ledger and the scorer),
    - [tool_selector.py]          ([AutonomousToolSelector], the adapter),
    - [v3_autonomous_agent.py]    ([FullyAutonomousCodingAgent], the loop),
    - [tools/file_tools.py], [tools/execution_tool.py] (path construction
      and the test-result parser).

    Conventions.  A Python [str] is a [string] holding its UTF-8 encoding;
    a Python [int] is a [Z]; a value of type [Any] that comes out of the
    oracle's JSON is a [json]; code that can raise returns a [result].
    Wall-clock fields (timestamps, durations) are left out of the records,
    and so are the ledger's lists that no method of the loop writes
    ([attempted_solutions], [failed_attempts], [successful_patterns],
    [lessons_learned]) and console logging. *)

From Stdlib Require Import ZArith List String Ascii Bool Lia.
From Stdlib Require Import Floats.SpecFloat DecimalString.
Import ListNotations.
Set Warnings "-register-all".
Local Open Scope string_scope.
Local Open Scope Z_scope.

(** ** Exceptions *)

(** A raised Python exception: its class name and [str(e)].  The texts of
    exceptions raised by the interpreter itself are abbreviated. *)
Record exn := Exn { exn_class : string; exn_msg : string }.

Inductive result (A : Type) : Type :=
| Ok (a : A)
| Raise (e : exn).
Arguments Ok {A} a.
Arguments Raise {A} e.

Definition bind {A B} (m : result A) (k : A -> result B) : result B :=
  match m with
  | Ok a => k a
  | Raise e => Raise e
  end.

Notation "x <- m ;; k" := (bind m (fun x => k))
  (at level 61, m at next level, right associativity).

(** [try: body except Exception as e: handler e] *)
Definition try_except {A} (body : result A) (handler : exn -> result A) : result A :=
  match body with
  | Ok a => Ok a
  | Raise e => handler e
  end.

Definition is_ok {A} (m : result A) : bool :=
  match m with Ok _ => true | Raise _ => false end.

(** ** Python strings *)

Module Py.

Definition bytes (l : list nat) : string :=
  string_of_list_ascii (map ascii_of_nat l).

Definition newline : ascii := ascii_of_nat 10.

(** [sub in s] *)
Fixpoint contains (sub s : string) : bool :=
  String.prefix sub s ||
  match s with
  | EmptyString => false
  | String _ s' => contains sub s'
  end.

(** [s.endswith(suffix)] *)
Definition endswith (s suffix : string) : bool :=
  let n := String.length s in
  let k := String.length suffix in
  (k <=? n)%nat && String.eqb (substring (n - k) k s) suffix.

(** [s.find(c)] for a one-character needle: first index, or -1. *)
Fixpoint find (c : ascii) (s : string) : Z :=
  match s with
  | EmptyString => -1
  | String a s' =>
      if Ascii.eqb a c then 0
      else let i := find c s' in if i <? 0 then -1 else i + 1
  end.

(** [s.rfind(c)]: last index, or -1. *)
Fixpoint rfind (c : ascii) (s : string) : Z :=
  match s with
  | EmptyString => -1
  | String a s' =>
      let i := rfind c s' in
      if 0 <=? i then i + 1
      else if Ascii.eqb a c then 0 else -1
  end.

(** [s[i:j]] for [0 <= i <= j]. *)
Definition slice (s : string) (i j : Z) : string :=
  substring (Z.to_nat i) (Z.to_nat (j - i)) s.

(** [s.split('\n')] *)
Fixpoint split (c : ascii) (s : string) : list string :=
  match s with
  | EmptyString => [EmptyString]
  | String a s' =>
      if Ascii.eqb a c then EmptyString :: split c s'
      else match split c s' with
           | [] => [String a EmptyString]
           | l :: ls => String a l :: ls
           end
  end.

(** The code points [c] with [chr(c).isspace()], UTF-8 encoded. *)
Definition whitespace : list string :=
  map bytes
    [ [9]; [10]; [11]; [12]; [13]; [28]; [29]; [30]; [31]; [32];
      [194; 133]; [194; 160]; [225; 154; 128];
      [226; 128; 128]; [226; 128; 129]; [226; 128; 130]; [226; 128; 131];
      [226; 128; 132]; [226; 128; 133]; [226; 128; 134]; [226; 128; 135];
      [226; 128; 136]; [226; 128; 137]; [226; 128; 138];
      [226; 128; 168]; [226; 128; 169]; [226; 128; 175];
      [226; 129; 159]; [227; 128; 128] ]%nat.

Definition drop (n : nat) (s : string) : string :=
  substring n (String.length s - n) s.

(** The whitespace character [s] starts with, if any. *)
Definition leading_space (ws : list string) (s : string) : option string :=
  List.find (fun w => String.prefix w s) ws.

Fixpoint lstrip_fuel (ws : list string) (fuel : nat) (s : string) : string :=
  match fuel with
  | O => s
  | S fuel' =>
      match leading_space ws s with
      | Some w => lstrip_fuel ws fuel' (drop (String.length w) s)
      | None => s
      end
  end.

Definition rev (s : string) : string :=
  string_of_list_ascii (List.rev (list_ascii_of_string s)).

Definition lstrip (s : string) : string :=
  lstrip_fuel whitespace (String.length s) s.

Definition rstrip (s : string) : string :=
  rev (lstrip_fuel (map rev whitespace) (String.length s) (rev s)).

(** [s.strip()] *)
Definition strip (s : string) : string := rstrip (lstrip s).

(** [str(n)] for an int. *)
Definition str_of_int (n : Z) : string :=
  NilZero.string_of_int (Z.to_int n).

(** [sep.join(l)] *)
Fixpoint join (sep : string) (l : list string) : string :=
  match l with
  | [] => EmptyString
  | [x] => x
  | x :: l' => x ++ sep ++ join sep l'
  end.

(** Truth value of a [str]. *)
Definition truthy (s : string) : bool :=
  match s with EmptyString => false | _ => true end.

(** Number of code points, [len(s)]: bytes that are not UTF-8
    continuation bytes (0x80..0xBF). *)
Definition is_continuation (a : ascii) : bool :=
  let n := nat_of_ascii a in ((128 <=? n) && (n <? 192))%nat.

Fixpoint len (s : string) : Z :=
  match s with
  | EmptyString => 0
  | String a s' => (if is_continuation a then 0 else 1) + len s'
  end.

(** [s[:n]]: the first [n] code points. *)
Fixpoint take (n : nat) (s : string) : string :=
  match s with
  | EmptyString => EmptyString
  | String a s' =>
      if is_continuation a then String a (take n s')
      else match n with
           | O => EmptyString
           | S n' => String a (take n' s')
           end
  end.

End Py.

(** ** Binary64 arithmetic used by the scorer

    [passed_tests / total_tests] is Python's true division of two ints
    (the correctly rounded quotient, [OverflowError] when it does not fit),
    [40 * pass_rate] a binary64 product and [int(...)] truncation towards
    zero.  The operations are the executable IEEE-754 specification of the
    standard library at precision 53. *)

Module Float64.

Definition prec : Z := 53.
Definition emax : Z := 1024.

Definition of_Z (n : Z) : spec_float := binary_normalize prec emax n 0 false.

(** [a / b] on ints. *)
Definition truediv (a b : Z) : result spec_float :=
  match b with
  | Z0 => Raise (Exn "ZeroDivisionError" "division by zero")
  | _ =>
      let q :=
        match a with
        | Z0 => S754_zero (b <? 0)
        | _ => SFdiv prec emax
                 (S754_finite (a <? 0) (Z.to_pos (Z.abs a)) 0)
                 (S754_finite (b <? 0) (Z.to_pos (Z.abs b)) 0)
        end in
      match q with
      | S754_infinity _ | S754_nan =>
          Raise (Exn "OverflowError" "integer division result too large for a float")
      | _ => Ok q
      end
  end.

(** [n * x] for an int [n] exactly representable and a float [x]. *)
Definition mul_int (n : Z) (x : spec_float) : spec_float :=
  SFmul prec emax (of_Z n) x.

(** [int(x)] *)
Definition to_int (x : spec_float) : result Z :=
  match x with
  | S754_zero _ => Ok 0
  | S754_finite s m e =>
      let a := match e with
               | Z0 => Zpos m
               | Zpos _ => Z.shiftl (Zpos m) e
               | Zneg _ => Z.shiftr (Zpos m) (- e)
               end in
      Ok (if s then - a else a)
  | S754_infinity _ =>
      Raise (Exn "OverflowError" "cannot convert float infinity to integer")
  | S754_nan =>
      Raise (Exn "ValueError" "cannot convert float NaN to integer")
  end.

End Float64.

(** ** Values of type [Any] *)

(** What [json.loads] can return.  A number keeps its lexeme; a [dict] is
    the list of its items in insertion order. *)
Inductive json : Type :=
| JNull
| JBool (b : bool)
| JNum (lexeme : string)
| JStr (s : string)
| JArr (items : list json)
| JObj (items : list (string * json)).

(** The parts of the Python runtime the agent calls and this development
    does not define: case mapping over all of Unicode, the JSON decoder and
    the [str()] rendering used by f-strings. *)
Class PyRuntime : Type := {
  str_lower : string -> string;
  json_loads : string -> result json;
  py_str : json -> string
}.

Module Dict.

Definition t := list (string * json).

(** [d.get(k)] *)
Fixpoint get (k : string) (d : t) : option json :=
  match d with
  | [] => None
  | (k', v) :: d' => if String.eqb k k' then Some v else get k d'
  end.

(** [k in d] *)
Definition mem (k : string) (d : t) : bool :=
  match get k d with Some _ => true | None => false end.

(** [d[k] = v] *)
Fixpoint set (k : string) (v : json) (d : t) : t :=
  match d with
  | [] => [(k, v)]
  | (k', v') :: d' =>
      if String.eqb k k' then (k, v) :: d' else (k', v') :: set k v d'
  end.

(** [d[k]] *)
Definition getitem (k : string) (d : t) : result json :=
  match get k d with
  | Some v => Ok v
  | None => Raise (Exn "KeyError" ("'" ++ k ++ "'"))
  end.

End Dict.

(** [v == s] for a [str] literal [s]. *)
Definition json_is_str (v : json) (s : string) : bool :=
  match v with JStr s' => String.eqb s' s | _ => false end.

(** ** Records of the ledger ([agent_state.py]) *)

(** The test summary returned by [ExecutionTool._parse_test_results]; a
    field is [None] when the key is absent from the dict. *)
Record TestResults := {
  total_tests : option Z;
  passed_tests : option Z;
  failed_tests : option Z;
  has_test_output : option bool
}.

(** [{}] *)
Definition no_test_results : TestResults :=
  {| total_tests := None; passed_tests := None; failed_tests := None;
     has_test_output := None |}.

(** [d.get(key, default)] *)
Definition get_or {A} (o : option A) (default : A) : A :=
  match o with Some a => a | None => default end.

(** The result envelope of a capability, with the keys the loop reads. *)
Module ToolResult.

Record payload := {
  thinking_process : option string;
  solution_plan : option string;
  generated_code : option string;
  file_path : option string;
  content : option string;
  exit_code : option Z;
  stdout : option string;
  stderr : option string;
  analysis : option (option TestResults)
    (* [analysis] present or not, and inside it [test_results] *)
}.

Record t := {
  success : option bool;
  result : option payload;
  error : option string
}.

(** [{}] *)
Definition empty : t := {| success := None; result := None; error := None |}.

(** [{"success": False, "error": msg}] *)
Definition failure (msg : string) : t :=
  {| success := Some false; result := None; error := Some msg |}.

End ToolResult.

Module ToolCall.
Record t := {
  tool_name : json;
  parameters : json;
  result : ToolResult.t;
  reasoning : json;
  success : bool
}.
End ToolCall.

Module ExecutionResult.
Record t := {
  filename : string;
  exit_code : Z;
  stdout : string;
  stderr : string;
  test_results : TestResults;
  quality_score : Z
}.
End ExecutionResult.

Module FileInfo.
Record t := {
  filename : string;
  path : string;
  content_type : string;
  size : Z;
  purpose : string
}.
End FileInfo.

(** ** The ledger: class [AgentState] *)

Module AgentState.

Record t := {
  problem_statement : string;
  max_tool_calls : Z;
  tool_calls : list ToolCall.t;
  remaining_calls : Z;
  files_created : list FileInfo.t;
  execution_results : list ExecutionResult.t;
  best_solution : option string;
  best_quality_score : Z;
  thinking_history : list string;
  current_approach : string;
  identified_issues : list string;
  satisfaction_level : Z;
  confidence_level : Z;
  is_satisfied : bool;
  stop_reason : json
}.

(** [__init__] *)
Definition init (problem : string) (max_calls : Z) : t :=
  {| problem_statement := problem;
     max_tool_calls := max_calls;
     tool_calls := [];
     remaining_calls := max_calls;
     files_created := [];
     execution_results := [];
     best_solution := None;
     best_quality_score := 0;
     thinking_history := [];
     current_approach := EmptyString;
     identified_issues := [];
     satisfaction_level := 0;
     confidence_level := 0;
     is_satisfied := false;
     stop_reason := JStr EmptyString |}.

(** Field assignments. *)
Definition set_calls (calls : list ToolCall.t) (remaining : Z) (s : t) : t :=
  {| problem_statement := problem_statement s;
     max_tool_calls := max_tool_calls s;
     tool_calls := calls;
     remaining_calls := remaining;
     files_created := files_created s;
     execution_results := execution_results s;
     best_solution := best_solution s;
     best_quality_score := best_quality_score s;
     thinking_history := thinking_history s;
     current_approach := current_approach s;
     identified_issues := identified_issues s;
     satisfaction_level := satisfaction_level s;
     confidence_level := confidence_level s;
     is_satisfied := is_satisfied s;
     stop_reason := stop_reason s |}.

Definition set_files_created (files : list FileInfo.t) (s : t) : t :=
  {| problem_statement := problem_statement s;
     max_tool_calls := max_tool_calls s;
     tool_calls := tool_calls s;
     remaining_calls := remaining_calls s;
     files_created := files;
     execution_results := execution_results s;
     best_solution := best_solution s;
     best_quality_score := best_quality_score s;
     thinking_history := thinking_history s;
     current_approach := current_approach s;
     identified_issues := identified_issues s;
     satisfaction_level := satisfaction_level s;
     confidence_level := confidence_level s;
     is_satisfied := is_satisfied s;
     stop_reason := stop_reason s |}.

Definition set_executions (results : list ExecutionResult.t)
    (best : option string) (best_score : Z) (s : t) : t :=
  {| problem_statement := problem_statement s;
     max_tool_calls := max_tool_calls s;
     tool_calls := tool_calls s;
     remaining_calls := remaining_calls s;
     files_created := files_created s;
     execution_results := results;
     best_solution := best;
     best_quality_score := best_score;
     thinking_history := thinking_history s;
     current_approach := current_approach s;
     identified_issues := identified_issues s;
     satisfaction_level := satisfaction_level s;
     confidence_level := confidence_level s;
     is_satisfied := is_satisfied s;
     stop_reason := stop_reason s |}.

Definition set_mind (thoughts : list string) (approach : string)
    (issues : list string) (s : t) : t :=
  {| problem_statement := problem_statement s;
     max_tool_calls := max_tool_calls s;
     tool_calls := tool_calls s;
     remaining_calls := remaining_calls s;
     files_created := files_created s;
     execution_results := execution_results s;
     best_solution := best_solution s;
     best_quality_score := best_quality_score s;
     thinking_history := thoughts;
     current_approach := approach;
     identified_issues := issues;
     satisfaction_level := satisfaction_level s;
     confidence_level := confidence_level s;
     is_satisfied := is_satisfied s;
     stop_reason := stop_reason s |}.

Definition set_progress (satisfaction confidence : Z) (satisfied : bool)
    (reason : json) (s : t) : t :=
  {| problem_statement := problem_statement s;
     max_tool_calls := max_tool_calls s;
     tool_calls := tool_calls s;
     remaining_calls := remaining_calls s;
     files_created := files_created s;
     execution_results := execution_results s;
     best_solution := best_solution s;
     best_quality_score := best_quality_score s;
     thinking_history := thinking_history s;
     current_approach := current_approach s;
     identified_issues := identified_issues s;
     satisfaction_level := satisfaction;
     confidence_level := confidence;
     is_satisfied := satisfied;
     stop_reason := reason |}.

Section Methods.
Context {RT : PyRuntime}.

Definition add_tool_call (tool_name parameters reasoning : json) (s : t) : t :=
  let tool_call :=
    {| ToolCall.tool_name := tool_name;
       ToolCall.parameters := parameters;
       ToolCall.result := ToolResult.empty;
       ToolCall.reasoning := reasoning;
       ToolCall.success := false |} in
  set_calls (tool_calls s ++ [tool_call])%list (remaining_calls s - 1) s.

(** [last_call = self.tool_calls[-1]] updated in place. *)
Fixpoint update_last (envelope : ToolResult.t) (calls : list ToolCall.t)
  : list ToolCall.t :=
  match calls with
  | [] => []
  | [last_call] =>
      [ {| ToolCall.tool_name := ToolCall.tool_name last_call;
           ToolCall.parameters := ToolCall.parameters last_call;
           ToolCall.result := envelope;
           ToolCall.reasoning := ToolCall.reasoning last_call;
           ToolCall.success := get_or (ToolResult.success envelope) false |} ]
  | call :: calls' => call :: update_last envelope calls'
  end.

Definition update_last_tool_call (envelope : ToolResult.t) (s : t) : t :=
  set_calls (update_last envelope (tool_calls s)) (remaining_calls s) s.

Definition add_file (filename path content_type purpose : string) (size : Z)
    (s : t) : t :=
  let file_info :=
    {| FileInfo.filename := filename;
       FileInfo.path := path;
       FileInfo.content_type := content_type;
       FileInfo.size := size;
       FileInfo.purpose := purpose |} in
  set_files_created (files_created s ++ [file_info])%list s.

(** The outcome evaluator. *)
Definition _calculate_quality_score (exit_code : Z) (stdout stderr : string)
    (test_results : TestResults) : result Z :=
  let score := 0 in
  (* Basic execution (30 points) *)
  let score := if exit_code =? 0 then score + 30 else score in
  (* Output presence (10 points) *)
  let score := if Py.truthy (Py.strip stdout) then score + 10 else score in
  (* Test results (50 points) *)
  score <-
    (if get_or (has_test_output test_results) false then
       let score := score + 10 in
       let total_tests := get_or (total_tests test_results) 0 in
       let passed_tests := get_or (passed_tests test_results) 0 in
       if total_tests >? 0 then
         pass_rate <- Float64.truediv passed_tests total_tests ;;
         points <- Float64.to_int (Float64.mul_int 40 pass_rate) ;;
         Ok (score + points)
       else Ok score
     else Ok score) ;;
  (* No errors (10 points) *)
  let score := if negb (Py.truthy (Py.strip stderr)) then score + 10 else score in
  Ok (Z.min 100 score).

(** Nothing is recorded when the scorer raises: the score is computed
    before the ledger is touched. *)
Definition add_execution_result (filename : string) (exit_code : Z)
    (stdout stderr : string) (test_results : TestResults) (s : t) : result t :=
  quality_score <- _calculate_quality_score exit_code stdout stderr test_results ;;
  let execution_result :=
    {| ExecutionResult.filename := filename;
       ExecutionResult.exit_code := exit_code;
       ExecutionResult.stdout := stdout;
       ExecutionResult.stderr := stderr;
       ExecutionResult.test_results := test_results;
       ExecutionResult.quality_score := quality_score |} in
  let results := (execution_results s ++ [execution_result])%list in
  (* Update best solution if this is better *)
  if quality_score >? best_quality_score s
  then Ok (set_executions results (Some filename) quality_score s)
  else Ok (set_executions results (best_solution s) (best_quality_score s) s).

(** The entry is stored without its clock prefix. *)
Definition add_thinking (thought : string) (s : t) : t :=
  set_mind (thinking_history s ++ [thought])%list (current_approach s)
    (identified_issues s) s.

Definition set_current_approach (approach : string) (s : t) : t :=
  set_mind (thinking_history s) approach (identified_issues s) s.

Definition add_issue (issue : string) (s : t) : t :=
  if existsb (String.eqb issue) (identified_issues s) then s
  else set_mind (thinking_history s) (current_approach s)
         (identified_issues s ++ [issue])%list s.

(** [reason] defaults to the empty string. *)
Definition update_satisfaction (level : Z) (reason : string) (s : t) : t :=
  let s := set_progress (Z.max 0 (Z.min 100 level)) (confidence_level s)
             (is_satisfied s) (stop_reason s) s in
  if Py.truthy reason then
    add_thinking ("Satisfaction updated to " ++ Py.str_of_int level ++ "/100: "
                  ++ reason) s
  else s.

Definition update_confidence (level : Z) (reason : string) (s : t) : t :=
  let s := set_progress (satisfaction_level s) (Z.max 0 (Z.min 100 level))
             (is_satisfied s) (stop_reason s) s in
  if Py.truthy reason then
    add_thinking ("Confidence updated to " ++ Py.str_of_int level ++ "/100: "
                  ++ reason) s
  else s.

Definition mark_satisfied (reason : json) (s : t) : t :=
  add_thinking ("SATISFIED: " ++ py_str reason)
    (set_progress (satisfaction_level s) (confidence_level s) true reason s).

(** One line of [get_recent_actions]. *)
Definition render_parameter (item : string * json) : string :=
  let '(k, v) := item in
  if Py.len (py_str v) <? 30 then k ++ "=" ++ py_str v else k ++ "=...".

Definition render_call (call : ToolCall.t) : result string :=
  match ToolCall.parameters call with
  | JObj items =>
      Ok (py_str (ToolCall.tool_name call) ++ "("
          ++ Py.join ", " (map render_parameter items) ++ ") "
          ++ Py.bytes [226; 134; 146]%nat ++ " "
          ++ (if ToolCall.success call
              then Py.bytes [226; 156; 133]%nat
              else Py.bytes [226; 157; 140]%nat)
          ++ " " ++ py_str (ToolCall.reasoning call))
  | _ => Raise (Exn "AttributeError" "object has no attribute 'items'")
  end.

Fixpoint render_calls (calls : list ToolCall.t) : result (list string) :=
  match calls with
  | [] => Ok []
  | call :: calls' =>
      line <- render_call call ;;
      lines <- render_calls calls' ;;
      Ok (line :: lines)
  end.

(** [self.tool_calls[-count:]] when there are at least [count] calls,
    all of them otherwise; [count] is not negative, and [l[-0:]] is the
    whole list. *)
Definition get_recent_actions (count : nat) (s : t) : result (list string) :=
  let n := List.length (tool_calls s) in
  let recent := if (count <=? n)%nat
                then match count with
                     | O => tool_calls s
                     | S _ => skipn (n - count) (tool_calls s)
                     end
                else tool_calls s in
  render_calls recent.

End Methods.

End AgentState.

(** ** Paths ([os.path.join] on POSIX) *)

Module OsPath.

Definition sep : string := "/".

Definition join_step (path b : string) : string :=
  if String.prefix sep b then b
  else if negb (Py.truthy path) || Py.endswith path sep then path ++ b
  else path ++ sep ++ b.

(** [os.path.join(a, *p)] *)
Definition join (a : string) (p : list string) : string :=
  fold_left join_step p a.

(** Lexical resolution of a path: its components with [.] and empty
    components dropped and [..] cancelling the component before it.  The
    stack is kept in reverse; a leading [..] that has nothing to cancel
    stays (relative path) or is dropped (absolute path). *)
Definition is_absolute (path : string) : bool := String.prefix sep path.

Definition resolve_step (absolute : bool) (stack : list string) (c : string)
  : list string :=
  if String.eqb c EmptyString || String.eqb c "." then stack
  else if String.eqb c ".." then
    match stack with
    | [] => if absolute then [] else [c]
    | top :: stack' => if String.eqb top ".." then c :: stack else stack'
    end
  else c :: stack.

Definition components (path : string) : list string :=
  List.rev (fold_left (resolve_step (is_absolute path))
              (Py.split "/"%char path) []).

Fixpoint is_prefix (l1 l2 : list string) : bool :=
  match l1, l2 with
  | [], _ => true
  | _, [] => false
  | x :: l1', y :: l2' => String.eqb x y && is_prefix l1' l2'
  end.

(** [path] names a location under the directory [root] (both taken from
    the same working directory). *)
Definition within (root path : string) : bool :=
  Bool.eqb (is_absolute root) (is_absolute path)
  && is_prefix (components root) (components path).

End OsPath.

(** ** Capabilities: where the file tools and the run tool look *)

Module ReadFileTool.
(** [file_path] in [ReadFileTool.execute]; [directory] defaults to the
    empty string. *)
Definition file_path (workspace_path filename directory : string) : string :=
  if Py.truthy directory
  then OsPath.join workspace_path [directory; filename]
  else OsPath.join workspace_path [filename].
End ReadFileTool.

Module WriteFileTool.
Definition dir_path (workspace_path directory : string) : string :=
  if Py.truthy directory
  then OsPath.join workspace_path [directory]
  else workspace_path.

(** [file_path] in [WriteFileTool.execute]. *)
Definition file_path (workspace_path filename directory : string) : string :=
  if Py.truthy directory
  then OsPath.join (dir_path workspace_path directory) [filename]
  else OsPath.join workspace_path [filename].
End WriteFileTool.

Module ExecutionTool.

(** [script_path] in [ExecutionTool.execute]; [directory] defaults to
    ["solutions"]. *)
Definition script_path (workspace_path filename directory : string) : string :=
  if Py.truthy directory
  then OsPath.join workspace_path [directory; filename]
  else OsPath.join workspace_path [filename].

Definition check_mark : string := Py.bytes [226; 156; 133]%nat.
Definition cross_mark : string := Py.bytes [226; 157; 140]%nat.

Section Parser.
Context {RT : PyRuntime}.

(** The dict [test_info] while the lines are scanned. *)
Record test_info := {
  passed : Z;
  failed : Z;
  has_output : bool
}.

(** Body of the [for line in lines] loop. *)
Definition scan_line (info : test_info) (line : string) : test_info :=
  let line_lower := str_lower line in
  if Py.contains check_mark line || Py.contains "passed" line_lower then
    {| passed := passed info + 1; failed := failed info; has_output := true |}
  else if Py.contains cross_mark line || Py.contains "failed" line_lower then
    {| passed := passed info; failed := failed info + 1; has_output := true |}
  else if Py.contains "test case" line_lower || Py.contains "testing" line_lower then
    {| passed := passed info; failed := failed info; has_output := true |}
  else info.

Definition _parse_test_results (stdout : string) : TestResults :=
  let test_info0 := {| passed := 0; failed := 0; has_output := false |} in
  let lines := Py.split Py.newline stdout in
  let info := fold_left scan_line lines test_info0 in
  {| total_tests := Some (passed info + failed info);
     passed_tests := Some (passed info);
     failed_tests := Some (failed info);
     has_test_output := Some (has_output info) |}.

End Parser.

End ExecutionTool.

(** ** The decision adapter: class [AutonomousToolSelector] *)

Module AutonomousToolSelector.

(** [llm_client.complete(messages)].  The messages are the fixed system
    prompt and a decision prompt rendered from the ledger, so the reply
    is given as a function of the ledger; it is a [str], or the call
    raises. *)
Definition llm := AgentState.t -> result string.

Definition use_tool (tool : string) (parameters : Dict.t) (reasoning : string)
  : json :=
  JObj [("action", JStr "use_tool"); ("tool", JStr tool);
        ("parameters", JObj parameters); ("reasoning", JStr reasoning)].

Definition stop (reasoning : string) : json :=
  JObj [("action", JStr "stop"); ("reasoning", JStr reasoning)].

(** [d.get(k)]: [None] when the key is absent. *)
Definition get (k : string) (d : Dict.t) : json :=
  get_or (Dict.get k d) JNull.

Definition stop_indicators : list string :=
  ["stop"; "satisfied"; "complete"; "finished"; "done"].

Section Selector.
Context {RT : PyRuntime}.
(** Names of the registered capabilities, [self.available_tools.keys()]. *)
Variable available_tools : list string.
Variable llm_client : llm.

(** [tool not in self.available_tools]: hashing a list or a dict
    raises. *)
Definition tool_not_available (tool : json) : result bool :=
  match tool with
  | JArr _ => Raise (Exn "TypeError" "unhashable type: 'list'")
  | JObj _ => Raise (Exn "TypeError" "unhashable type: 'dict'")
  | JStr name => Ok (negb (existsb (String.eqb name) available_tools))
  | _ => Ok true
  end.

(** Returns the verdict, the decision as repaired in place and the
    ledger.  When it raises the ledger has not been touched. *)
Definition _validate_decision (decision : json) (state : AgentState.t)
  : result (bool * json * AgentState.t) :=
  match decision with
  | JObj d =>
      let action := get "action" d in
      if negb (json_is_str action "use_tool" || json_is_str action "stop") then
        Ok (false, decision, state)
      else if json_is_str action "use_tool" then
        let tool := get "tool" d in
        missing <- tool_not_available tool ;;
        if missing then
          Ok (false, decision,
              AgentState.add_thinking
                ("Invalid tool requested: " ++ py_str tool) state)
        else
          let d := if negb (Dict.mem "parameters" d)
                   then Dict.set "parameters" (JObj []) d else d in
          let d := if negb (Dict.mem "reasoning" d)
                   then Dict.set "reasoning" (JStr "No reasoning provided") d
                   else d in
          Ok (true, JObj d, state)
      else
        let d := if negb (Dict.mem "reasoning" d)
                 then Dict.set "reasoning" (JStr "Agent decided to stop") d
                 else d in
        Ok (true, JObj d, state)
  | _ => Ok (false, decision, state)
  end.

(** Provide a sensible fallback decision when the reply is unclear. *)
Definition _get_fallback_decision (state : AgentState.t) : json :=
  match AgentState.files_created state with
  | [] =>
      (* If no files exist, start with thinking *)
      use_tool "think"
        [("focus", JStr "problem analysis");
         ("context", JStr "Starting problem analysis")]
        "Fallback: Starting with problem analysis"
  | first_file :: files =>
      let latest_file := List.last files first_file in
      (* If we have files but no executions, try executing *)
      if match AgentState.execution_results state with
         | [] => Py.endswith (FileInfo.filename latest_file) ".py"
         | _ :: _ => false
         end
      then
        use_tool "execute_code"
          [("filename", JStr (FileInfo.filename latest_file));
           ("goal", JStr "test the solution")]
          "Fallback: Testing the generated solution"
      (* If quality is low, try thinking about improvements *)
      else if AgentState.best_quality_score state <? 70 then
        use_tool "think"
          [("focus", JStr "solution improvement");
           ("context",
            JStr ("Current quality is "
                  ++ Py.str_of_int (AgentState.best_quality_score state)
                  ++ "/100"))]
          "Fallback: Analyzing ways to improve solution quality"
      (* If we're running out of calls or quality is good, stop *)
      else if (AgentState.remaining_calls state <=? 1)
              || (AgentState.best_quality_score state >=? 80) then
        stop ("Fallback: Stopping due to "
              ++ (if AgentState.remaining_calls state <=? 1
                  then "call limit" else "good quality achieved"))
      (* Last resort - generate code *)
      else
        use_tool "generate_code"
          [("approach", JStr "improved solution");
           ("based_on", JStr "previous attempts")]
          "Fallback: Generating improved solution"
  end.

(** Try to interpret a non-JSON reply. *)
Definition _interpret_text_response (response : string)
    (state : AgentState.t) : json :=
  let response_lower := str_lower response in
  (* Look for stop indicators *)
  if existsb (fun indicator => Py.contains indicator response_lower)
       stop_indicators
  then stop ("Interpreted from response: " ++ Py.take 100 response ++ "...")
  else
    (* Look for tool mentions *)
    match List.find (fun tool_name => Py.contains tool_name response_lower)
            available_tools with
    | Some tool_name =>
        use_tool tool_name []
          ("Interpreted " ++ tool_name ++ " from response: "
           ++ Py.take 100 response ++ "...")
    | None =>
        (* Default fallback *)
        _get_fallback_decision state
    end.

(** The body of the [try] in [_parse_llm_decision]: the validated
    decision when the brace span decodes and validates, [None] when
    the code goes on to the textual interpretation. *)
Definition extract_json (response_text : string) (state : AgentState.t)
  : result (option json * AgentState.t) :=
  let json_start := Py.find "{"%char response_text in
  let json_end := Py.rfind "}"%char response_text + 1 in
  if (json_start >=? 0) && (json_end >? json_start) then
    let json_text := Py.slice response_text json_start json_end in
    decision <- json_loads json_text ;;
    r <- _validate_decision decision state ;;
    let '(valid, decision, state) := r in
    Ok (if valid then Some decision else None, state)
  else Ok (None, state).

(** Parse the reply into a structured decision.  The handler starts
    from the ledger as it was on entry: both raising operations raise
    before the ledger is written. *)
Definition _parse_llm_decision (llm_response : string) (state : AgentState.t)
  : result (json * AgentState.t) :=
  try_except
    (let response_text := Py.strip llm_response in
     r <- extract_json response_text state ;;
     match r with
     | (Some decision, state) => Ok (decision, state)
     | (None, state) =>
         (* If JSON parsing fails, try to interpret the response *)
         Ok (_interpret_text_response response_text state, state)
     end)
    (fun e =>
       let state :=
         AgentState.add_thinking
           ("Error parsing LLM decision: " ++ exn_msg e) state in
       Ok (_get_fallback_decision state, state)).

(** [get_current_context_summary] renders the recent calls (which can
    raise), then the reply is requested and parsed. *)
Definition decide_next_action (state : AgentState.t)
  : result (json * AgentState.t) :=
  _ <- AgentState.get_recent_actions 3 state ;;
  llm_response <- llm_client state ;;
  _parse_llm_decision llm_response state.

End Selector.

End AutonomousToolSelector.

(** ** The control loop: class [FullyAutonomousCodingAgent] *)

Module FullyAutonomousCodingAgent.

(** The five capabilities registered in [__init__]. *)
Definition tools : list string :=
  ["think"; "generate_code"; "read_file"; "write_file"; "execute_code"].

(** What lies outside the loop: the reasoning oracle and the execution
    of a capability, [self.tools[name].execute] on the decision's parameters, which returns
    an envelope or raises. *)
Record Environment := {
  llm_client : AutonomousToolSelector.llm;
  execute : AgentState.t -> string -> Dict.t -> result ToolResult.t
}.

Inductive completion_status := SUCCESS | INCOMPLETE | ERROR.

Record report := {
  status : completion_status;
  error : option string;
  state_data : AgentState.t
}.

(** A run of the main loop: how it ended and the ledger after each phase
    (decision, dispatch, reassessment) of each cycle, in order. *)
Record run := {
  outcome : result unit;
  ledgers : list AgentState.t
}.

Definition final_state (initial : AgentState.t) (r : run) : AgentState.t :=
  List.last (ledgers r) initial.

(** [decision[k]] *)
Definition getitem (k : string) (decision : json) : result json :=
  match decision with
  | JObj d => Dict.getitem k d
  | _ => Raise (Exn "TypeError" "object is not subscriptable")
  end.

Section Agent.
Context {RT : PyRuntime}.
Variable env : Environment.

(** [parameters.get(key, default)] for a parameter the capability has
    used as a [str] (a path component or file content): when the
    capability reports success the value is a [str] or absent, and
    only then is this read. *)
Definition param_str (key default : string) (parameters : Dict.t) : string :=
  match Dict.get key parameters with
  | Some (JStr v) => v
  | Some v => py_str v
  | None => default
  end.

(** The decision is obtained and, for [use_tool], recorded in the
    ledger.  An exception leaves the ledger as it was. *)
Definition _make_autonomous_decision (state : AgentState.t)
  : result json * AgentState.t :=
  match AutonomousToolSelector.decide_next_action tools (llm_client env) state with
  | Raise e => (Raise e, state)
  | Ok (decision, state) =>
      match
        (action <- getitem "action" decision ;;
         if json_is_str action "use_tool" then
           tool_name <- getitem "tool" decision ;;
           reasoning <- getitem "reasoning" decision ;;
           parameters <- getitem "parameters" decision ;;
           (* Record the decision in state *)
           Ok (AgentState.add_tool_call tool_name parameters reasoning state)
         else
           _ <- getitem "reasoning" decision ;;
           Ok state)
      with
      | Ok state' => (Ok decision, state')
      | Raise e => (Raise e, state)
      end
  end.

(** [self.tools[tool_name].execute] applied to the keyword arguments
    [parameters]. *)
Definition call_tool (tool_name parameters : json) (state : AgentState.t)
  : result ToolResult.t :=
  match tool_name with
  | JStr name =>
      if existsb (String.eqb name) tools then
        match parameters with
        | JObj kwargs => execute env state name kwargs
        | _ => Raise (Exn "TypeError" "argument after ** must be a mapping")
        end
      else Raise (Exn "KeyError" ("'" ++ name ++ "'"))
  | JArr _ => Raise (Exn "TypeError" "unhashable type: 'list'")
  | JObj _ => Raise (Exn "TypeError" "unhashable type: 'dict'")
  | v => Raise (Exn "KeyError" (py_str v))
  end.

(** Process specific tool results and update state accordingly.  Every
    raise happens before this function has written to the ledger. *)
Definition _process_tool_result (tool_name : json) (envelope : ToolResult.t)
    (parameters : Dict.t) (state : AgentState.t) : result AgentState.t :=
  if negb (get_or (ToolResult.success envelope) false) then Ok state
  else
    match ToolResult.result envelope with
    | None => Raise (Exn "KeyError" "'result'")
    | Some tool_result =>
        if json_is_str tool_name "think" then
          let thinking_content :=
            get_or (ToolResult.thinking_process tool_result) EmptyString in
          let state :=
            AgentState.add_thinking
              ("Thinking: " ++ Py.take 200 thinking_content ++ "...") state in
          let solution_plan :=
            get_or (ToolResult.solution_plan tool_result) EmptyString in
          if Py.truthy solution_plan then
            Ok (AgentState.set_current_approach
                  (if Py.len solution_plan >? 100
                   then Py.take 100 solution_plan ++ "..."
                   else solution_plan) state)
          else Ok state
        else if json_is_str tool_name "generate_code" then
          let generated_code :=
            get_or (ToolResult.generated_code tool_result) EmptyString in
          Ok (AgentState.add_thinking
                ("Generated " ++ Py.str_of_int (Py.len generated_code)
                 ++ " characters of code") state)
        else if json_is_str tool_name "write_file" then
          let filename := param_str "filename" "unknown" parameters in
          let content := param_str "content" EmptyString parameters in
          let content_type := param_str "type" "unknown" parameters in
          let purpose := "Tool call: " ++ py_str tool_name in
          match ToolResult.file_path tool_result with
          | None => Raise (Exn "KeyError" "'file_path'")
          | Some path =>
              Ok (AgentState.add_file filename path content_type purpose
                    (Py.len content) state)
          end
        else if json_is_str tool_name "read_file" then
          let filename := param_str "filename" "unknown" parameters in
          let content := get_or (ToolResult.content tool_result) EmptyString in
          Ok (AgentState.add_thinking
                ("Read " ++ filename ++ ": "
                 ++ Py.str_of_int (Py.len content) ++ " characters") state)
        else if json_is_str tool_name "execute_code" then
          let filename := param_str "filename" "unknown" parameters in
          let exit_code := get_or (ToolResult.exit_code tool_result) (-1) in
          let stdout := get_or (ToolResult.stdout tool_result) EmptyString in
          let stderr := get_or (ToolResult.stderr tool_result) EmptyString in
          let analysis := get_or (ToolResult.analysis tool_result) None in
          AgentState.add_execution_result filename exit_code stdout stderr
            (get_or analysis no_test_results) state
        else Ok state
    end.

(** Execute the tool that the agent decided to use. *)
Definition _execute_tool_decision (decision : json) (state : AgentState.t)
  : result unit * AgentState.t :=
  match (tool_name <- getitem "tool" decision ;;
         parameters <- getitem "parameters" decision ;;
         Ok (tool_name, parameters)) with
  | Raise e => (Raise e, state)
  | Ok (tool_name, parameters) =>
      let handler (e : exn) (state : AgentState.t) :=
        let error_result := ToolResult.failure (exn_msg e) in
        let state := AgentState.update_last_tool_call error_result state in
        AgentState.add_issue
          (py_str tool_name ++ " execution error: " ++ exn_msg e) state in
      match call_tool tool_name parameters state with
      | Raise e => (Ok tt, handler e state)
      | Ok tool_result =>
          (* Update state with the result *)
          let state := AgentState.update_last_tool_call tool_result state in
          (* Handle specific tool results *)
          match _process_tool_result tool_name tool_result
                  (match parameters with JObj kwargs => kwargs | _ => [] end)
                  state with
          | Raise e => (Ok tt, handler e state)
          | Ok state =>
              if negb (get_or (ToolResult.success tool_result) false) then
                let error :=
                  get_or (ToolResult.error tool_result) "Unknown error" in
                (Ok tt, AgentState.add_issue
                          (py_str tool_name ++ " failed: " ++ error) state)
              else (Ok tt, state)
          end
      end
  end.

(** Update the agent's self-assessment of progress and satisfaction. *)
Definition _update_agent_assessment (state : AgentState.t) : AgentState.t :=
  let satisfaction := 0 in
  let confidence := 0 in
  let satisfaction :=
    match AgentState.files_created state with
    | [] => satisfaction | _ => satisfaction + 20 end in
  let satisfaction :=
    match AgentState.execution_results state with
    | [] => satisfaction | _ => satisfaction + 20 end in
  let satisfaction :=
    if AgentState.best_quality_score state >? 0
    then satisfaction + Z.min 50 (AgentState.best_quality_score state / 2)
    else satisfaction in
  let confidence :=
    if (Z.of_nat (List.length (AgentState.tool_calls state)) >? 0)
    then confidence + 20 else confidence in
  let confidence :=
    if AgentState.best_quality_score state >=? 70
    then confidence + 50 else confidence in
  let confidence :=
    match AgentState.identified_issues state with
    | [] => confidence + 30 | _ => confidence end in
  let state := AgentState.update_satisfaction satisfaction EmptyString state in
  let state := AgentState.update_confidence confidence EmptyString state in
  (* Auto-satisfaction for very high quality *)
  if (AgentState.best_quality_score state >=? 90)
     && negb (AgentState.is_satisfied state)
  then AgentState.mark_satisfied
         (JStr ("High quality solution achieved: "
                ++ Py.str_of_int (AgentState.best_quality_score state)
                ++ "/100")) state
  else state.

Definition continue (state : AgentState.t) : bool :=
  (AgentState.remaining_calls state >? 0)
  && negb (AgentState.is_satisfied state).

Definition prepend (l : list AgentState.t) (r : run) : run :=
  {| outcome := outcome r; ledgers := (l ++ ledgers r)%list |}.

(** [while state.remaining_calls > 0 and not state.is_satisfied: ...],
    unrolled at most [fuel] times ([None]: more cycles were needed). *)
Fixpoint main_loop (fuel : nat) (state : AgentState.t) : option run :=
  match fuel with
  | O => None
  | S fuel' =>
      if continue state then
        (* Let the LLM decide what to do next *)
        match _make_autonomous_decision state with
        | (Raise e, state1) =>
            Some {| outcome := Raise e; ledgers := [state1] |}
        | (Ok decision, state1) =>
            match getitem "action" decision with
            | Raise e => Some {| outcome := Raise e; ledgers := [state1] |}
            | Ok action =>
                if json_is_str action "stop" then
                  match getitem "reasoning" decision with
                  | Raise e =>
                      Some {| outcome := Raise e; ledgers := [state1] |}
                  | Ok reasoning =>
                      Some {| outcome := Ok tt;
                              ledgers :=
                                [state1;
                                 AgentState.mark_satisfied reasoning state1] |}
                  end
                else
                  (* Execute the chosen tool *)
                  match _execute_tool_decision decision state1 with
                  | (Raise e, state2) =>
                      Some {| outcome := Raise e; ledgers := [state1; state2] |}
                  | (Ok _, state2) =>
                      (* Update agent's self-assessment *)
                      let state3 := _update_agent_assessment state2 in
                      option_map (prepend [state1; state2; state3])
                        (main_loop fuel' state3)
                  end
            end
        end
      else Some {| outcome := Ok tt; ledgers := [] |}
  end.

(** [solve_problem]: a report for the loop's normal end, the error
    report when an exception reached the outer handler. *)
Definition solve_problem (max_tool_calls : Z) (problem_statement : string)
  : option report :=
  let state := AgentState.init problem_statement max_tool_calls in
  match main_loop (S (Z.to_nat max_tool_calls)) state with
  | None => None
  | Some r =>
      let state := final_state state r in
      Some match outcome r with
           | Ok _ =>
               {| status := if AgentState.is_satisfied state
                            then SUCCESS else INCOMPLETE;
                  error := None;
                  state_data := state |}
           | Raise e =>
               {| status := ERROR;
                  error := Some (exn_msg e);
                  state_data := state |}
           end
  end.

End Agent.

End FullyAutonomousCodingAgent.

(** ** A reference runtime for running the model

    Exact on ASCII text: ASCII case mapping, a JSON decoder for documents
    without [\u] escapes, and [str()] for [str], [None], [bool] and plain
    decimal integers; a rejected document raises [JSONDecodeError] with
    one fixed message.  The theorems below that quantify over [PyRuntime]
    do not depend on it. *)

Module Reference.

Definition lower_ascii (a : ascii) : ascii :=
  let n := nat_of_ascii a in
  if ((65 <=? n) && (n <=? 90))%nat then ascii_of_nat (n + 32) else a.

Fixpoint lower (s : string) : string :=
  match s with
  | EmptyString => EmptyString
  | String a s' => String (lower_ascii a) (lower s')
  end.

Definition is_space (a : ascii) : bool :=
  let n := nat_of_ascii a in
  ((n =? 32) || (n =? 9) || (n =? 10) || (n =? 13))%nat.

Fixpoint skip_ws (s : string) : string :=
  match s with
  | String a s' => if is_space a then skip_ws s' else s
  | EmptyString => s
  end.

Definition is_digit (a : ascii) : bool :=
  let n := nat_of_ascii a in ((48 <=? n) && (n <=? 57))%nat.

(** The longest run of digits at the head of [s], and the rest. *)
Fixpoint digits (s : string) : string * string :=
  match s with
  | String a s' =>
      if is_digit a then let '(d, r) := digits s' in (String a d, r)
      else (EmptyString, s)
  | EmptyString => (EmptyString, s)
  end.

(** A number lexeme: optional minus, an integer part without leading
    zeros, an optional fraction, an optional exponent. *)
Definition number (s : string) : option (string * string) :=
  let '(sign, s) :=
    match s with
    | String c s' => if Ascii.eqb c "-" then ("-", s') else (EmptyString, s)
    | _ => (EmptyString, s)
    end in
  let '(int, s) :=
    match s with
    | String c s' => if Ascii.eqb c "0" then ("0", s') else digits s
    | _ => digits s
    end in
  if negb (Py.truthy int) then None
  else
    let '(frac, s) :=
      match s with
      | String c s' =>
          if Ascii.eqb c "." then
            let '(d, r) := digits s' in
            if Py.truthy d then ("." ++ d, r) else (EmptyString, s)
          else (EmptyString, s)
      | _ => (EmptyString, s)
      end in
    let '(exp, s) :=
      match s with
      | String e s' =>
          if Ascii.eqb e "e" || Ascii.eqb e "E" then
            let '(sg, s'') :=
              match s' with
              | String c r =>
                  if Ascii.eqb c "+" then ("+", r)
                  else if Ascii.eqb c "-" then ("-", r)
                  else (EmptyString, s')
              | _ => (EmptyString, s')
              end in
            let '(d, r) := digits s'' in
            if Py.truthy d then (String e (sg ++ d), r) else (EmptyString, s)
          else (EmptyString, s)
      | _ => (EmptyString, s)
      end in
    Some (sign ++ int ++ frac ++ exp, s).

Definition quote : ascii := ascii_of_nat 34.

(** The characters of a string literal after its opening quote. *)
Fixpoint string_body (s : string) : option (string * string) :=
  match s with
  | EmptyString => None
  | String a s' =>
      if Ascii.eqb a quote then Some (EmptyString, s')
      else if (nat_of_ascii a <? 32)%nat then None
      else if Ascii.eqb a "\" then
        match s' with
        | String e s'' =>
            let unescaped :=
              if Ascii.eqb e quote then Some quote
              else if Ascii.eqb e "\" then Some "\"%char
              else if Ascii.eqb e "/" then Some "/"%char
              else if Ascii.eqb e "b" then Some (ascii_of_nat 8)
              else if Ascii.eqb e "f" then Some (ascii_of_nat 12)
              else if Ascii.eqb e "n" then Some (ascii_of_nat 10)
              else if Ascii.eqb e "r" then Some (ascii_of_nat 13)
              else if Ascii.eqb e "t" then Some (ascii_of_nat 9)
              else None in
            match unescaped, string_body s'' with
            | Some c, Some (body, rest) => Some (String c body, rest)
            | _, _ => None
            end
        | EmptyString => None
        end
      else
        match string_body s' with
        | Some (body, rest) => Some (String a body, rest)
        | None => None
        end
  end.

Definition literal (s : string) : option (json * string) :=
  let try_word (w : string) (v : json) :=
    if String.prefix w s then Some (v, Py.drop (String.length w) s) else None in
  match try_word "null" JNull with
  | Some r => Some r
  | None =>
      match try_word "true" (JBool true) with
      | Some r => Some r
      | None =>
          match try_word "false" (JBool false) with
          | Some r => Some r
          | None =>
              match try_word "NaN" (JNum "nan") with
              | Some r => Some r
              | None =>
                  match try_word "Infinity" (JNum "inf") with
                  | Some r => Some r
                  | None => try_word "-Infinity" (JNum "-inf")
                  end
              end
          end
      end
  end.

Inductive mode :=
| Value
| Members (acc : Dict.t)
| Elements (acc : list json).

(** One decoder for values, the members of an object after its brace
    (or a comma) and the elements of an array. *)
Fixpoint decode (fuel : nat) (m : mode) (s : string) : option (json * string) :=
  match fuel with
  | O => None
  | S fuel' =>
      match m with
      | Value =>
          match s with
          | EmptyString => None
          | String c s' =>
              if Ascii.eqb c "{" then
                match skip_ws s' with
                | String c' r =>
                    if Ascii.eqb c' "}" then Some (JObj [], r)
                    else decode fuel' (Members []) (String c' r)
                | EmptyString => None
                end
              else if Ascii.eqb c "[" then
                match skip_ws s' with
                | String c' r =>
                    if Ascii.eqb c' "]" then Some (JArr [], r)
                    else decode fuel' (Elements []) (String c' r)
                | EmptyString => None
                end
              else if Ascii.eqb c quote then
                match string_body s' with
                | Some (v, r) => Some (JStr v, r)
                | None => None
                end
              else
                match literal s with
                | Some r => Some r
                | None =>
                    match number s with
                    | Some (lexeme, r) => Some (JNum lexeme, r)
                    | None => None
                    end
                end
          end
      | Members acc =>
          match s with
          | EmptyString => None
          | String c s' =>
              if negb (Ascii.eqb c quote) then None
              else
                match string_body s' with
                | None => None
                | Some (key, r) =>
                    match skip_ws r with
                    | EmptyString => None
                    | String c' r' =>
                        if negb (Ascii.eqb c' ":") then None
                        else
                          match decode fuel' Value (skip_ws r') with
                          | None => None
                          | Some (v, r'') =>
                              let acc := Dict.set key v acc in
                              match skip_ws r'' with
                              | EmptyString => None
                              | String c'' r3 =>
                                  if Ascii.eqb c'' "," then
                                    decode fuel' (Members acc) (skip_ws r3)
                                  else if Ascii.eqb c'' "}" then
                                    Some (JObj acc, r3)
                                  else None
                              end
                          end
                    end
                end
          end
      | Elements acc =>
          match decode fuel' Value s with
          | None => None
          | Some (v, r) =>
              let acc := (acc ++ [v])%list in
              match skip_ws r with
              | EmptyString => None
              | String c r' =>
                  if Ascii.eqb c "," then decode fuel' (Elements acc) (skip_ws r')
                  else if Ascii.eqb c "]" then Some (JArr acc, r')
                  else None
              end
          end
      end
  end.

Definition loads (s : string) : result json :=
  match decode (S (String.length s)) Value (skip_ws s) with
  | Some (v, r) =>
      match skip_ws r with
      | EmptyString => Ok v
      | _ => Raise (Exn "JSONDecodeError" "not a JSON document")
      end
  | None => Raise (Exn "JSONDecodeError" "not a JSON document")
  end.

Fixpoint render (v : json) : string :=
  match v with
  | JNull => "None"
  | JBool true => "True"
  | JBool false => "False"
  | JNum lexeme => lexeme
  | JStr s => s
  | JArr items => "[" ++ Py.join ", " (map render items) ++ "]"
  | JObj items =>
      "{" ++ Py.join ", "
               (map (fun kv => "'" ++ fst kv ++ "': " ++ render (snd kv)) items)
      ++ "}"
  end.

#[export] Instance runtime : PyRuntime :=
  {| str_lower := lower; json_loads := loads; py_str := render |}.

End Reference.


(** ** The rest of the run capability ([tools/execution_tool.py])

    The subprocess, the file system and the clock are the host's.  The
    durations and timestamps of a run, and the log text built from them,
    are left out; writing the log file is kept as a step that can raise. *)

Module ExecutionRun.

(** What [subprocess.run] does with the script. *)
Inductive process : Type :=
| Completed (stdout stderr : string) (returncode : Z)
| TimeoutExpired
| FileNotFoundError
| OtherError (e : exn).

Record Host := {
  path_exists : string -> bool;
  run : string -> Z -> process;
  write_log : result unit
}.

(** The dict returned by [_run_python_script]. *)
Record run_result := {
  stdout : string;
  stderr : string;
  returncode : Z;
  timed_out : bool
}.

Record error_analysis := {
  error_type : string;
  is_syntax_error : bool;
  is_runtime_error : bool;
  is_import_error : bool;
  error_summary : string
}.

Record analysis := {
  success : bool;
  has_output : bool;
  has_errors : bool;
  analysis_timed_out : bool;
  test_results : TestResults;
  errors : option error_analysis
}.

(** The [result] of a successful envelope. *)
Record payload := {
  payload_stdout : string;
  payload_stderr : string;
  exit_code : Z;
  payload_analysis : analysis
}.

(** [BaseTool.format_result]: a key is present when its value is not
    [None]. *)
Record envelope := {
  envelope_success : bool;
  envelope_result : option payload;
  envelope_error : option string
}.

Definition format_result (success : bool) (result : option payload)
    (error : option string) : envelope :=
  {| envelope_success := success; envelope_result := result;
     envelope_error := error |}.

(** Run a Python script with timeout and capture output. *)
Definition _run_python_script (outcome : process) (timeout : Z)
  : result run_result :=
  match outcome with
  | Completed out err code =>
      Ok {| stdout := out; stderr := err; returncode := code;
            timed_out := false |}
  | TimeoutExpired =>
      Ok {| stdout := EmptyString;
            stderr := "Execution timed out after " ++ Py.str_of_int timeout
                      ++ " seconds";
            returncode := -1;
            timed_out := true |}
  | FileNotFoundError =>
      Ok {| stdout := EmptyString;
            stderr := "Python interpreter not found";
            returncode := -2;
            timed_out := false |}
  | OtherError e => Raise e
  end.

(** [l[-2]] *)
Definition second_to_last (l : list string) : result string :=
  match List.rev l with
  | _ :: x :: _ => Ok x
  | _ => Raise (Exn "IndexError" "list index out of range")
  end.

Definition runtime_error_names : list string :=
  ["nameerror"; "typeerror"; "valueerror"; "attributeerror"].

Section Analysis.
Context {RT : PyRuntime}.

(** Analyze error messages to categorize the type of errors. *)
Definition _analyze_errors (stderr : string) : result error_analysis :=
  error_summary <-
    (if Py.truthy (Py.strip stderr)
     then second_to_last (Py.split Py.newline stderr)
     else Ok EmptyString) ;;
  let stderr_lower := str_lower stderr in
  if Py.contains "syntaxerror" stderr_lower then
    Ok {| error_type := "syntax"; is_syntax_error := true;
          is_runtime_error := false; is_import_error := false;
          error_summary := error_summary |}
  else if Py.contains "importerror" stderr_lower
          || Py.contains "modulenotfounderror" stderr_lower then
    Ok {| error_type := "import"; is_syntax_error := false;
          is_runtime_error := false; is_import_error := true;
          error_summary := error_summary |}
  else if existsb (fun err => Py.contains err stderr_lower) runtime_error_names then
    Ok {| error_type := "runtime"; is_syntax_error := false;
          is_runtime_error := true; is_import_error := false;
          error_summary := error_summary |}
  else
    Ok {| error_type := "unknown"; is_syntax_error := false;
          is_runtime_error := false; is_import_error := false;
          error_summary := error_summary |}.

(** Analyze execution results to determine success/failure patterns. *)
Definition _analyze_execution_result (r : run_result) : result analysis :=
  error_analysis <-
    (if Py.truthy (stderr r)
     then (a <- _analyze_errors (stderr r) ;; Ok (Some a))
     else Ok None) ;;
  Ok {| success := (returncode r =? 0) && negb (timed_out r);
        has_output := Py.truthy (Py.strip (stdout r));
        has_errors := Py.truthy (Py.strip (stderr r));
        analysis_timed_out := timed_out r;
        test_results := ExecutionTool._parse_test_results (stdout r);
        errors := error_analysis |}.

(** [ExecutionTool.execute]; [directory] defaults to ["solutions"] and
    [timeout] to 30. *)
Definition execute (host : Host) (workspace_path filename directory : string)
    (timeout : Z) : envelope :=
  let script_path := ExecutionTool.script_path workspace_path filename directory in
  (* Check if file exists *)
  if negb (path_exists host script_path) then
    format_result false None (Some ("Script not found: " ++ script_path))
  else
    match
      (execution_result <- _run_python_script (run host script_path timeout) timeout ;;
       analysis <- _analyze_execution_result execution_result ;;
       _ <- write_log host ;;
       Ok (execution_result, analysis))
    with
    | Ok (execution_result, analysis) =>
        format_result true
          (Some {| payload_stdout := stdout execution_result;
                   payload_stderr := stderr execution_result;
                   exit_code := returncode execution_result;
                   payload_analysis := analysis |})
          None
    | Raise e =>
        format_result false None (Some ("Execution tool error: " ++ exn_msg e))
    end.

End Analysis.

(** The envelope as the control loop reads it. *)
Definition as_tool_result (e : envelope) : ToolResult.t :=
  {| ToolResult.success := Some (envelope_success e);
     ToolResult.result :=
       option_map
         (fun p =>
            {| ToolResult.thinking_process := None;
               ToolResult.solution_plan := None;
               ToolResult.generated_code := None;
               ToolResult.file_path := None;
               ToolResult.content := None;
               ToolResult.exit_code := Some (exit_code p);
               ToolResult.stdout := Some (payload_stdout p);
               ToolResult.stderr := Some (payload_stderr p);
               ToolResult.analysis :=
                 Some (Some (test_results (payload_analysis p))) |})
         (envelope_result e);
     ToolResult.error := envelope_error e |}.

End ExecutionRun.

(** ** Pulling sections out of the oracle's prose ([tools/thinking_tool.py]) *)

Module ThinkingTool.

Definition keywords : list string :=
  ["ANALYSIS"; "APPROACH"; "PLAN"; "PSEUDOCODE"].

Definition newline_str : string := String Py.newline EmptyString.

Section Extract.
(** [str.upper] *)
Variable str_upper : string -> string.

(** The header test of the loop: the section's name, in upper case, and a
    colon on the line. *)
Definition opens (section_name line : string) : bool :=
  Py.contains (str_upper section_name) (str_upper line) && Py.contains ":" line.

(** The test that ends a section: any keyword and a colon on the line. *)
Definition closes (line : string) : bool :=
  existsb (fun keyword => Py.contains keyword (str_upper line)) keywords
  && Py.contains ":" line.

(** The [for line in lines] loop, [section_content] being what it
    appends from here on. *)
Fixpoint section_content (section_name : string) (in_section : bool)
    (lines : list string) : list string :=
  match lines with
  | [] => []
  | line :: lines' =>
      if opens section_name line then section_content section_name true lines'
      else if in_section && closes line then []
      else if in_section then line :: section_content section_name true lines'
      else section_content section_name in_section lines'
  end.

(** Helper to extract specific sections from the response. *)
Definition _extract_section (response section_name : string) : string :=
  let lines := Py.split Py.newline response in
  Py.strip (Py.join newline_str (section_content section_name false lines)).

Definition _extract_problem_analysis (response : string) : string :=
  _extract_section response "ANALYSIS".

Definition _extract_solution_plan (response : string) : string :=
  _extract_section response "PLAN".

Definition _extract_pseudocode (response : string) : string :=
  _extract_section response "PSEUDOCODE".

End Extract.

End ThinkingTool.

(** ** Pulling code out of the oracle's reply ([tools/code_gen_tool.py]) *)

Module CodeGenerationTool.

Definition fence : string := "```".
Definition python_fence : string := "```python".

(** The [for line in lines] loop of [_extract_python_code],
    [code_lines] being what it appends from here on. *)
Fixpoint code_lines (in_code_block : bool) (lines : list string) : list string :=
  match lines with
  | [] => []
  | line :: lines' =>
      (* Handle markdown code blocks *)
      if String.prefix python_fence (Py.strip line) then code_lines true lines'
      else if String.eqb (Py.strip line) fence && in_code_block then []
      else if in_code_block
              || (negb (String.prefix fence (Py.strip line))
                  && Py.contains "def " line)
      then line :: code_lines true lines'
      else if in_code_block then line :: code_lines in_code_block lines'
      else code_lines in_code_block lines'
  end.

(** Extract clean Python code from LLM response. *)
Definition _extract_python_code (response : string) : string :=
  let lines := Py.split Py.newline response in
  let found := code_lines false lines in
  (* If no code block markers found, assume entire response is code *)
  let found :=
    match found with
    | [] => if Py.contains "def " response then lines else found
    | _ :: _ => found
    end in
  Py.strip (Py.join ThinkingTool.newline_str found).

Record code_structure := {
  has_solution_function : bool;
  has_test_function : bool;
  has_main_block : bool;
  function_count : Z;
  estimated_test_cases : Z
}.

Section Structure.
Context {RT : PyRuntime}.

(** Body of the loop of [_analyze_code_structure]. *)
Definition scan_code_line (a : code_structure) (line : string) : code_structure :=
  if String.prefix "def " (Py.strip line) then
    if Py.contains "test" (str_lower line) then
      {| has_solution_function := has_solution_function a;
         has_test_function := true;
         has_main_block := has_main_block a;
         function_count := function_count a + 1;
         estimated_test_cases := estimated_test_cases a |}
    else
      {| has_solution_function := true;
         has_test_function := has_test_function a;
         has_main_block := has_main_block a;
         function_count := function_count a + 1;
         estimated_test_cases := estimated_test_cases a |}
  else if String.prefix "if __name__" (Py.strip line) then
    {| has_solution_function := has_solution_function a;
       has_test_function := has_test_function a;
       has_main_block := true;
       function_count := function_count a;
       estimated_test_cases := estimated_test_cases a |}
  else if Py.contains "assert" line || Py.contains "test_cases" (str_lower line) then
    {| has_solution_function := has_solution_function a;
       has_test_function := has_test_function a;
       has_main_block := has_main_block a;
       function_count := function_count a;
       estimated_test_cases := estimated_test_cases a + 1 |}
  else a.

(** Analyze the structure of generated code. *)
Definition _analyze_code_structure (code : string) : code_structure :=
  let analysis0 :=
    {| has_solution_function := false; has_test_function := false;
       has_main_block := false; function_count := 0;
       estimated_test_cases := 0 |} in
  fold_left scan_code_line (Py.split Py.newline code) analysis0.

End Structure.

End CodeGenerationTool.

(** ** The ledger's summary of its runs ([agent_state.py]) *)

Module ExecutionSummary.

(** [average_quality] is the int 0 for a ledger without runs and a float
    otherwise. *)
Inductive number : Type :=
| Int (n : Z)
| Float (x : spec_float).

(** The dict returned by [_get_execution_summary]; the two [latest] keys
    are absent for a ledger without runs. *)
Record t := {
  executions : Z;
  average_quality : number;
  best_quality : Z;
  latest_quality : option Z;
  latest_exit_code : option Z
}.


(** [max(qualities)] for a non-empty list. *)
Definition max (first : Z) (others : list Z) : Z := fold_left Z.max others first.


End ExecutionSummary.

(** ** Calling a capability with keyword arguments

    [self.tools[tool_name].execute( **parameters )] binds the keys of
    [parameters] to the parameters of the method before its body runs.
    The five methods have neither keyword-only nor variadic parameters. *)

Module Capability.

(** The parameters of an [execute] method after [self]: those without a
    default and those with one. *)
Record signature := {
  required : list string;
  optional : list string
}.

(** [ThinkingTool.execute(self, problem_statement, previous_attempts=None,
    context=None)] *)
Definition think : signature :=
  {| required := ["problem_statement"];
     optional := ["previous_attempts"; "context"] |}.

(** [CodeGenerationTool.execute(self, problem_statement, thinking_output,
    previous_code=None, execution_feedback=None)] *)
Definition generate_code : signature :=
  {| required := ["problem_statement"; "thinking_output"];
     optional := ["previous_code"; "execution_feedback"] |}.

(** [ReadFileTool.execute(self, filename, directory=...)] *)
Definition read_file : signature :=
  {| required := ["filename"]; optional := ["directory"] |}.

(** [WriteFileTool.execute(self, filename, content, directory=...,
    overwrite=True)] *)
Definition write_file : signature :=
  {| required := ["filename"; "content"];
     optional := ["directory"; "overwrite"] |}.

(** [ExecutionTool.execute(self, filename, directory=..., timeout=30)] *)
Definition execute_code : signature :=
  {| required := ["filename"]; optional := ["directory"; "timeout"] |}.

(** The method behind each key of [self.tools]. *)
Definition signature_of (name : string) : option signature :=
  if String.eqb name "think" then Some think
  else if String.eqb name "generate_code" then Some generate_code
  else if String.eqb name "read_file" then Some read_file
  else if String.eqb name "write_file" then Some write_file
  else if String.eqb name "execute_code" then Some execute_code
  else None.

(** Binding the keyword arguments: a key that names no parameter, or a
    parameter without default that no key names, raises [TypeError].
    The wording of the message depends on the interpreter and is kept
    short here. *)
Definition bind_arguments (s : signature) (kwargs : Dict.t) : result unit :=
  match List.find
          (fun k => negb (existsb (String.eqb k) (required s ++ optional s)))
          (map fst kwargs) with
  | Some k =>
      Raise (Exn "TypeError"
               ("execute() got an unexpected keyword argument '" ++ k ++ "'"))
  | None =>
      match List.find (fun r => negb (Dict.mem r kwargs)) (required s) with
      | Some r =>
          Raise (Exn "TypeError"
                   ("execute() missing required positional argument: '" ++ r ++ "'"))
      | None => Ok tt
      end
  end.

(** A capability whose method has the body [body]: the arguments are
    bound, then the body runs. *)
Definition call (body : AgentState.t -> string -> Dict.t -> result ToolResult.t)
    (state : AgentState.t) (name : string) (kwargs : Dict.t)
  : result ToolResult.t :=
  match signature_of name with
  | Some s => _ <- bind_arguments s kwargs ;; body state name kwargs
  | None => body state name kwargs
  end.

End Capability.

(** * Vocabulary of the statements *)

(** The points each rule of the scorer awards. *)
Definition exit_points (exit_code : Z) : Z :=
  if exit_code =? 0 then 30 else 0.

Definition output_points (stdout : string) : Z :=
  if Py.truthy (Py.strip stdout) then 10 else 0.

Definition clean_points (stderr : string) : Z :=
  if negb (Py.truthy (Py.strip stderr)) then 10 else 0.

(** A decision the loop can act on: a dict whose action is [stop] with a
    reasoning, or [use_tool] with a registered tool name, parameters and a
    reasoning. *)
Definition well_formed (available_tools : list string) (decision : json) : bool :=
  match decision with
  | JObj d =>
      match Dict.get "action" d with
      | Some (JStr action) =>
          if String.eqb action "stop" then Dict.mem "reasoning" d
          else if String.eqb action "use_tool" then
            match Dict.get "tool" d with
            | Some (JStr name) =>
                existsb (String.eqb name) available_tools
                && Dict.mem "parameters" d && Dict.mem "reasoning" d
            | _ => false
            end
          else false
      | _ => false
      end
  | _ => false
  end.

(** The arguments of one [add_execution_result] call. *)
Record execution := {
  filename : string;
  exit_code : Z;
  stdout : string;
  stderr : string;
  test_results : TestResults
}.

(** Recording an outcome; when the scorer raises, the ledger stays as it
    was. *)
Definition record_execution (state : AgentState.t) (e : execution) : AgentState.t :=
  match AgentState.add_execution_result (filename e) (exit_code e) (stdout e)
          (stderr e) (test_results e) state with
  | Ok state' => state'
  | Raise _ => state
  end.

Definition score_of (e : execution) : result Z :=
  AgentState._calculate_quality_score (exit_code e) (stdout e) (stderr e)
    (test_results e).

(** The budget equation and bound in one ledger. *)
Definition budget_ok (max_tool_calls : Z) (state : AgentState.t) : Prop :=
  AgentState.remaining_calls state
  = max_tool_calls - Z.of_nat (List.length (AgentState.tool_calls state))
  /\ 0 <= AgentState.remaining_calls state.

(** Each element is at most the one before it. *)
Fixpoint non_increasing (l : list Z) : Prop :=
  match l with
  | x :: ((y :: _) as l') => y <= x /\ non_increasing l'
  | _ => True
  end.

(** A ledger with one artifact that is not a Python file and no run. *)
Definition notes_only : AgentState.t :=
  AgentState.add_file "notes.md" "workspace/notes.md" "unknown"
    "Tool call: write_file" 12 (AgentState.init "sort a list" 15).

(** An oracle that is down. *)
Definition connection_refused : exn := Exn "ConnectionError" "connection refused".

Definition failing_oracle : AutonomousToolSelector.llm :=
  fun _ => Raise connection_refused.

Definition offline : FullyAutonomousCodingAgent.Environment :=
  {| FullyAutonomousCodingAgent.llm_client := failing_oracle;
     FullyAutonomousCodingAgent.execute :=
       fun _ _ _ => Ok (ToolResult.failure "not reached") |}.

(** A float carries the sign [s] (or is a NaN). *)
Definition has_sign (s : bool) (x : spec_float) : Prop :=
  match x with
  | S754_zero s' | S754_infinity s' | S754_finite s' _ _ => s' = s
  | S754_nan => True
  end.

(** The running counts of the test parser are non-negative, and a counted
    test implies that test output was seen. *)
Definition counts_consistent (info : ExecutionTool.test_info) : Prop :=
  0 <= ExecutionTool.passed info /\ 0 <= ExecutionTool.failed info
  /\ (0 < ExecutionTool.passed info + ExecutionTool.failed info ->
      ExecutionTool.has_output info = true).

(** The second ledger is the first, possibly with one more thought. *)
Definition thought_added (state state' : AgentState.t) : Prop :=
  state' = state \/ exists thought, state' = AgentState.add_thinking thought state.

(** Two ledgers agree on the configured maximum, the remaining budget and
    the number of recorded invocations. *)
Definition same_budget (state state' : AgentState.t) : Prop :=
  AgentState.max_tool_calls state' = AgentState.max_tool_calls state
  /\ AgentState.remaining_calls state' = AgentState.remaining_calls state
  /\ List.length (AgentState.tool_calls state')
     = List.length (AgentState.tool_calls state).

(** One invocation was recorded between two ledgers. *)
Definition one_recorded (state state' : AgentState.t) : Prop :=
  AgentState.max_tool_calls state' = AgentState.max_tool_calls state
  /\ AgentState.remaining_calls state' = AgentState.remaining_calls state - 1
  /\ List.length (AgentState.tool_calls state')
     = S (List.length (AgentState.tool_calls state)).

(** An oracle that never produces a structured reply, and capabilities
    that always report failure. *)
Definition mumbling : FullyAutonomousCodingAgent.Environment :=
  {| FullyAutonomousCodingAgent.llm_client := fun _ => Ok "hmm, let me see";
     FullyAutonomousCodingAgent.execute :=
       fun _ _ _ => Ok (ToolResult.failure "capability unavailable") |}.

(** A relative name none of whose components is [..]. *)
Definition plain (name : string) : bool :=
  negb (OsPath.is_absolute name)
  && forallb (fun c => negb (String.eqb c "..")) (Py.split "/"%char name).

(** The resolved components of a path, innermost first. *)
Definition stack (path : string) : list string :=
  fold_left (OsPath.resolve_step (OsPath.is_absolute path))
    (Py.split "/"%char path) [].

(** Rules (c) to (e) of the fallback tree in the specification's order:
    reason about improvement when the best-known quality is below 70, else
    stop when at most one invocation remains or the best-known quality is
    at least 80, else generate. *)
Definition later_rules (state : AgentState.t) : json :=
  if AgentState.best_quality_score state <? 70 then
    AutonomousToolSelector.use_tool "think"
      [("focus", JStr "solution improvement");
       ("context",
        JStr ("Current quality is "
              ++ Py.str_of_int (AgentState.best_quality_score state) ++ "/100"))]
      "Fallback: Analyzing ways to improve solution quality"
  else if (AgentState.remaining_calls state <=? 1)
          || (AgentState.best_quality_score state >=? 80) then
    AutonomousToolSelector.stop
      ("Fallback: Stopping due to "
       ++ (if AgentState.remaining_calls state <=? 1
           then "call limit" else "good quality achieved"))
  else
    AutonomousToolSelector.use_tool "generate_code"
      [("approach", JStr "improved solution");
       ("based_on", JStr "previous attempts")]
      "Fallback: Generating improved solution".

(** ** Vocabulary of the ledger's invariants *)

(** [l'] is [l] followed by further entries. *)
Definition extends {A : Type} (l l' : list A) : Prop :=
  exists more, l' = (l ++ more)%list.

(** What a recorded invocation was asked to do: the capability, its
    arguments and the stated reasoning. *)
Definition signature (call : ToolCall.t) : json * json * json :=
  (ToolCall.tool_name call, ToolCall.parameters call, ToolCall.reasoning call).

(** The second ledger continues the first: same task and maximum; the
    invocations, artifacts, runs, thoughts and issues of the first are an
    initial segment of the second's; the best-known score is not lower and
    satisfaction is not withdrawn. *)
Definition grows (state state' : AgentState.t) : Prop :=
  AgentState.problem_statement state' = AgentState.problem_statement state
  /\ AgentState.max_tool_calls state' = AgentState.max_tool_calls state
  /\ extends (map signature (AgentState.tool_calls state))
       (map signature (AgentState.tool_calls state'))
  /\ extends (AgentState.files_created state) (AgentState.files_created state')
  /\ extends (AgentState.execution_results state)
       (AgentState.execution_results state')
  /\ extends (AgentState.thinking_history state)
       (AgentState.thinking_history state')
  /\ extends (AgentState.identified_issues state)
       (AgentState.identified_issues state')
  /\ AgentState.best_quality_score state <= AgentState.best_quality_score state'
  /\ (AgentState.is_satisfied state = true ->
      AgentState.is_satisfied state' = true).

(** Each ledger of the list is related to the one before it, the first to
    [state]. *)
Fixpoint linked (R : AgentState.t -> AgentState.t -> Prop)
    (state : AgentState.t) (ledgers : list AgentState.t) : Prop :=
  match ledgers with
  | [] => True
  | state' :: ledgers' => R state state' /\ linked R state' ledgers'
  end.

(** Every recorded invocation names a registered capability. *)
Definition registered (state : AgentState.t) : Prop :=
  Forall (fun call =>
            exists name, ToolCall.tool_name call = JStr name
                         /\ In name FullyAutonomousCodingAgent.tools)
    (AgentState.tool_calls state).

(** The best-known score is the highest recorded score, or 0 when none is
    positive; every recorded score is at most 100; and the best-known
    solution is the file of a recorded run with that score, or absent when
    no run scored above 0. *)
Definition best_tracks_results (state : AgentState.t) : Prop :=
  AgentState.best_quality_score state
  = fold_left Z.max
      (map ExecutionResult.quality_score (AgentState.execution_results state)) 0
  /\ Forall (fun r => ExecutionResult.quality_score r <= 100)
       (AgentState.execution_results state)
  /\ match AgentState.best_solution state with
     | None => AgentState.best_quality_score state = 0
     | Some file =>
         0 < AgentState.best_quality_score state
         /\ exists r, In r (AgentState.execution_results state)
                      /\ ExecutionResult.filename r = file
                      /\ ExecutionResult.quality_score r
                         = AgentState.best_quality_score state
     end.

(** Both self-assessment levels are percentages and no issue is listed
    twice. *)
Definition assessment_ok (state : AgentState.t) : Prop :=
  0 <= AgentState.satisfaction_level state <= 100
  /\ 0 <= AgentState.confidence_level state <= 100
  /\ NoDup (AgentState.identified_issues state).

(** A host on which every script exists and never finishes in time. *)
Definition hanging_host : ExecutionRun.Host :=
  {| ExecutionRun.path_exists := fun _ => true;
     ExecutionRun.run := fun _ _ => ExecutionRun.TimeoutExpired;
     ExecutionRun.write_log := Ok tt |}.

(** A ledger whose only invocation carries a string where the arguments
    should be. *)
Definition misparameterised : AgentState.t :=
  AgentState.add_tool_call (JStr "think") (JStr "none") (JStr "start")
    (AgentState.init "sort a list" 15).

(** The invariants of a ledger taken together. *)
Definition consistent (state : AgentState.t) : Prop :=
  registered state /\ best_tracks_results state /\ assessment_ok state.

(** The invariants carry over from one ledger to the next. *)
Definition carries (state state' : AgentState.t) : Prop :=
  consistent state -> consistent state'.

(** A decision to reason about the problem, and the ledger in which it
    has just been recorded. *)
Definition think_decision : Dict.t :=
  [("action", JStr "use_tool"); ("tool", JStr "think");
   ("parameters", JObj []); ("reasoning", JStr "start")].

Definition asked_to_think : AgentState.t :=
  AgentState.add_tool_call (JStr "think") (JObj []) (JStr "start")
    (AgentState.init "sort a list" 15).

(** A reply that wraps the code in a fenced block between two lines of
    prose, and a reply of the reasoning capability with its four
    headed sections. *)
Definition fenced_reply : string :=
  Py.join ThinkingTool.newline_str
    ["Here is the solution:"; "```python"; "def add(a, b):";
     "    return a + b"; "```"; "It defines add."].

Definition headed_reply : string :=
  Py.join ThinkingTool.newline_str
    ["1. ANALYSIS: sum of two numbers"; "2. APPROACH: use +";
     "3. PLAN:"; "   - read a and b"; "   - return a + b";
     "4. PSEUDOCODE: return a + b"].

(** [str.upper] on ASCII text, for running the examples. *)
Definition upper_ascii (a : ascii) : ascii :=
  let n := nat_of_ascii a in
  if ((97 <=? n) && (n <=? 122))%nat then ascii_of_nat (n - 32) else a.

Fixpoint upper (s : string) : string :=
  match s with
  | EmptyString => EmptyString
  | String a s' => String (upper_ascii a) (upper s')
  end.


(** The environment whose capabilities are called with keyword
    arguments. *)
Definition keyword_called (llm : AutonomousToolSelector.llm)
    (body : AgentState.t -> string -> Dict.t -> result ToolResult.t)
  : FullyAutonomousCodingAgent.Environment :=
  {| FullyAutonomousCodingAgent.llm_client := llm;
     FullyAutonomousCodingAgent.execute := Capability.call body |}.

(** The decision is a stop, or dispatching it raises [TypeError] whatever
    the ledger. *)
Definition cannot_run {RT : PyRuntime}
    (env : FullyAutonomousCodingAgent.Environment) (decision : json) : Prop :=
  match decision with
  | JObj d =>
      Dict.get "action" d = Some (JStr "stop")
      \/ (Dict.get "action" d = Some (JStr "use_tool")
          /\ exists tool parameters,
               Dict.get "tool" d = Some tool
               /\ Dict.get "parameters" d = Some parameters
               /\ forall state,
                    exists e,
                      FullyAutonomousCodingAgent.call_tool env tool parameters
                        state = Raise e
                      /\ exn_class e = "TypeError")
  | _ => False
  end.

(** Every recorded artifact has the content type [unknown]. *)
Definition untyped_artifacts (state : AgentState.t) : Prop :=
  Forall (fun f => FileInfo.content_type f = "unknown")
    (AgentState.files_created state).

(** Nothing has been achieved: no artifact, no run, no score, and no
    recorded invocation succeeded. *)
Definition idle (state : AgentState.t) : Prop :=
  AgentState.files_created state = []
  /\ AgentState.execution_results state = []
  /\ AgentState.best_quality_score state = 0
  /\ Forall (fun call => ToolCall.success call = false)
       (AgentState.tool_calls state).

(** An oracle none of whose replies contains an opening brace. *)
Definition never_structured (llm : AutonomousToolSelector.llm) : Prop :=
  forall state,
    match llm state with
    | Ok reply => Py.find "{"%char (Py.strip reply) = -1
    | Raise _ => True
    end.

(** ** Vocabulary of the cycles of a session *)

(** A cycle of the loop that runs to its end, as [main_loop] performs it:
    the ledger at the start of the next cycle.  [None] when the loop does
    not enter the cycle, the decision raises or is a stop, or the dispatch
    raises. *)
Definition full_cycle {RT : PyRuntime}
    (env : FullyAutonomousCodingAgent.Environment) (state : AgentState.t)
  : option AgentState.t :=
  if FullyAutonomousCodingAgent.continue state then
    match FullyAutonomousCodingAgent._make_autonomous_decision env state with
    | (Ok decision, state1) =>
        match FullyAutonomousCodingAgent.getitem "action" decision with
        | Ok action =>
            if json_is_str action "stop" then None
            else
              match FullyAutonomousCodingAgent._execute_tool_decision env
                      decision state1 with
              | (Ok _, state2) =>
                  Some (FullyAutonomousCodingAgent._update_agent_assessment state2)
              | (Raise _, _) => None
              end
        | Raise _ => None
        end
    | (Raise _, _) => None
    end
  else None.

(** The ledger after [n] full cycles. *)
Fixpoint after_cycles {RT : PyRuntime}
    (env : FullyAutonomousCodingAgent.Environment) (n : nat)
    (state : AgentState.t) : option AgentState.t :=
  match n with
  | O => Some state
  | S n' =>
      match full_cycle env state with
      | Some state' => after_cycles env n' state'
      | None => None
      end
  end.

(** An oracle that replies once and is down from then on, with
    capabilities that always report failure. *)
Definition flaky : FullyAutonomousCodingAgent.Environment :=
  {| FullyAutonomousCodingAgent.llm_client :=
       fun state =>
         match AgentState.tool_calls state with
         | [] => Ok "hmm, let me see"
         | _ :: _ => Raise connection_refused
         end;
     FullyAutonomousCodingAgent.execute :=
       fun _ _ _ => Ok (ToolResult.failure "capability unavailable") |}.

(** * Properties *)

(** ** The outcome evaluator *)

Section Scorer.

Import AgentState.

(** Case analysis on every test the goal branches on. *)
Ltac split_ifs :=
  repeat match goal with
         | |- context [if ?c then _ else _] => destruct c
         end.

Lemma binary_round_aux_sign (s : bool) (m e : Z) (l : location) :
  has_sign s (binary_round_aux Float64.prec Float64.emax s m e l).
Proof.
  unfold binary_round_aux.
  destruct (shr_fexp _ _ m e l) as [mrs' e'].
  destruct (shr_fexp _ _ _ e' loc_Exact) as [mrs'' e''].
  destruct (shr_m mrs''); simpl; auto.
  destruct (e'' <=? _); simpl; reflexivity.
Qed.

Lemma truediv_sign (a b : Z) (x : spec_float) :
  0 <= a -> 0 < b -> Float64.truediv a b = Ok x -> has_sign false x.
Proof.
  intros Ha Hb. unfold Float64.truediv.
  destruct b as [|pb|pb]; try lia.
  destruct a as [|pa|pa]; try lia.
  - intros H. injection H as <-. reflexivity.
  - change (Z.pos pa <? 0) with false. change (Z.pos pb <? 0) with false.
    unfold SFdiv.
    destruct (SFdiv_core_binary _ _ _ _ _ _) as [[mz ez] lz].
    pose proof (binary_round_aux_sign false mz ez lz) as Hs.
    change (xorb false false) with false.
    destruct (binary_round_aux _ _ false mz ez lz); intros H; try discriminate;
      injection H as <-; exact Hs.
Qed.

Lemma mul_int_40_sign (x : spec_float) :
  has_sign false x -> has_sign false (Float64.mul_int 40 x).
Proof.
  unfold Float64.mul_int.
  assert (exists m e, Float64.of_Z 40 = S754_finite false m e) as (m40 & e40 & ->)
    by (vm_compute; eauto).
  destruct x as [s|s| |s m e]; simpl; intros H; subst; auto.
  apply binary_round_aux_sign.
Qed.

Lemma to_int_nonneg (x : spec_float) (n : Z) :
  has_sign false x -> Float64.to_int x = Ok n -> 0 <= n.
Proof.
  destruct x as [s|s| |s m e]; simpl; intros Hs H; try discriminate.
  - injection H as <-. lia.
  - subst s. injection H as <-.
    destruct e as [|pe|pe].
    + lia.
    + apply Z.shiftl_nonneg. lia.
    + apply Z.shiftr_nonneg. lia.
Qed.

(** *** No overflow on ordinary counts *)

Lemma digits2_pos_size (p : positive) : digits2_pos p = Pos.size p.
Proof. induction p; simpl; congruence. Qed.

Lemma Zdigits2_nonneg (m : Z) : 0 <= Zdigits2 m.
Proof. destruct m; simpl; lia. Qed.

(** [m < 2 ^ Zdigits2 m] and [2 ^ Zdigits2 m <= 2 * m] for positive [m]. *)
Lemma Zdigits2_bounds (p : positive) :
  Zpos p < 2 ^ Zdigits2 (Zpos p) /\ 2 ^ Zdigits2 (Zpos p) <= 2 * Zpos p.
Proof.
  simpl Zdigits2. rewrite digits2_pos_size.
  pose proof (Pos.size_gt p) as Hgt. pose proof (Pos.size_le p) as Hle.
  rewrite <- Pos2Z.inj_pow. split.
  - apply Pos2Z.pos_lt_pos. exact Hgt.
  - change (2 * Z.pos p) with (Z.pos p~0). apply Pos2Z.pos_le_pos. exact Hle.
Qed.

Lemma Zdigits2_le (m k : Z) : 0 <= m < 2 ^ k -> 0 <= k -> Zdigits2 m <= k.
Proof.
  intros [Hm Hlt] Hk. destruct m as [|p|p]; try lia.
  - simpl. exact Hk.
  - destruct (Zdigits2_bounds p) as [_ Hle].
    pose proof (Zdigits2_nonneg (Zpos p)) as Hd.
    destruct (Z_lt_le_dec k (Zdigits2 (Zpos p))) as [Hlt'|]; [|assumption].
    exfalso.
    assert (2 ^ (k + 1) <= 2 ^ Zdigits2 (Zpos p)) by (apply Z.pow_le_mono_r; lia).
    rewrite Z.pow_add_r in H by lia. lia.
Qed.

Lemma Zdigits2_succ (m : Z) : 0 <= m -> Zdigits2 (m + 1) <= Zdigits2 m + 1.
Proof.
  intros Hm. destruct m as [|p|p]; try lia.
  - simpl. lia.
  - destruct (Zdigits2_bounds p) as [Hlt _].
    pose proof (Zdigits2_nonneg (Zpos p)).
    apply Zdigits2_le; [|lia].
    rewrite Z.pow_add_r by lia. lia.
Qed.

Lemma Zdigits2_mul (a b : positive) :
  Zdigits2 (Zpos (a * b)) <= Zdigits2 (Zpos a) + Zdigits2 (Zpos b).
Proof.
  destruct (Zdigits2_bounds a) as [Ha _]. destruct (Zdigits2_bounds b) as [Hb _].
  pose proof (Zdigits2_nonneg (Zpos a)). pose proof (Zdigits2_nonneg (Zpos b)).
  apply Zdigits2_le; [|lia].
  rewrite Z.pow_add_r by lia. rewrite Pos2Z.inj_mul. nia.
Qed.

(** One right shift drops one digit. *)
Lemma shr_1_digits (mrs : shr_record) :
  0 <= shr_m mrs ->
  0 <= shr_m (shr_1 mrs)
  /\ Zdigits2 (shr_m (shr_1 mrs)) = Z.max 0 (Zdigits2 (shr_m mrs) - 1).
Proof.
  destruct mrs as [m r s]. simpl shr_m at 1 2. intros Hm.
  destruct m as [|[p|p|]|p]; cbn [shr_1 shr_m Zdigits2 digits2_pos];
    try rewrite Pos2Z.inj_succ; lia.
Qed.

Lemma iter_shr_1_digits (p : positive) :
  forall mrs : shr_record,
    0 <= shr_m mrs ->
    0 <= shr_m (iter_pos shr_1 p mrs)
    /\ Zdigits2 (shr_m (iter_pos shr_1 p mrs))
       = Z.max 0 (Zdigits2 (shr_m mrs) - Zpos p).
Proof.
  induction p as [p IH|p IH|]; intros mrs Hm; simpl iter_pos.
  - destruct (shr_1_digits mrs Hm) as [H1 E1].
    destruct (IH _ H1) as [H2 E2]. destruct (IH _ H2) as [H3 E3].
    split; [assumption|]. rewrite E3, E2, E1. lia.
  - destruct (IH _ Hm) as [H2 E2]. destruct (IH _ H2) as [H3 E3].
    split; [assumption|]. rewrite E3, E2. lia.
  - destruct (shr_1_digits mrs Hm) as [H1 E1]. split; [assumption|]. rewrite E1. lia.
Qed.

Lemma fexp_eq (e : Z) :
  fexp Float64.prec Float64.emax e = Z.max (e - 53) (-1074).
Proof. reflexivity. Qed.

Lemma shr_record_of_loc_m (m : Z) (l : location) :
  shr_m (shr_record_of_loc m l) = m.
Proof. destruct l as [|[ | | ]]; reflexivity. Qed.

(** Aligning a mantissa on its exponent keeps it non-negative and does
    not raise its magnitude above [fexp]'s threshold. *)
Lemma shr_fexp_spec (m e : Z) (l : location) :
  0 <= m ->
  let D := Zdigits2 m + e in
  let F := fexp Float64.prec Float64.emax D in
  0 <= shr_m (fst (shr_fexp Float64.prec Float64.emax m e l))
  /\ snd (shr_fexp Float64.prec Float64.emax m e l) = Z.max e F
  /\ Zdigits2 (shr_m (fst (shr_fexp Float64.prec Float64.emax m e l)))
     + snd (shr_fexp Float64.prec Float64.emax m e l) <= Z.max D F.
Proof.
  intros Hm D F. unfold shr_fexp, shr. fold D. fold F.
  pose proof (shr_record_of_loc_m m l) as Hrec.
  destruct (F - e) as [|p|p] eqn:Hn; cbn [fst snd].
  - rewrite Hrec. subst D. lia.
  - destruct (iter_shr_1_digits p (shr_record_of_loc m l)) as [H0 Hd].
    { rewrite Hrec. exact Hm. }
    rewrite Hd, Hrec. subst D. lia.
  - rewrite Hrec. subst D. lia.
Qed.

Lemma round_nearest_even_bounds (m : Z) (l : location) :
  m <= round_nearest_even m l <= m + 1.
Proof.
  destruct l as [|[ | | ]]; simpl; try lia.
  destruct (Z.even m); lia.
Qed.

Lemma Zdigits2_round (m : Z) (l : location) :
  0 <= m -> Zdigits2 (round_nearest_even m l) <= Zdigits2 m + 1.
Proof.
  intros Hm. pose proof (round_nearest_even_bounds m l) as Hb.
  assert (round_nearest_even m l = m \/ round_nearest_even m l = m + 1) as [->| ->]
    by lia.
  - lia.
  - apply Zdigits2_succ, Hm.
Qed.

(** Rounding a non-negative mantissa of magnitude at most [B] yields a zero
    or a finite float: no overflow up to [B = 1023]. *)
Lemma binary_round_aux_finite (s : bool) (m e : Z) (l : location) (B : Z) :
  0 <= m -> e <= 971 -> Zdigits2 m + e <= B -> B <= 1023 ->
  match binary_round_aux Float64.prec Float64.emax s m e l with
  | S754_zero _ => True
  | S754_finite _ m' e' =>
      e' <= 971 /\ Zdigits2 (Zpos m') + e' <= Z.max (B + 1) (-1073)
  | _ => False
  end.
Proof.
  intros Hm He HD HB. unfold binary_round_aux.
  pose proof (shr_fexp_spec m e l Hm) as H1. cbv zeta in H1.
  destruct (shr_fexp _ _ m e l) as [mrs' e'] eqn:E1. cbn [fst snd] in H1.
  destruct H1 as (Hm1 & He1 & Hd1).
  set (m1 := round_nearest_even (shr_m mrs') (loc_of_shr_record mrs')).
  assert (Hm1' : 0 <= m1).
  { pose proof (round_nearest_even_bounds (shr_m mrs') (loc_of_shr_record mrs')).
    subst m1. lia. }
  pose proof (Zdigits2_round (shr_m mrs') (loc_of_shr_record mrs') Hm1) as Hr.
  fold m1 in Hr.
  pose proof (shr_fexp_spec m1 e' loc_Exact Hm1') as H2. cbv zeta in H2.
  destruct (shr_fexp _ _ m1 e' loc_Exact) as [mrs'' e''] eqn:E2. cbn [fst snd] in H2.
  destruct H2 as (Hm2 & He2 & Hd2).
  rewrite fexp_eq in *.
  destruct (shr_m mrs'') as [|m2|m2] eqn:Em2; [exact I| |lia].
  assert (He'' : e'' <= 971) by lia.
  replace (e'' <=? Float64.emax - Float64.prec) with true
    by (symmetry; apply Z.leb_le; unfold Float64.emax, Float64.prec; lia).
  split; [exact He''|]. lia.
Qed.

(** The quotient of two positive ints, the first at most the second, is a
    zero or a finite float of magnitude at most 2 (no [OverflowError]). *)
Lemma truediv_small (p t : positive) :
  (p <= t)%positive ->
  match SFdiv Float64.prec Float64.emax
          (S754_finite false p 0) (S754_finite false t 0) with
  | S754_zero _ => True
  | S754_finite _ m e => e <= 971 /\ Zdigits2 (Zpos m) + e <= 2
  | _ => False
  end.
Proof.
  intros Hpt. unfold SFdiv, SFdiv_core_binary.
  set (e' := Z.min _ _).
  assert (He' : e' <= 0) by (subst e'; lia).
  set (s := 0 - 0 - e').
  set (m' := match s with Z.pos _ => Z.shiftl (Z.pos p) s | 0 => Z.pos p | Z.neg _ => 0 end).
  assert (Hm' : m' = Zpos p * 2 ^ s).
  { assert (Hs0 : 0 <= s) by (subst s; lia).
    subst m'. clearbody s. destruct s as [|q|q].
    - rewrite Z.pow_0_r. lia.
    - rewrite Z.shiftl_mul_pow2 by lia. reflexivity.
    - lia. }
  destruct (Z.div_eucl m' (Zpos t)) as [q r] eqn:Ediv.
  assert (Hq : q = m' / Zpos t) by (unfold Z.div; rewrite Ediv; reflexivity).
  assert (Hs : 0 <= s) by (subst s; lia).
  assert (Hpow : 0 < 2 ^ s) by (apply Z.pow_pos_nonneg; lia).
  assert (Hq0 : 0 <= q) by (subst q; apply Z.div_pos; nia).
  assert (Hq1 : q <= 2 ^ s).
  { subst q. apply Z.div_le_upper_bound; [lia|].
    rewrite Hm'. apply Pos2Z.pos_le_pos in Hpt. nia. }
  assert (Hd : Zdigits2 q <= s + 1).
  { apply Zdigits2_le; [|lia]. rewrite Z.pow_add_r by lia. lia. }
  pose proof (binary_round_aux_finite (xorb false false) q e'
                (new_location (Zpos t) r) 1 Hq0 ltac:(lia)
                ltac:(subst s; lia) ltac:(lia)) as H.
  destruct (binary_round_aux _ _ _ q e' _); auto.
Qed.

(** Forty times a float of magnitude at most 2 is a zero or a finite
    float. *)
Lemma mul_int_40_small (x : spec_float) :
  match x with
  | S754_zero _ => True
  | S754_finite _ m e => e <= 971 /\ Zdigits2 (Zpos m) + e <= 2
  | _ => False
  end ->
  match Float64.mul_int 40 x with
  | S754_zero _ | S754_finite _ _ _ => True
  | _ => False
  end.
Proof.
  unfold Float64.mul_int.
  assert (Float64.of_Z 40 = S754_finite false 5629499534213120 (-47)) as ->
    by (vm_compute; reflexivity).
  destruct x as [s|s| |s m e]; try contradiction; [intros _; exact I|].
  intros [He Hd]. unfold SFmul.
  pose proof (Zdigits2_mul 5629499534213120 m) as Hmul.
  change (Zdigits2 (Zpos 5629499534213120)) with 53 in Hmul.
  pose proof (binary_round_aux_finite (xorb false s)
                (Zpos (5629499534213120 * m)) (-47 + e) loc_Exact 8
                ltac:(lia) ltac:(lia) ltac:(lia) ltac:(lia)) as H.
  destruct (binary_round_aux _ _ _ _ _ _); auto.
Qed.

Lemma to_int_finite (x : spec_float) :
  match x with
  | S754_zero _ | S754_finite _ _ _ => True
  | _ => False
  end ->
  exists n, Float64.to_int x = Ok n.
Proof. destruct x; simpl; intros H; try contradiction; eauto. Qed.

(** The scaled component is computed without an exception whenever
    [0 <= passed <= total] and [0 < total]. *)
Lemma scaled_points_defined (passed total : Z) :
  0 <= passed <= total -> 0 < total ->
  exists pass_rate points,
    Float64.truediv passed total = Ok pass_rate
    /\ Float64.to_int (Float64.mul_int 40 pass_rate) = Ok points.
Proof.
  intros [Hp Hpt] Ht. unfold Float64.truediv.
  destruct total as [|t|t]; try lia.
  destruct passed as [|p|p]; try lia.
  - eexists _, _. split; [reflexivity|]. vm_compute. reflexivity.
  - change (Z.pos p <? 0) with false. change (Z.pos t <? 0) with false.
    cbn [Z.abs Z.to_pos].
    pose proof (truediv_small p t ltac:(lia)) as Hq.
    destruct (SFdiv _ _ _ _) as [s|s| |s m e] eqn:E; try contradiction.
    + eexists _, _. split; [reflexivity|].
      destruct s; vm_compute; reflexivity.
    + destruct (to_int_finite _ (mul_int_40_small (S754_finite s m e) Hq)) as [n Hn].
      eexists _, _. split; [reflexivity|exact Hn].
Qed.

(** The clamp at 100 holds whatever the inputs. *)
Lemma quality_score_le_100 (exit_code : Z) (stdout stderr : string)
    (test_results : TestResults) (q : Z) :
  _calculate_quality_score exit_code stdout stderr test_results = Ok q ->
  q <= 100.
Proof.
  unfold _calculate_quality_score, bind.
  destruct (get_or (has_test_output test_results) false).
  - destruct (get_or (total_tests test_results) 0 >? 0).
    + destruct (Float64.truediv _ _); try discriminate.
      destruct (Float64.to_int _); try discriminate.
      intros H. injection H as <-. lia.
    + intros H. injection H as <-. lia.
  - intros H. injection H as <-. lia.
Qed.

(** With tests detected and no test counted, the flat 10 points are all
    the test rule gives. *)
Lemma quality_score_total_zero (exit_code : Z) (stdout stderr : string)
    (passed failed : option Z) :
  _calculate_quality_score exit_code stdout stderr
    {| total_tests := Some 0; passed_tests := passed; failed_tests := failed;
       has_test_output := Some true |}
  = Ok (exit_points exit_code + output_points stdout + 10 + clean_points stderr).
Proof.
  unfold _calculate_quality_score, exit_points, output_points, clean_points.
  simpl. split_ifs; reflexivity.
Qed.

(** A non-negative passed count never makes the score negative. *)
Lemma quality_score_nonneg (exit_code : Z) (stdout stderr : string)
    (test_results : TestResults) (q : Z) :
  0 <= get_or (passed_tests test_results) 0 ->
  _calculate_quality_score exit_code stdout stderr test_results = Ok q ->
  0 <= q.
Proof.
  intros Hp. unfold _calculate_quality_score, bind.
  destruct (get_or (has_test_output test_results) false).
  - destruct (get_or (total_tests test_results) 0 >? 0) eqn:Ht.
    + destruct (Float64.truediv _ _) as [x|] eqn:Hd; try discriminate.
      destruct (Float64.to_int _) as [n|] eqn:Hn; try discriminate.
      assert (Hn0 : 0 <= n).
      { eapply to_int_nonneg; [|exact Hn].
        apply mul_int_40_sign. eapply truediv_sign; [exact Hp| |exact Hd]. lia. }
      intros H. injection H as <-. split_ifs; lia.
    + intros H. injection H as <-. split_ifs; lia.
  - intros H. injection H as <-. split_ifs; lia.
Qed.

End Scorer.

(** C9.  Exit status 0, non-empty standard output, empty standard error and
    a test summary with tests detected, total 10 and passed 8 score exactly
    92 = 30 + 10 + 10 + 10 + 32. *)
Theorem quality_score_scenario_B (out err : string) (failed : option Z) :
  Py.truthy (Py.strip out) = true ->
  Py.truthy (Py.strip err) = false ->
  AgentState._calculate_quality_score 0 out err
    {| total_tests := Some 10; passed_tests := Some 8; failed_tests := failed;
       has_test_output := Some true |}
  = Ok 92.
Proof.
  intros Hout Herr. unfold AgentState._calculate_quality_score.
  rewrite Hout, Herr. vm_compute. reflexivity.
Qed.

Lemma quality_score_scenario_B_witness :
  AgentState._calculate_quality_score 0 "8 passed, 2 failed" EmptyString
    {| total_tests := Some 10; passed_tests := Some 8; failed_tests := Some 2;
       has_test_output := Some true |}
  = Ok 92.
Proof.
  apply (quality_score_scenario_B "8 passed, 2 failed" EmptyString (Some 2));
    vm_compute; reflexivity.
Defined.

(** C2.  The score is clamped at 100 only: with tests detected, one test
    counted and a passed count of -10 the scorer returns -390. *)
Theorem quality_score_negative_passed :
  AgentState._calculate_quality_score 1 EmptyString "Traceback"
    {| total_tests := Some 1; passed_tests := Some (-10); failed_tests := Some 11;
       has_test_output := Some true |}
  = Ok (-390).
Proof. vm_compute. reflexivity. Qed.

(** ** The ledger's best-known solution *)

Lemma record_execution_cases (state : AgentState.t) (e : execution) :
  match score_of e with
  | Raise _ => record_execution state e = state
  | Ok q =>
      AgentState.execution_results (record_execution state e)
      = (AgentState.execution_results state
         ++ [ {| ExecutionResult.filename := filename e;
                 ExecutionResult.exit_code := exit_code e;
                 ExecutionResult.stdout := stdout e;
                 ExecutionResult.stderr := stderr e;
                 ExecutionResult.test_results := test_results e;
                 ExecutionResult.quality_score := q |} ])%list
      /\ if q >? AgentState.best_quality_score state
         then AgentState.best_quality_score (record_execution state e) = q
              /\ AgentState.best_solution (record_execution state e)
                 = Some (filename e)
         else AgentState.best_quality_score (record_execution state e)
              = AgentState.best_quality_score state
              /\ AgentState.best_solution (record_execution state e)
                 = AgentState.best_solution state
  end.
Proof.
  unfold record_execution, score_of, AgentState.add_execution_result, bind.
  destruct (AgentState._calculate_quality_score _ _ _ _) as [q|]; [|reflexivity].
  destruct (q >? AgentState.best_quality_score state); simpl; auto.
Qed.

Lemma record_execution_best_monotone (state : AgentState.t) (e : execution) :
  AgentState.best_quality_score state
  <= AgentState.best_quality_score (record_execution state e).
Proof.
  pose proof (record_execution_cases state e) as H.
  destruct (score_of e) as [q|].
  - destruct H as [_ H].
    destruct (q >? AgentState.best_quality_score state) eqn:Hq.
    + destruct H as [-> _]. lia.
    + destruct H as [-> _]. lia.
  - rewrite H. lia.
Qed.

(** C4.  Over any sequence of recorded outcomes the best-known score never
    decreases, and one more outcome changes the best-known solution only
    when its score is strictly greater than the best score so far. *)
Theorem best_solution_never_regresses :
  (forall (outcomes : list execution) (state : AgentState.t),
      AgentState.best_quality_score state
      <= AgentState.best_quality_score (fold_left record_execution outcomes state))
  /\ (forall (outcomes : list execution) (e : execution) (state : AgentState.t),
        let before := fold_left record_execution outcomes state in
        let after := record_execution before e in
        AgentState.best_solution after <> AgentState.best_solution before ->
        exists q, score_of e = Ok q
                  /\ AgentState.best_quality_score before < q
                  /\ AgentState.best_quality_score after = q
                  /\ AgentState.best_solution after = Some (filename e)).
Proof.
  split.
  - induction outcomes as [|e outcomes IH]; intros state; simpl.
    + lia.
    + etransitivity; [apply (record_execution_best_monotone state e)|apply IH].
  - intros outcomes e state before after Hchanged. subst after.
    pose proof (record_execution_cases before e) as H.
    destruct (score_of e) as [q|].
    + exists q. destruct H as [_ H].
      destruct (q >? AgentState.best_quality_score before) eqn:Hq.
      * destruct H as [Hs Hb]. repeat split; auto. lia.
      * destruct H as [_ Hb]. contradiction.
    + rewrite H in Hchanged. contradiction.
Qed.

(** Scenario C of the specification, run through C4: scores 40 then 65. *)
Lemma best_solution_never_regresses_witness :
  let first :=
    {| filename := "a.py"; exit_code := 0; stdout := "ok"; stderr := "warning";
       test_results := no_test_results |} in
  let second :=
    {| filename := "b.py"; exit_code := 0; stdout := "ok"; stderr := "warning";
       test_results :=
         {| total_tests := Some 8; passed_tests := Some 3; failed_tests := Some 5;
            has_test_output := Some true |} |} in
  let before := fold_left record_execution [first] (AgentState.init "p" 15) in
  let after := record_execution before second in
  AgentState.best_quality_score before = 40
  /\ AgentState.best_quality_score after = 65
  /\ AgentState.best_solution after = Some "b.py".
Proof.
  intros first second before after.
  destruct best_solution_never_regresses as [_ Hstep].
  destruct (Hstep [first] second (AgentState.init "p" 15)) as (q & Hq & _ & Hbest & Hsol).
  - vm_compute. discriminate.
  - split; [vm_compute; reflexivity|].
    split; [|exact Hsol].
    fold before in Hbest. fold after in Hbest. rewrite Hbest.
    vm_compute in Hq. injection Hq as <-. reflexivity.
Defined.

(** ** The test-result parser *)

Section ParserProperties.
Context {RT : PyRuntime}.
Import ExecutionTool.

Lemma scan_line_consistent (info : test_info) (line : string) :
  counts_consistent info -> counts_consistent (scan_line info line).
Proof.
  unfold counts_consistent, scan_line. intros (Hp & Hf & Hh).
  destruct (_ || _); simpl; [repeat split; auto; lia|].
  destruct (_ || _); simpl; [repeat split; auto; lia|].
  destruct (_ || _); simpl; repeat split; auto; lia.
Qed.

Lemma scan_lines_consistent (lines : list string) (info : test_info) :
  counts_consistent info -> counts_consistent (fold_left scan_line lines info).
Proof.
  revert info. induction lines as [|line lines IH]; intros info H; simpl.
  - exact H.
  - apply IH, scan_line_consistent, H.
Qed.

End ParserProperties.

(** The parser's counts: non-negative, summing to the total, and tests
    detected as soon as one is counted. *)
Lemma parse_test_results_counts {RT : PyRuntime} (out : string) :
  exists total passed failed detected,
    ExecutionTool._parse_test_results out
    = {| total_tests := Some total; passed_tests := Some passed;
         failed_tests := Some failed; has_test_output := Some detected |}
    /\ 0 <= passed /\ 0 <= failed /\ passed + failed = total
    /\ (0 < total -> detected = true).
Proof.
  unfold ExecutionTool._parse_test_results.
  set (info := fold_left ExecutionTool.scan_line _ _).
  assert (H : counts_consistent info).
  { apply scan_lines_consistent. unfold counts_consistent. simpl. repeat split; lia. }
  destruct H as (Hp & Hf & Hh).
  exists (ExecutionTool.passed info + ExecutionTool.failed info),
    (ExecutionTool.passed info), (ExecutionTool.failed info),
    (ExecutionTool.has_output info).
  repeat split; auto.
Qed.

(** C10.  For every captured standard output the parser returns
    non-negative passed and failed counts whose sum is the total, and
    reports tests detected whenever the total is positive. *)
Theorem parse_test_results_consistent {RT : PyRuntime} (out : string) :
  exists total passed failed detected,
    ExecutionTool._parse_test_results out
    = {| total_tests := Some total; passed_tests := Some passed;
         failed_tests := Some failed; has_test_output := Some detected |}
    /\ 0 <= passed /\ 0 <= failed /\ passed + failed = total
    /\ (0 < total -> detected = true).
Proof. exact (parse_test_results_counts out). Qed.

Lemma parse_test_results_consistent_witness :
  exists total passed failed detected,
    ExecutionTool._parse_test_results (RT := Reference.runtime)
      "Testing add: PASSED"
    = {| total_tests := Some total; passed_tests := Some passed;
         failed_tests := Some failed; has_test_output := Some detected |}
    /\ 0 <= passed /\ 0 <= failed /\ passed + failed = total
    /\ (0 < total -> detected = true).
Proof.
  exact (parse_test_results_consistent (RT := Reference.runtime)
           "Testing add: PASSED").
Defined.

(** With counts as the parser produces them ([0 <= passed <= total]) the
    scorer raises nothing and its result lies in [0, 100]. *)
Lemma quality_score_in_range (exit_code : Z) (stdout stderr : string)
    (test_results : TestResults) :
  0 <= get_or (passed_tests test_results) 0
    <= get_or (total_tests test_results) 0 ->
  exists q,
    AgentState._calculate_quality_score exit_code stdout stderr test_results = Ok q
    /\ 0 <= q <= 100.
Proof.
  intros Hcounts.
  assert (Hdefined : exists q,
    AgentState._calculate_quality_score exit_code stdout stderr test_results = Ok q).
  { unfold AgentState._calculate_quality_score, bind.
    destruct (get_or (has_test_output test_results) false); [|eauto].
    destruct (get_or (total_tests test_results) 0 >? 0) eqn:Ht; [|eauto].
    destruct (scaled_points_defined _ _ Hcounts ltac:(lia))
      as (pass_rate & points & -> & ->).
    eauto. }
  destruct Hdefined as [q Hq]. exists q. split; [exact Hq|]. split.
  - eapply quality_score_nonneg; [|exact Hq]. lia.
  - eapply quality_score_le_100. exact Hq.
Qed.

(** So every summary the run capability can produce is scored in
    [0, 100]. *)
Lemma quality_score_of_parsed_output {RT : PyRuntime} (exit_code : Z)
    (stdout stderr captured : string) :
  exists q,
    AgentState._calculate_quality_score exit_code stdout stderr
      (ExecutionTool._parse_test_results captured) = Ok q
    /\ 0 <= q <= 100.
Proof.
  destruct (parse_test_results_counts captured)
    as (total & passed & failed & detected & -> & Hp & Hf & Ht & _).
  apply quality_score_in_range. simpl. lia.
Qed.

(** ** Where the file capabilities look *)

Lemma split_nonempty (c : ascii) (s : string) : Py.split c s <> [].
Proof.
  destruct s as [|a s]; simpl; [discriminate|].
  destruct (Ascii.eqb a c); [discriminate|].
  destruct (Py.split c s); discriminate.
Qed.

Lemma split_app_sep (c : ascii) (a b : string) :
  Py.split c (a ++ String c b) = (Py.split c a ++ Py.split c b)%list.
Proof.
  induction a as [|x a IH]; simpl.
  - rewrite Ascii.eqb_refl. reflexivity.
  - destruct (Ascii.eqb x c); [rewrite IH; reflexivity|].
    rewrite IH. pose proof (split_nonempty c a) as Hne.
    destruct (Py.split c a) as [|l ls]; [contradiction|]. reflexivity.
Qed.

Lemma substring_all (s : string) : substring 0 (String.length s) s = s.
Proof.
  induction s as [|a s IH]; simpl; [reflexivity|]. rewrite IH. reflexivity.
Qed.

Lemma substring_split (s : string) (n : nat) :
  (n <= String.length s)%nat ->
  s = substring 0 n s ++ substring n (String.length s - n)%nat s.
Proof.
  revert n. induction s as [|a s IH]; intros n Hn.
  - destruct n; reflexivity.
  - destruct n as [|n].
    + simpl. rewrite substring_all. reflexivity.
    + simpl. f_equal. apply IH. simpl in Hn. lia.
Qed.

Lemma endswith_sep (path : string) :
  Py.endswith path OsPath.sep = true -> exists a, path = a ++ OsPath.sep.
Proof.
  unfold Py.endswith, OsPath.sep. simpl String.length.
  intros H. apply andb_prop in H. destruct H as [Hlen Heq].
  apply Nat.leb_le in Hlen. apply String.eqb_eq in Heq.
  exists (substring 0 (String.length path - 1)%nat path).
  pose proof (substring_split path (String.length path - 1)%nat ltac:(lia)) as Hsplit.
  replace (String.length path - (String.length path - 1))%nat with 1%nat in Hsplit
    by lia.
  rewrite Heq in Hsplit. exact Hsplit.
Qed.

Lemma append_assoc (a b c : string) : (a ++ b) ++ c = a ++ (b ++ c).
Proof. induction a as [|x a IH]; simpl; [reflexivity|]. rewrite IH. reflexivity. Qed.

Lemma prefix_empty (s : string) : String.prefix EmptyString s = true.
Proof. destruct s; reflexivity. Qed.

Lemma prefix_sep_app (a b : string) :
  a <> EmptyString -> String.prefix OsPath.sep (a ++ b) = String.prefix OsPath.sep a.
Proof.
  destruct a as [|x a]; [contradiction|]. intros _.
  unfold OsPath.sep. cbn [append String.prefix].
  destruct (Ascii.ascii_dec "/"%char x); [|reflexivity].
  rewrite !prefix_empty. reflexivity.
Qed.

Lemma resolve_plain (absolute : bool) (comps : list string) (st : list string) :
  forallb (fun c => negb (String.eqb c "..")) comps = true ->
  exists ext, fold_left (OsPath.resolve_step absolute) comps st = (ext ++ st)%list.
Proof.
  revert st. induction comps as [|c comps IH]; intros st H; simpl.
  - exists []. reflexivity.
  - simpl in H. apply andb_prop in H. destruct H as [Hc Hrest].
    unfold OsPath.resolve_step at 2.
    destruct (String.eqb c EmptyString || String.eqb c "."); [apply IH, Hrest|].
    apply negb_true_iff in Hc. rewrite Hc.
    destruct (IH (c :: st) Hrest) as [ext ->].
    exists (ext ++ [c])%list. rewrite <- app_assoc. reflexivity.
Qed.

(** Joining a plain name only pushes components on the resolved path. *)
Lemma join_step_plain (path b : string) :
  plain b = true ->
  OsPath.is_absolute (OsPath.join_step path b) = OsPath.is_absolute path
  /\ exists ext, stack (OsPath.join_step path b) = (ext ++ stack path)%list.
Proof.
  unfold plain. intros H. apply andb_prop in H. destruct H as [Hrel Hplain].
  apply negb_true_iff in Hrel.
  unfold OsPath.join_step. unfold OsPath.is_absolute in Hrel. rewrite Hrel.
  destruct path as [|x path'] eqn:Epath.
  - (* empty path: the result is [b] *)
    simpl. split; [exact Hrel|].
    unfold stack, OsPath.is_absolute. rewrite Hrel. simpl.
    destruct (resolve_plain false (Py.split "/"%char b) [] Hplain) as [ext ->].
    exists ext. reflexivity.
  - rewrite <- Epath. assert (Hne : path <> EmptyString) by (subst; discriminate).
    clear Epath. cbn [Py.truthy negb orb].
    replace (negb (Py.truthy path)) with false
      by (destruct path; [contradiction|reflexivity]).
    cbn [orb].
    destruct (Py.endswith path OsPath.sep) eqn:Eend.
    + destruct (endswith_sep path Eend) as [a Ha].
      split.
      * unfold OsPath.is_absolute. apply prefix_sep_app, Hne.
      * unfold stack.
        replace (OsPath.is_absolute (path ++ b)) with (OsPath.is_absolute path)
          by (symmetry; unfold OsPath.is_absolute; apply prefix_sep_app, Hne).
        rewrite Ha. unfold OsPath.sep.
        rewrite append_assoc.   
        change ("/" ++ b) with (String "/"%char b).
        change (a ++ "/") with (a ++ String "/"%char EmptyString).
        rewrite !split_app_sep, !fold_left_app.
        change (Py.split "/"%char EmptyString) with [EmptyString].
        cbn [fold_left].
        unfold OsPath.resolve_step at 3. cbn [String.eqb orb].
        apply resolve_plain, Hplain.
    + split.
      * unfold OsPath.is_absolute. apply prefix_sep_app, Hne.
      * unfold stack.
        replace (OsPath.is_absolute (path ++ OsPath.sep ++ b))
          with (OsPath.is_absolute path)
          by (symmetry; unfold OsPath.is_absolute; apply prefix_sep_app, Hne).
        unfold OsPath.sep. change ("/" ++ b) with (String "/"%char b).
        rewrite split_app_sep, fold_left_app.
        apply resolve_plain, Hplain.
Qed.

Lemma join_plain (names : list string) :
  forall root : string,
    forallb plain names = true ->
    OsPath.is_absolute (OsPath.join root names) = OsPath.is_absolute root
    /\ exists ext, stack (OsPath.join root names) = (ext ++ stack root)%list.
Proof.
  unfold OsPath.join.
  induction names as [|b names IH]; intros root H; simpl.
  - split; [reflexivity|]. exists []. reflexivity.
  - simpl in H. apply andb_prop in H. destruct H as [Hb Hrest].
    destruct (join_step_plain root b Hb) as [Habs [ext1 Hext1]].
    destruct (IH (OsPath.join_step root b) Hrest) as [Habs' [ext2 Hext2]].
    split; [congruence|].
    exists (ext2 ++ ext1)%list. rewrite Hext2, Hext1, app_assoc. reflexivity.
Qed.

Lemma is_prefix_app (l ext : list string) : OsPath.is_prefix l (l ++ ext) = true.
Proof.
  induction l as [|x l IH]; simpl; [reflexivity|].
  rewrite String.eqb_refl. exact IH.
Qed.

Lemma join_plain_within (root : string) (names : list string) :
  forallb plain names = true ->
  OsPath.within root (OsPath.join root names) = true.
Proof.
  intros H. destruct (join_plain names root H) as [Habs [ext Hext]].
  unfold OsPath.within. rewrite Habs, Bool.eqb_reflx. cbn [andb].
  unfold OsPath.components. fold (stack (OsPath.join root names)). fold (stack root).
  rewrite Hext, rev_app_distr. apply is_prefix_app.
Qed.

(** With a relative file name and directory free of [..] components the
    three capabilities stay under the workspace root. *)
Lemma plain_paths_stay_within (workspace_path filename directory : string) :
  plain filename = true ->
  plain directory = true ->
  OsPath.within workspace_path
    (ReadFileTool.file_path workspace_path filename directory) = true
  /\ OsPath.within workspace_path
       (WriteFileTool.file_path workspace_path filename directory) = true
  /\ OsPath.within workspace_path
       (ExecutionTool.script_path workspace_path filename directory) = true.
Proof.
  intros Hf Hd.
  unfold ReadFileTool.file_path, WriteFileTool.file_path, WriteFileTool.dir_path,
    ExecutionTool.script_path.
  assert (H1 : forallb plain [filename] = true) by (simpl; rewrite Hf; reflexivity).
  assert (H2 : forallb plain [directory; filename] = true)
    by (simpl; rewrite Hf, Hd; reflexivity).
  destruct (Py.truthy directory).
  - change (OsPath.join (OsPath.join workspace_path [directory]) [filename])
      with (OsPath.join workspace_path [directory; filename]).
    repeat split; apply join_plain_within; assumption.
  - repeat split; apply join_plain_within; assumption.
Qed.

(** C5.  The paths are plain joins of the caller's strings: a [..] in the
    file name (or an absolute name) leaves the workspace root. *)
Theorem file_paths_leave_workspace :
  ReadFileTool.file_path "workspace" "../outside.txt" EmptyString
  = "workspace/../outside.txt"
  /\ OsPath.within "workspace"
       (ReadFileTool.file_path "workspace" "../outside.txt" EmptyString) = false
  /\ WriteFileTool.file_path "workspace" "../outside.txt" EmptyString
     = "workspace/../outside.txt"
  /\ OsPath.within "workspace"
       (WriteFileTool.file_path "workspace" "../outside.txt" EmptyString) = false
  /\ ExecutionTool.script_path "workspace" "../../outside.py" "solutions"
     = "workspace/solutions/../../outside.py"
  /\ OsPath.within "workspace"
       (ExecutionTool.script_path "workspace" "../../outside.py" "solutions") = false
  /\ ReadFileTool.file_path "workspace" "/etc/passwd" "solutions" = "/etc/passwd"
  /\ OsPath.within "workspace" "workspace/solutions/answer.py" = true.
Proof. vm_compute. repeat split; reflexivity. Qed.

(** ** The deterministic fallback *)

Lemma last_cons {A} (x d : A) (l : list A) :
  List.last (x :: l) d = List.last l x.
Proof.
  revert x d. induction l as [|y l IH]; intros x d.
  - reflexivity.
  - change (List.last (x :: y :: l) d) with (List.last (y :: l) d).
    rewrite IH. symmetry. apply IH.
Qed.

(** C8 as stated fails: one artifact, no run, and the fallback thinks. *)
Lemma fallback_thinks_about_notes :
  AgentState.files_created notes_only <> []
  /\ AgentState.execution_results notes_only = []
  /\ AutonomousToolSelector._get_fallback_decision notes_only
     = AutonomousToolSelector.use_tool "think"
         [("focus", JStr "solution improvement");
          ("context", JStr "Current quality is 0/100")]
         "Fallback: Analyzing ways to improve solution quality".
Proof. split; [discriminate | split; reflexivity]. Qed.

(** C8, amended.  With at least one artifact recorded and no execution
    yet, the fallback runs the most recently created artifact when its
    name ends in [.py]; otherwise the run rule is skipped and the later
    rules of the tree decide, none of which chooses the run capability. *)
Theorem fallback_runs_latest_python_file (state : AgentState.t)
    (default : FileInfo.t) :
  AgentState.files_created state <> [] ->
  AgentState.execution_results state = [] ->
  let latest_file := List.last (AgentState.files_created state) default in
  if Py.endswith (FileInfo.filename latest_file) ".py"
  then AutonomousToolSelector._get_fallback_decision state
       = AutonomousToolSelector.use_tool "execute_code"
           [("filename", JStr (FileInfo.filename latest_file));
            ("goal", JStr "test the solution")]
           "Fallback: Testing the generated solution"
  else AutonomousToolSelector._get_fallback_decision state = later_rules state
       /\ forall parameters reasoning,
            AutonomousToolSelector._get_fallback_decision state
            <> AutonomousToolSelector.use_tool "execute_code" parameters reasoning.
Proof.
  intros Hfiles Hruns latest_file. subst latest_file.
  unfold AutonomousToolSelector._get_fallback_decision, later_rules.
  destruct (AgentState.files_created state) as [|first_file files];
    [contradiction|].
  rewrite Hruns, last_cons.
  destruct (Py.endswith _ _).
  - reflexivity.
  - split; [reflexivity|].
    intros parameters reasoning.
    destruct (_ <? 70); [discriminate|].
    destruct (_ || _); discriminate.
Qed.

Lemma fallback_runs_latest_python_file_witness :
  AutonomousToolSelector._get_fallback_decision
    (AgentState.add_file "solution.py" "workspace/solutions/solution.py"
       "unknown" "Tool call: write_file" 120 notes_only)
  = AutonomousToolSelector.use_tool "execute_code"
      [("filename", JStr "solution.py"); ("goal", JStr "test the solution")]
      "Fallback: Testing the generated solution".
Proof.
  exact (fallback_runs_latest_python_file
           (AgentState.add_file "solution.py" "workspace/solutions/solution.py"
              "unknown" "Tool call: write_file" 120 notes_only)
           {| FileInfo.filename := EmptyString; FileInfo.path := EmptyString;
              FileInfo.content_type := EmptyString; FileInfo.size := 0;
              FileInfo.purpose := EmptyString |}
           ltac:(vm_compute; discriminate) ltac:(reflexivity)).
Defined.

(** ** The decision adapter *)

Lemma existsb_eqb_In (name : string) (l : list string) :
  In name l -> existsb (String.eqb name) l = true.
Proof.
  intros H. apply existsb_exists. exists name. split; [exact H|].
  apply String.eqb_refl.
Qed.

Lemma dict_get_set_same (k : string) (v : json) (d : Dict.t) :
  Dict.get k (Dict.set k v d) = Some v.
Proof.
  induction d as [|[k' v'] d IH]; simpl.
  - rewrite String.eqb_refl. reflexivity.
  - destruct (String.eqb k k') eqn:E; simpl.
    + rewrite String.eqb_refl. reflexivity.
    + rewrite E. exact IH.
Qed.

Lemma dict_get_set_other (k k' : string) (v : json) (d : Dict.t) :
  String.eqb k k' = false ->
  Dict.get k (Dict.set k' v d) = Dict.get k d.
Proof.
  intros Hk. induction d as [|[k'' v''] d IH]; simpl.
  - rewrite Hk. reflexivity.
  - destruct (String.eqb k' k'') eqn:E; simpl.
    + apply String.eqb_eq in E. subst k''. rewrite Hk. reflexivity.
    + rewrite IH. reflexivity.
Qed.

Lemma dict_mem_set_same (k : string) (v : json) (d : Dict.t) :
  Dict.mem k (Dict.set k v d) = true.
Proof. unfold Dict.mem. rewrite dict_get_set_same. reflexivity. Qed.

Lemma dict_mem_set_other (k k' : string) (v : json) (d : Dict.t) :
  String.eqb k k' = false ->
  Dict.mem k (Dict.set k' v d) = Dict.mem k d.
Proof. intros H. unfold Dict.mem. rewrite dict_get_set_other by exact H. reflexivity. Qed.

(** A repaired field is present afterwards. *)
Lemma dict_mem_repaired (k : string) (v : json) (d : Dict.t) :
  Dict.mem k (if negb (Dict.mem k d) then Dict.set k v d else d) = true.
Proof.
  destruct (Dict.mem k d) eqn:E; simpl.
  - exact E.
  - apply dict_mem_set_same.
Qed.

Lemma dict_get_set_repaired_other (k k' : string) (v : json) (d : Dict.t) :
  String.eqb k k' = false ->
  Dict.get k (if negb (Dict.mem k' d) then Dict.set k' v d else d) = Dict.get k d.
Proof.
  intros H. destruct (negb _); [apply dict_get_set_other, H|reflexivity].
Qed.

Lemma dict_mem_repaired_other (k k' : string) (v : json) (d : Dict.t) :
  String.eqb k k' = false ->
  Dict.mem k (if negb (Dict.mem k' d) then Dict.set k' v d else d) = Dict.mem k d.
Proof.
  intros H. destruct (negb _); [apply dict_mem_set_other, H|reflexivity].
Qed.

Section SelectorProperties.
Context {RT : PyRuntime}.
Variable available_tools : list string.
Hypothesis think_registered : In "think" available_tools.
Hypothesis execute_code_registered : In "execute_code" available_tools.
Hypothesis generate_code_registered : In "generate_code" available_tools.

Import AutonomousToolSelector.

Lemma use_tool_well_formed (name : string) (parameters : Dict.t) (reasoning : string) :
  In name available_tools ->
  well_formed available_tools (use_tool name parameters reasoning) = true.
Proof.
  intros H. unfold well_formed, use_tool. cbn.
  rewrite (existsb_eqb_In _ _ H). reflexivity.
Qed.

Lemma stop_well_formed (reasoning : string) :
  well_formed available_tools (stop reasoning) = true.
Proof. reflexivity. Qed.

Lemma fallback_well_formed (state : AgentState.t) :
  well_formed available_tools (_get_fallback_decision state) = true.
Proof.
  unfold _get_fallback_decision.
  destruct (AgentState.files_created state) as [|first_file files].
  - apply use_tool_well_formed, think_registered.
  - destruct (match AgentState.execution_results state with
              | [] => _ | _ :: _ => false end).
    + apply use_tool_well_formed, execute_code_registered.
    + destruct (_ <? 70).
      * apply use_tool_well_formed, think_registered.
      * destruct (_ || _).
        -- apply stop_well_formed.
        -- apply use_tool_well_formed, generate_code_registered.
Qed.

Lemma interpret_well_formed (response : string) (state : AgentState.t) :
  well_formed available_tools (_interpret_text_response available_tools response state)
  = true.
Proof.
  unfold _interpret_text_response.
  destruct (existsb _ stop_indicators).
  - apply stop_well_formed.
  - destruct (List.find _ available_tools) as [tool_name|] eqn:E.
    + apply use_tool_well_formed. apply (find_some _ _ E).
    + apply fallback_well_formed.
Qed.

Lemma validate_only_thinks (decision decision' : json) (valid : bool)
    (state state' : AgentState.t) :
  _validate_decision available_tools decision state = Ok (valid, decision', state') ->
  thought_added state state'.
Proof.
  unfold _validate_decision, thought_added, bind.
  destruct decision as [ | | | | |d]; try (intros H; injection H as _ _ <-; auto).
  destruct (negb _); [intros H; injection H as _ _ <-; auto|].
  destruct (json_is_str _ "use_tool").
  - destruct (tool_not_available _ _) as [[|]|]; intros H; try discriminate;
      injection H as _ _ <-; eauto.
  - intros H; injection H as _ _ <-; auto.
Qed.

Lemma validate_well_formed (decision decision' : json)
    (state state' : AgentState.t) :
  _validate_decision available_tools decision state = Ok (true, decision', state') ->
  well_formed available_tools decision' = true.
Proof.
  unfold _validate_decision, bind.
  destruct decision as [ | | | | |d]; try discriminate.
  unfold get at 1 2 3.
  destruct (Dict.get "action" d) as [[ | | |action| | ]|] eqn:Haction;
    cbn [get_or json_is_str orb negb]; try discriminate.
  destruct (String.eqb action "use_tool") eqn:Euse.
  - cbn [orb negb].
    apply String.eqb_eq in Euse. subst action.
    unfold get.
    destruct (Dict.get "tool" d) as [[ | | |name| | ]|] eqn:Htool;
      cbn [get_or tool_not_available]; try discriminate.
    destruct (existsb (String.eqb name) available_tools) eqn:Hname;
      cbn [negb]; try discriminate.
    intros H. injection H as <- _.
    unfold well_formed.
    rewrite dict_get_set_repaired_other, dict_get_set_repaired_other, Haction by reflexivity.
    cbn [String.eqb Ascii.eqb Bool.eqb].
    rewrite dict_get_set_repaired_other, dict_get_set_repaired_other, Htool by reflexivity.
    rewrite Hname, dict_mem_repaired.
    rewrite dict_mem_repaired_other by reflexivity.
    rewrite dict_mem_repaired. reflexivity.
  - destruct (String.eqb action "stop") eqn:Estop; cbn [orb negb]; try discriminate.
    apply String.eqb_eq in Estop. subst action.
    intros H. injection H as <- _.
    unfold well_formed.
    rewrite dict_get_set_repaired_other, Haction by reflexivity.
    cbn [String.eqb Ascii.eqb Bool.eqb].
    apply dict_mem_repaired.
Qed.

End SelectorProperties.

(** Parsing always returns a well-formed decision and writes at most one
    thought. *)
Lemma parse_llm_decision_spec {RT : PyRuntime} (available_tools : list string)
    (llm_response : string) (state : AgentState.t) :
  In "think" available_tools ->
  In "execute_code" available_tools ->
  In "generate_code" available_tools ->
  exists decision state',
    AutonomousToolSelector._parse_llm_decision available_tools llm_response state
    = Ok (decision, state')
    /\ well_formed available_tools decision = true
    /\ thought_added state state'.
Proof.
  intros Hthink Hexec Hgen.
  unfold AutonomousToolSelector._parse_llm_decision,
    AutonomousToolSelector.extract_json, try_except, bind.
  set (text := Py.strip llm_response).
  assert (Hfallback : forall e,
    exists decision state',
      Ok (AutonomousToolSelector._get_fallback_decision
            (AgentState.add_thinking ("Error parsing LLM decision: " ++ exn_msg e) state),
          AgentState.add_thinking ("Error parsing LLM decision: " ++ exn_msg e) state)
      = Ok (decision, state')
      /\ well_formed available_tools decision = true
      /\ thought_added state state').
  { intros e. eexists _, _. split; [reflexivity|]. split.
    - apply fallback_well_formed; assumption.
    - right. eexists. reflexivity. }
  assert (Htext : forall state',
    thought_added state state' ->
    exists decision state'',
      Ok (AutonomousToolSelector._interpret_text_response available_tools text state',
          state')
      = Ok (decision, state'')
      /\ well_formed available_tools decision = true
      /\ thought_added state state'').
  { intros state' Hs. eexists _, _. split; [reflexivity|]. split.
    - apply interpret_well_formed; assumption.
    - exact Hs. }
  destruct (_ && _).
  - destruct (json_loads _) as [decision|e]; [|apply Hfallback].
    destruct (AutonomousToolSelector._validate_decision _ decision state)
      as [[[valid decision'] state']|e] eqn:Hv; [|apply Hfallback].
    pose proof (validate_only_thinks _ _ _ _ _ _ Hv) as Hs.
    destruct valid.
    + eexists _, _. split; [reflexivity|]. split; [|exact Hs].
      eapply validate_well_formed. exact Hv.
    + apply Htext, Hs.
  - apply Htext. left. reflexivity.
Qed.

(** C3.  For every reply text the adapter returns, without raising, a
    decision whose action is [use_tool] or [stop]; for [use_tool] the tool
    is a registered capability and parameters and reasoning are present;
    for [stop] the reasoning is present. *)
Theorem parse_llm_decision_always_valid {RT : PyRuntime}
    (available_tools : list string) (llm_response : string)
    (state : AgentState.t) :
  In "think" available_tools ->
  In "execute_code" available_tools ->
  In "generate_code" available_tools ->
  exists decision state',
    AutonomousToolSelector._parse_llm_decision available_tools llm_response state
    = Ok (decision, state')
    /\ well_formed available_tools decision = true.
Proof.
  intros Hthink Hexec Hgen.
  destruct (parse_llm_decision_spec available_tools llm_response state
              Hthink Hexec Hgen) as (decision & state' & Heq & Hwf & _).
  exists decision, state'. split; assumption.
Qed.

Lemma parse_llm_decision_always_valid_witness :
  exists decision state',
    AutonomousToolSelector._parse_llm_decision (RT := Reference.runtime)
      FullyAutonomousCodingAgent.tools "}{ no idea, {[ maybe }"
      (AgentState.init "sort a list" 15)
    = Ok (decision, state')
    /\ well_formed FullyAutonomousCodingAgent.tools decision = true.
Proof.
  apply (parse_llm_decision_always_valid (RT := Reference.runtime)
           FullyAutonomousCodingAgent.tools "}{ no idea, {[ maybe }"
           (AgentState.init "sort a list" 15));
    unfold FullyAutonomousCodingAgent.tools; simpl; auto 6.
Defined.

(** When the brace span does not decode, the handler answers with the
    fallback tree; the textual interpretation is not consulted. *)
Lemma parse_when_decoder_raises {RT : PyRuntime} (available_tools : list string)
    (llm_response : string) (state : AgentState.t) (e : exn) :
  let text := Py.strip llm_response in
  let json_start := Py.find "{"%char text in
  let json_end := Py.rfind "}"%char text + 1 in
  (json_start >=? 0) && (json_end >? json_start) = true ->
  json_loads (Py.slice text json_start json_end) = Raise e ->
  AutonomousToolSelector._parse_llm_decision available_tools llm_response state
  = let state' :=
      AgentState.add_thinking ("Error parsing LLM decision: " ++ exn_msg e) state in
    Ok (AutonomousToolSelector._get_fallback_decision state', state').
Proof.
  intros text json_start json_end Hspan Hraise.
  unfold AutonomousToolSelector._parse_llm_decision,
    AutonomousToolSelector.extract_json, try_except, bind.
  fold text. fold json_start. fold json_end.
  rewrite Hspan, Hraise. reflexivity.
Qed.

(** When the span decodes and validation says no, the textual
    interpretation is consulted. *)
Lemma parse_when_validation_fails {RT : PyRuntime} (available_tools : list string)
    (llm_response : string) (state state' : AgentState.t) (decision decision' : json) :
  let text := Py.strip llm_response in
  let json_start := Py.find "{"%char text in
  let json_end := Py.rfind "}"%char text + 1 in
  (json_start >=? 0) && (json_end >? json_start) = true ->
  json_loads (Py.slice text json_start json_end) = Ok decision ->
  AutonomousToolSelector._validate_decision available_tools decision state
  = Ok (false, decision', state') ->
  AutonomousToolSelector._parse_llm_decision available_tools llm_response state
  = Ok (AutonomousToolSelector._interpret_text_response available_tools text state',
        state').
Proof.
  intros text json_start json_end Hspan Hdecode Hinvalid.
  unfold AutonomousToolSelector._parse_llm_decision,
    AutonomousToolSelector.extract_json, try_except, bind.
  fold text. fold json_start. fold json_end.
  rewrite Hspan, Hdecode, Hinvalid. reflexivity.
Qed.

(** C7.  The reply [I am done {not json}] has a brace span that does not
    decode.  The textual interpretation reads it as a stop, but the
    adapter returns the first rule of the fallback tree. *)
Theorem undecodable_span_skips_text_interpretation :
  let llm_response := "I am done {not json}" in
  let state := AgentState.init "sort a list" 15 in
  is_ok (@json_loads Reference.runtime "{not json}") = false
  /\ AutonomousToolSelector._interpret_text_response (RT := Reference.runtime)
       FullyAutonomousCodingAgent.tools llm_response state
     = AutonomousToolSelector.stop
         "Interpreted from response: I am done {not json}..."
  /\ exists state',
       AutonomousToolSelector._parse_llm_decision (RT := Reference.runtime)
         FullyAutonomousCodingAgent.tools llm_response state
       = Ok (AutonomousToolSelector.use_tool "think"
               [("focus", JStr "problem analysis");
                ("context", JStr "Starting problem analysis")]
               "Fallback: Starting with problem analysis",
             state').
Proof.
  intros llm_response state.
  split; [reflexivity|]. split; [reflexivity|].
  eexists. vm_compute. reflexivity.
Qed.

(** ** The control loop *)

Lemma same_budget_refl (state : AgentState.t) : same_budget state state.
Proof. repeat split. Qed.

Lemma same_budget_trans (s1 s2 s3 : AgentState.t) :
  same_budget s1 s2 -> same_budget s2 s3 -> same_budget s1 s3.
Proof.
  unfold same_budget. intros (A1 & A2 & A3) (B1 & B2 & B3).
  repeat split; congruence.
Qed.

Lemma thought_added_same_budget (state state' : AgentState.t) :
  thought_added state state' -> same_budget state state'.
Proof.
  intros [->|[thought ->]]; repeat split.
Qed.

Lemma update_last_length (envelope : ToolResult.t) (calls : list ToolCall.t) :
  List.length (AgentState.update_last envelope calls) = List.length calls.
Proof.
  induction calls as [|call calls IH]; [reflexivity|].
  destruct calls as [|call' calls]; [reflexivity|].
  change (S (List.length (AgentState.update_last envelope (call' :: calls)))
          = S (List.length (call' :: calls))).
  rewrite IH. reflexivity.
Qed.

Lemma update_last_tool_call_same_budget (envelope : ToolResult.t)
    (state : AgentState.t) :
  same_budget state (AgentState.update_last_tool_call envelope state).
Proof.
  repeat split. simpl. apply update_last_length.
Qed.

Lemma add_issue_same_budget (issue : string) (state : AgentState.t) :
  same_budget state (AgentState.add_issue issue state).
Proof.
  unfold AgentState.add_issue. destruct (existsb _ _); repeat split.
Qed.

Create HintDb budget.
#[local] Hint Resolve same_budget_refl update_last_tool_call_same_budget
  add_issue_same_budget thought_added_same_budget : budget.

Lemma add_tool_call_one_recorded (tool_name parameters reasoning : json)
    (state : AgentState.t) :
  one_recorded state (AgentState.add_tool_call tool_name parameters reasoning state).
Proof.
  repeat split. simpl. rewrite length_app. simpl. lia.
Qed.

Lemma well_formed_inv (available_tools : list string) (decision : json) :
  well_formed available_tools decision = true ->
  exists d, decision = JObj d
    /\ ((Dict.get "action" d = Some (JStr "stop")
         /\ exists reasoning, Dict.get "reasoning" d = Some reasoning)
        \/ (Dict.get "action" d = Some (JStr "use_tool")
            /\ exists name parameters reasoning,
                 Dict.get "tool" d = Some (JStr name)
                 /\ In name available_tools
                 /\ Dict.get "parameters" d = Some parameters
                 /\ Dict.get "reasoning" d = Some reasoning)).
Proof.
  unfold well_formed, Dict.mem.
  destruct decision as [ | | | | |d]; try discriminate.
  intros H. exists d. split; [reflexivity|].
  destruct (Dict.get "action" d) as [[ | | |action| | ]|]; try discriminate.
  destruct (String.eqb action "stop") eqn:Estop.
  - apply String.eqb_eq in Estop. subst action. left. split; [reflexivity|].
    destruct (Dict.get "reasoning" d) as [r|]; [eauto|discriminate].
  - destruct (String.eqb action "use_tool") eqn:Euse; [|discriminate].
    apply String.eqb_eq in Euse. subst action. right. split; [reflexivity|].
    destruct (Dict.get "tool" d) as [[ | | |name| | ]|]; try discriminate.
    destruct (existsb (String.eqb name) available_tools) eqn:Hname; [|discriminate].
    destruct (Dict.get "parameters" d) as [p|]; [|discriminate].
    destruct (Dict.get "reasoning" d) as [r|]; [|discriminate].
    exists name, p, r. repeat split.
    apply existsb_exists in Hname. destruct Hname as (x & Hin & Hx).
    apply String.eqb_eq in Hx. subst x. exact Hin.
Qed.

Lemma agent_tools_registered :
  In "think" FullyAutonomousCodingAgent.tools
  /\ In "execute_code" FullyAutonomousCodingAgent.tools
  /\ In "generate_code" FullyAutonomousCodingAgent.tools.
Proof. unfold FullyAutonomousCodingAgent.tools. simpl. auto 8. Qed.

Section LoopProperties.
Context {RT : PyRuntime}.
Variable env : FullyAutonomousCodingAgent.Environment.

Import FullyAutonomousCodingAgent.

(** What a decision cycle leaves behind: on an exception the ledger as it
    was, on [stop] at most a thought, on [use_tool] one recorded
    invocation. *)
Lemma make_decision_spec (state : AgentState.t) :
  match _make_autonomous_decision env state with
  | (Raise _, state1) => state1 = state
  | (Ok decision, state1) =>
      exists d, decision = JObj d
        /\ ((Dict.get "action" d = Some (JStr "stop")
             /\ (exists reasoning, Dict.get "reasoning" d = Some reasoning)
             /\ same_budget state state1)
            \/ (Dict.get "action" d = Some (JStr "use_tool")
                /\ (exists name parameters,
                      Dict.get "tool" d = Some (JStr name)
                      /\ In name tools
                      /\ Dict.get "parameters" d = Some parameters)
                /\ one_recorded state state1))
  end.
Proof.
  unfold _make_autonomous_decision, AutonomousToolSelector.decide_next_action, bind.
  destruct (AgentState.get_recent_actions 3 state); [|reflexivity].
  destruct (llm_client env state) as [llm_response|]; [|reflexivity].
  destruct agent_tools_registered as (Hthink & Hexec & Hgen).
  destruct (parse_llm_decision_spec tools llm_response state Hthink Hexec Hgen)
    as (decision & state' & -> & Hwf & Hthought).
  apply thought_added_same_budget in Hthought.
  destruct (well_formed_inv _ _ Hwf) as (d & -> & [[Haction [r Hr]]|[Haction Huse]]).
  - unfold getitem, Dict.getitem. rewrite Haction. cbn. rewrite Hr.
    exists d. split; [reflexivity|]. left. eauto.
  - destruct Huse as (name & p & r & Htool & Hin & Hp & Hr).
    unfold getitem, Dict.getitem. rewrite Haction. cbn. rewrite Htool, Hr, Hp.
    exists d. split; [reflexivity|]. right. split; [exact Haction|].
    split; [eauto|].
    pose proof (add_tool_call_one_recorded (JStr name) p r state') as Hone.
    unfold one_recorded, same_budget in *. lia.
Qed.

Lemma process_tool_result_same_budget (tool_name : json) (envelope : ToolResult.t)
    (parameters : Dict.t) (state state' : AgentState.t) :
  _process_tool_result tool_name envelope parameters state = Ok state' ->
  same_budget state state'.
Proof.
  unfold _process_tool_result.
  destruct (negb _); [intros H; injection H as <-; apply same_budget_refl|].
  destruct (ToolResult.result envelope) as [tool_result|]; [|discriminate].
  destruct (json_is_str tool_name "think").
  { destruct (Py.truthy _); intros H; injection H as <-; repeat split. }
  destruct (json_is_str tool_name "generate_code").
  { intros H; injection H as <-; repeat split. }
  destruct (json_is_str tool_name "write_file").
  { destruct (ToolResult.file_path tool_result); [|discriminate].
    intros H; injection H as <-; repeat split. }
  destruct (json_is_str tool_name "read_file").
  { intros H; injection H as <-; repeat split. }
  destruct (json_is_str tool_name "execute_code").
  { unfold AgentState.add_execution_result, bind.
    destruct (AgentState._calculate_quality_score _ _ _ _) as [q|]; [|discriminate].
    destruct (q >? _); intros H; injection H as <-; repeat split. }
  intros H; injection H as <-; apply same_budget_refl.
Qed.

Lemma execute_tool_decision_same_budget (decision : json) (state : AgentState.t) :
  same_budget state (snd (_execute_tool_decision env decision state)).
Proof.
  unfold _execute_tool_decision.
  destruct (bind _ _) as [[tool_name parameters]|]; [|apply same_budget_refl].
  assert (Hhandler : forall e state',
    same_budget state state' ->
    same_budget state
      (AgentState.add_issue (py_str tool_name ++ " execution error: " ++ exn_msg e)
         (AgentState.update_last_tool_call (ToolResult.failure (exn_msg e)) state'))).
  { intros e state' H.
    eapply same_budget_trans; [exact H|].
    eapply same_budget_trans; [apply update_last_tool_call_same_budget|].
    auto with budget. }
  destruct (call_tool env tool_name parameters state) as [tool_result|e]; simpl.
  2: { apply Hhandler; auto with budget. }
  destruct (_process_tool_result _ _ _ _) as [state'|e] eqn:Hp; simpl.
  2: { apply Hhandler; auto with budget. }
  apply process_tool_result_same_budget in Hp.
  assert (same_budget state state')
    by (eapply same_budget_trans; [|exact Hp]; auto with budget).
  destruct (negb _); simpl; [|assumption].
  eapply same_budget_trans; [eassumption|auto with budget].
Qed.

Lemma execute_tool_decision_ok (d : Dict.t) (tool parameters : json)
    (state : AgentState.t) :
  Dict.get "tool" d = Some tool ->
  Dict.get "parameters" d = Some parameters ->
  fst (_execute_tool_decision env (JObj d) state) = Ok tt.
Proof.
  intros Ht Hp. unfold _execute_tool_decision, getitem, Dict.getitem, bind.
  rewrite Ht, Hp.
  destruct (call_tool _ _ _ _); [|reflexivity].
  destruct (_process_tool_result _ _ _ _); [|reflexivity].
  destruct (negb _); reflexivity.
Qed.

Lemma update_agent_assessment_same_budget (state : AgentState.t) :
  same_budget state (_update_agent_assessment state).
Proof.
  unfold _update_agent_assessment.
  match goal with |- same_budget _ (if ?c then _ else _) => destruct c end;
    repeat split.
Qed.

End LoopProperties.

Lemma budget_ok_same (max_tool_calls : Z) (state state' : AgentState.t) :
  same_budget state state' ->
  budget_ok max_tool_calls state -> budget_ok max_tool_calls state'.
Proof. unfold same_budget, budget_ok. lia. Qed.

Lemma budget_ok_recorded (max_tool_calls : Z) (state state' : AgentState.t) :
  one_recorded state state' ->
  0 < AgentState.remaining_calls state ->
  budget_ok max_tool_calls state -> budget_ok max_tool_calls state'.
Proof. unfold one_recorded, budget_ok. lia. Qed.

Section LoopBudget.
Context {RT : PyRuntime}.
Variable env : FullyAutonomousCodingAgent.Environment.

Import FullyAutonomousCodingAgent.

Lemma continue_positive (state : AgentState.t) :
  continue state = true -> 0 < AgentState.remaining_calls state.
Proof.
  unfold continue. intros H. apply andb_prop in H. destruct H as [H _]. lia.
Qed.

(** Every ledger a run passes through satisfies the budget equation and
    bound, and the remaining budget never goes up along the run. *)
Lemma main_loop_budget (max_tool_calls : Z) (fuel : nat) :
  forall (state : AgentState.t) (r : run),
    budget_ok max_tool_calls state ->
    main_loop env fuel state = Some r ->
    Forall (budget_ok max_tool_calls) (ledgers r)
    /\ non_increasing
         (AgentState.remaining_calls state
          :: map AgentState.remaining_calls (ledgers r)).
Proof.
  induction fuel as [|fuel IH]; intros state r Hok; [discriminate|].
  cbn [main_loop].
  destruct (continue state) eqn:Hcont.
  2: { intros H. injection H as <-. simpl. auto. }
  apply continue_positive in Hcont.
  pose proof (make_decision_spec env state) as Hdec.
  destruct (_make_autonomous_decision env state) as [[decision|e] state1].
  2: { subst state1. intros H. injection H as <-. simpl.
       split; [constructor; [assumption|constructor]|lia]. }
  destruct Hdec as (d & -> & [(Haction & [reasoning Hr] & Hsame)
                             |(Haction & (name & p & Htool & _ & Hp) & Hone)]).
  - (* stop *)
    unfold getitem, Dict.getitem. rewrite Haction, Hr. cbn.
    intros H. injection H as <-. simpl.
    assert (budget_ok max_tool_calls state1) by (eapply budget_ok_same; eauto).
    split.
    + constructor; [assumption|]. constructor; [|constructor].
      eapply budget_ok_same; [|eassumption]. repeat split.
    + unfold same_budget in Hsame. simpl. lia.
  - (* use_tool *)
    unfold getitem at 1, Dict.getitem. rewrite Haction. cbn [json_is_str String.eqb Ascii.eqb Bool.eqb].
    assert (Hok1 : budget_ok max_tool_calls state1)
      by (eapply budget_ok_recorded; eauto).
    pose proof (execute_tool_decision_same_budget env (JObj d) state1) as Hsame2.
    destruct (_execute_tool_decision env (JObj d) state1) as [[u|e] state2];
      simpl in Hsame2.
    2: { intros H. injection H as <-. simpl.
         split.
         - constructor; [assumption|]. constructor; [|constructor].
           eapply budget_ok_same; eauto.
         - unfold one_recorded in Hone. unfold same_budget in Hsame2. lia. }
    pose proof (update_agent_assessment_same_budget state2) as Hsame3.
    set (state3 := _update_agent_assessment state2) in *.
    assert (Hok2 : budget_ok max_tool_calls state2)
      by (eapply budget_ok_same; eauto).
    assert (Hok3 : budget_ok max_tool_calls state3)
      by (eapply budget_ok_same; eauto).
    destruct (main_loop env fuel state3) as [r'|] eqn:Hrest; [|discriminate].
    destruct (IH state3 r' Hok3 Hrest) as [Hall Hmono].
    intros H. injection H as <-. simpl.
    split.
    + repeat (constructor; [assumption|]). exact Hall.
    + unfold one_recorded in Hone. unfold same_budget in Hsame2, Hsame3.
      repeat split; try lia. exact Hmono.
Qed.

(** The loop needs at most as many cycles as there is budget left. *)
Lemma main_loop_terminates (fuel : nat) :
  forall state : AgentState.t,
    (Z.to_nat (AgentState.remaining_calls state) < fuel)%nat ->
    exists r, main_loop env fuel state = Some r.
Proof.
  induction fuel as [|fuel IH]; intros state Hfuel; [lia|].
  cbn [main_loop].
  destruct (continue state) eqn:Hcont; [|eauto].
  apply continue_positive in Hcont.
  pose proof (make_decision_spec env state) as Hdec.
  destruct (_make_autonomous_decision env state) as [[decision|e] state1];
    [|eauto].
  destruct Hdec as (d & -> & [(Haction & [reasoning Hr] & Hsame)
                             |(Haction & (name & p & Htool & _ & Hp) & Hone)]).
  - unfold getitem, Dict.getitem. rewrite Haction, Hr. cbn. eauto.
  - unfold getitem at 1, Dict.getitem. rewrite Haction. cbn [json_is_str String.eqb Ascii.eqb Bool.eqb].
    pose proof (execute_tool_decision_same_budget env (JObj d) state1) as Hsame2.
    destruct (_execute_tool_decision env (JObj d) state1) as [[u|e] state2];
      simpl in Hsame2; [|eauto].
    pose proof (update_agent_assessment_same_budget state2) as Hsame3.
    destruct (IH (_update_agent_assessment state2)) as [r' ->].
    + unfold one_recorded in Hone. unfold same_budget in Hsame2, Hsame3. lia.
    + simpl. eauto.
Qed.

(** With no budget left the loop body is not entered, satisfied or not. *)
Lemma main_loop_exhausted (fuel : nat) (state : AgentState.t) :
  AgentState.remaining_calls state <= 0 ->
  main_loop env (S fuel) state = Some {| outcome := Ok tt; ledgers := [] |}.
Proof.
  intros H. cbn [main_loop]. unfold continue.
  replace (AgentState.remaining_calls state >? 0) with false by lia.
  reflexivity.
Qed.

End LoopBudget.

(** C1.  In every session with a non-negative configured maximum the loop
    ends; in every ledger it passes through the remaining budget equals
    the maximum minus the number of recorded invocations and is not
    negative; the remaining budget never increases; and with no budget
    left the loop records and dispatches nothing more, whether or not the
    agent is satisfied. *)
Theorem budget_never_overdrawn {RT : PyRuntime}
    (env : FullyAutonomousCodingAgent.Environment)
    (max_tool_calls : Z) (problem_statement : string) :
  0 <= max_tool_calls ->
  exists r,
    FullyAutonomousCodingAgent.main_loop env (S (Z.to_nat max_tool_calls))
      (AgentState.init problem_statement max_tool_calls) = Some r
    /\ Forall (budget_ok max_tool_calls) (FullyAutonomousCodingAgent.ledgers r)
    /\ non_increasing
         (max_tool_calls
          :: map AgentState.remaining_calls (FullyAutonomousCodingAgent.ledgers r))
    /\ (forall (fuel : nat) (state : AgentState.t),
          AgentState.remaining_calls state <= 0 ->
          FullyAutonomousCodingAgent.main_loop env (S fuel) state
          = Some {| FullyAutonomousCodingAgent.outcome := Ok tt;
                    FullyAutonomousCodingAgent.ledgers := [] |}).
Proof.
  intros Hmax.
  destruct (main_loop_terminates env (S (Z.to_nat max_tool_calls))
              (AgentState.init problem_statement max_tool_calls)) as [r Hr].
  { simpl. lia. }
  exists r. split; [exact Hr|].
  assert (Hinit : budget_ok max_tool_calls
                    (AgentState.init problem_statement max_tool_calls))
    by (unfold budget_ok; simpl; lia).
  destruct (main_loop_budget env max_tool_calls _ _ r Hinit Hr) as [Hall Hmono].
  split; [exact Hall|]. split; [exact Hmono|].
  intros fuel state. apply main_loop_exhausted.
Qed.

Lemma budget_never_overdrawn_witness :
  exists r,
    FullyAutonomousCodingAgent.main_loop (RT := Reference.runtime) mumbling
      (S (Z.to_nat 1)) (AgentState.init "sort a list" 1) = Some r
    /\ Forall (budget_ok 1) (FullyAutonomousCodingAgent.ledgers r)
    /\ non_increasing
         (1 :: map AgentState.remaining_calls (FullyAutonomousCodingAgent.ledgers r))
    /\ (forall (fuel : nat) (state : AgentState.t),
          AgentState.remaining_calls state <= 0 ->
          FullyAutonomousCodingAgent.main_loop (RT := Reference.runtime) mumbling
            (S fuel) state
          = Some {| FullyAutonomousCodingAgent.outcome := Ok tt;
                    FullyAutonomousCodingAgent.ledgers := [] |}).
Proof.
  apply (budget_never_overdrawn (RT := Reference.runtime) mumbling 1 "sort a list").
  lia.
Defined.

(** [solve_problem] returns a report whatever the budget, the oracle and
    the capabilities do. *)
Lemma solve_problem_reports {RT : PyRuntime}
    (env : FullyAutonomousCodingAgent.Environment)
    (max_tool_calls : Z) (problem_statement : string) :
  exists report,
    FullyAutonomousCodingAgent.solve_problem env max_tool_calls problem_statement
    = Some report.
Proof.
  unfold FullyAutonomousCodingAgent.solve_problem.
  destruct (main_loop_terminates env (S (Z.to_nat max_tool_calls))
              (AgentState.init problem_statement max_tool_calls)) as [r ->].
  { simpl. lia. }
  eauto.
Qed.

(** Scenario A of the specification: budget 1, nothing usable from the
    oracle.  One invocation is recorded, the budget is 0 and the session
    ends unsatisfied. *)
Lemma scenario_A :
  option_map
    (fun report =>
       (FullyAutonomousCodingAgent.status report,
        AgentState.remaining_calls (FullyAutonomousCodingAgent.state_data report),
        List.length
          (AgentState.tool_calls (FullyAutonomousCodingAgent.state_data report)),
        AgentState.is_satisfied (FullyAutonomousCodingAgent.state_data report)))
    (FullyAutonomousCodingAgent.solve_problem (RT := Reference.runtime) mumbling 1
       "sort a list")
  = Some (FullyAutonomousCodingAgent.INCOMPLETE, 0, 1%nat, false).
Proof. vm_compute. reflexivity. Qed.

(** ** A failing oracle *)

(** C6 as stated fails: the oracle raises and so does the adapter; the
    session ends with an error report and nothing dispatched. *)
Lemma oracle_failure_is_not_caught :
  AutonomousToolSelector.decide_next_action (RT := Reference.runtime)
    FullyAutonomousCodingAgent.tools failing_oracle
    (AgentState.init "sort a list" 15)
  = Raise connection_refused
  /\ FullyAutonomousCodingAgent.solve_problem (RT := Reference.runtime) offline 15
       "sort a list"
     = Some {| FullyAutonomousCodingAgent.status := FullyAutonomousCodingAgent.ERROR;
               FullyAutonomousCodingAgent.error := Some "connection refused";
               FullyAutonomousCodingAgent.state_data :=
                 AgentState.init "sort a list" 15 |}.
Proof. split; vm_compute; reflexivity. Qed.

Section OracleFailure.
Context {RT : PyRuntime}.
Variable env : FullyAutonomousCodingAgent.Environment.

Import FullyAutonomousCodingAgent.

(** A full cycle is what [main_loop] does before it goes round again. *)
Lemma main_loop_full_cycle (fuel : nat) (state state' : AgentState.t) (r : run) :
  full_cycle env state = Some state' ->
  main_loop env fuel state = Some r ->
  exists fuel' r',
    fuel = S fuel'
    /\ main_loop env fuel' state' = Some r'
    /\ outcome r = outcome r'
    /\ final_state state r = final_state state' r'.
Proof.
  destruct fuel as [|fuel]; [discriminate|].
  unfold full_cycle. cbn [main_loop].
  destruct (continue state); [|discriminate].
  destruct (_make_autonomous_decision env state) as [[decision|e] state1];
    [|discriminate].
  destruct (getitem "action" decision) as [action|e]; [|discriminate].
  destruct (json_is_str action "stop"); [discriminate|].
  destruct (_execute_tool_decision env decision state1) as [[u|e] state2];
    [|discriminate].
  intros H. injection H as <-.
  destruct (main_loop env fuel (_update_agent_assessment state2)) as [r'|] eqn:E;
    [|discriminate].
  intros H. injection H as <-.
  exists fuel, r'. split; [reflexivity|]. split; [exact E|].
  split; [reflexivity|].
  unfold final_state. cbn [ledgers prepend app]. rewrite !last_cons. reflexivity.
Qed.

(** A run that passes through [n] full cycles ends as the run from the
    ledger they lead to. *)
Lemma main_loop_after_cycles (n : nat) :
  forall (fuel : nat) (state state' : AgentState.t) (r : run),
    after_cycles env n state = Some state' ->
    main_loop env fuel state = Some r ->
    exists fuel' r',
      main_loop env fuel' state' = Some r'
      /\ outcome r = outcome r'
      /\ final_state state r = final_state state' r'.
Proof.
  induction n as [|n IH]; intros fuel state state' r; cbn [after_cycles].
  - intros H Hr. injection H as <-. exists fuel, r. auto.
  - destruct (full_cycle env state) as [state1|] eqn:Hcycle; [|discriminate].
    intros Hafter Hr.
    destruct (main_loop_full_cycle _ _ _ _ Hcycle Hr)
      as (fuel1 & r1 & _ & Hr1 & Ho & Hf).
    destruct (IH _ _ _ _ Hafter Hr1) as (fuel' & r' & Hr' & Ho' & Hf').
    exists fuel', r'. split; [exact Hr'|]. split; congruence.
Qed.

End OracleFailure.

(** C6, amended.  When the oracle call raises, the adapter raises the same
    exception: no decision is produced, the ledger is left as it was and
    the loop stops at once.  Whatever exception ends the loop, the session
    returns an error report with its message and the ledger reached.  So
    an oracle call that raises in any decision cycle of a session, the
    first or a later one, ends the session with an error report carrying
    the exception's message and the ledger as it was at the start of that
    cycle. *)
Theorem oracle_failure_ends_session {RT : PyRuntime}
    (env : FullyAutonomousCodingAgent.Environment) (e : exn) :
  (forall state : AgentState.t,
      is_ok (AgentState.get_recent_actions 3 state) = true ->
      FullyAutonomousCodingAgent.llm_client env state = Raise e ->
      AutonomousToolSelector.decide_next_action FullyAutonomousCodingAgent.tools
        (FullyAutonomousCodingAgent.llm_client env) state = Raise e
      /\ FullyAutonomousCodingAgent._make_autonomous_decision env state
         = (Raise e, state)
      /\ (FullyAutonomousCodingAgent.continue state = true ->
          forall fuel,
            FullyAutonomousCodingAgent.main_loop env (S fuel) state
            = Some {| FullyAutonomousCodingAgent.outcome := Raise e;
                      FullyAutonomousCodingAgent.ledgers := [state] |}))
  /\ (forall (max_tool_calls : Z) (problem_statement : string),
        0 < max_tool_calls ->
        FullyAutonomousCodingAgent.llm_client env
          (AgentState.init problem_statement max_tool_calls) = Raise e ->
        FullyAutonomousCodingAgent.solve_problem env max_tool_calls problem_statement
        = Some {| FullyAutonomousCodingAgent.status :=
                    FullyAutonomousCodingAgent.ERROR;
                  FullyAutonomousCodingAgent.error := Some (exn_msg e);
                  FullyAutonomousCodingAgent.state_data :=
                    AgentState.init problem_statement max_tool_calls |})
  /\ (forall (max_tool_calls : Z) (problem_statement : string)
             (r : FullyAutonomousCodingAgent.run) (raised : exn),
        let initial := AgentState.init problem_statement max_tool_calls in
        FullyAutonomousCodingAgent.main_loop env (S (Z.to_nat max_tool_calls))
          initial = Some r ->
        FullyAutonomousCodingAgent.outcome r = Raise raised ->
        FullyAutonomousCodingAgent.solve_problem env max_tool_calls problem_statement
        = Some {| FullyAutonomousCodingAgent.status :=
                    FullyAutonomousCodingAgent.ERROR;
                  FullyAutonomousCodingAgent.error := Some (exn_msg raised);
                  FullyAutonomousCodingAgent.state_data :=
                    FullyAutonomousCodingAgent.final_state initial r |})
  /\ (forall (max_tool_calls : Z) (problem_statement : string) (cycles : nat)
             (state : AgentState.t),
        after_cycles env cycles (AgentState.init problem_statement max_tool_calls)
        = Some state ->
        FullyAutonomousCodingAgent.continue state = true ->
        is_ok (AgentState.get_recent_actions 3 state) = true ->
        FullyAutonomousCodingAgent.llm_client env state = Raise e ->
        FullyAutonomousCodingAgent.solve_problem env max_tool_calls problem_statement
        = Some {| FullyAutonomousCodingAgent.status :=
                    FullyAutonomousCodingAgent.ERROR;
                  FullyAutonomousCodingAgent.error := Some (exn_msg e);
                  FullyAutonomousCodingAgent.state_data := state |}).
Proof.
  assert (Hstate : forall state : AgentState.t,
      is_ok (AgentState.get_recent_actions 3 state) = true ->
      FullyAutonomousCodingAgent.llm_client env state = Raise e ->
      AutonomousToolSelector.decide_next_action FullyAutonomousCodingAgent.tools
        (FullyAutonomousCodingAgent.llm_client env) state = Raise e
      /\ FullyAutonomousCodingAgent._make_autonomous_decision env state
         = (Raise e, state)
      /\ (FullyAutonomousCodingAgent.continue state = true ->
          forall fuel,
            FullyAutonomousCodingAgent.main_loop env (S fuel) state
            = Some {| FullyAutonomousCodingAgent.outcome := Raise e;
                      FullyAutonomousCodingAgent.ledgers := [state] |})).
  { intros state Hrecent Horacle.
    assert (Hdecide :
      AutonomousToolSelector.decide_next_action FullyAutonomousCodingAgent.tools
        (FullyAutonomousCodingAgent.llm_client env) state = Raise e).
    { unfold AutonomousToolSelector.decide_next_action, bind.
      destruct (AgentState.get_recent_actions 3 state); [|discriminate].
      rewrite Horacle. reflexivity. }
    assert (Hmake :
      FullyAutonomousCodingAgent._make_autonomous_decision env state
      = (Raise e, state)).
    { unfold FullyAutonomousCodingAgent._make_autonomous_decision.
      rewrite Hdecide. reflexivity. }
    split; [exact Hdecide|]. split; [exact Hmake|].
    intros Hcont fuel. cbn [FullyAutonomousCodingAgent.main_loop].
    rewrite Hcont, Hmake. reflexivity. }
  assert (Hreport : forall (max_tool_calls : Z) (problem_statement : string)
                           (r : FullyAutonomousCodingAgent.run) (raised : exn),
      FullyAutonomousCodingAgent.main_loop env (S (Z.to_nat max_tool_calls))
        (AgentState.init problem_statement max_tool_calls) = Some r ->
      FullyAutonomousCodingAgent.outcome r = Raise raised ->
      FullyAutonomousCodingAgent.solve_problem env max_tool_calls problem_statement
      = Some {| FullyAutonomousCodingAgent.status :=
                  FullyAutonomousCodingAgent.ERROR;
                FullyAutonomousCodingAgent.error := Some (exn_msg raised);
                FullyAutonomousCodingAgent.state_data :=
                  FullyAutonomousCodingAgent.final_state
                    (AgentState.init problem_statement max_tool_calls) r |}).
  { intros max_tool_calls problem_statement r raised Hr Ho.
    unfold FullyAutonomousCodingAgent.solve_problem. rewrite Hr, Ho. reflexivity. }
  split; [exact Hstate|]. split; [|split; [exact Hreport|]].
  - intros max_tool_calls problem_statement Hmax Horacle.
    destruct (Hstate (AgentState.init problem_statement max_tool_calls)
                ltac:(reflexivity) Horacle) as (_ & _ & Hloop).
    unfold FullyAutonomousCodingAgent.solve_problem.
    rewrite Hloop.
    + reflexivity.
    + unfold FullyAutonomousCodingAgent.continue. simpl.
      replace (max_tool_calls >? 0) with true by lia. reflexivity.
  - intros max_tool_calls problem_statement cycles state Hafter Hcont Hrecent Horacle.
    destruct (main_loop_terminates env (S (Z.to_nat max_tool_calls))
                (AgentState.init problem_statement max_tool_calls)) as [r Hr].
    { simpl. lia. }
    destruct (main_loop_after_cycles env cycles _ _ _ _ Hafter Hr)
      as (fuel' & r' & Hr' & Ho & Hf).
    destruct (Hstate state Hrecent Horacle) as (_ & _ & Hloop).
    destruct fuel' as [|fuel']; [discriminate|].
    rewrite (Hloop Hcont fuel') in Hr'. injection Hr' as <-.
    cbn in Ho, Hf.
    rewrite (Hreport _ _ r e Hr Ho), Hf. reflexivity.
Qed.

Lemma oracle_failure_ends_session_witness :
  exists state,
    after_cycles (RT := Reference.runtime) flaky 1 (AgentState.init "sort a list" 3)
    = Some state
    /\ List.length (AgentState.tool_calls state) = 1%nat
    /\ FullyAutonomousCodingAgent.solve_problem (RT := Reference.runtime) flaky 3
         "sort a list"
       = Some {| FullyAutonomousCodingAgent.status :=
                   FullyAutonomousCodingAgent.ERROR;
                 FullyAutonomousCodingAgent.error := Some "connection refused";
                 FullyAutonomousCodingAgent.state_data := state |}.
Proof.
  eexists. split; [vm_compute; reflexivity|]. split; [reflexivity|].
  destruct (oracle_failure_ends_session (RT := Reference.runtime) flaky
              connection_refused) as (_ & _ & _ & Hcycle).
  apply (Hcycle 3 "sort a list" 1%nat); reflexivity.
Defined.

(** * Further properties of the ledger *)

Lemma extends_refl {A : Type} (l : list A) : extends l l.
Proof. exists []. symmetry. apply app_nil_r. Qed.

Lemma extends_trans {A : Type} (l1 l2 l3 : list A) :
  extends l1 l2 -> extends l2 l3 -> extends l1 l3.
Proof.
  intros [m1 ->] [m2 ->]. exists (m1 ++ m2)%list. symmetry. apply app_assoc.
Qed.

Lemma extends_app {A : Type} (l more : list A) : extends l (l ++ more).
Proof. exists more. reflexivity. Qed.

Lemma update_last_app (envelope : ToolResult.t) (calls : list ToolCall.t)
    (call : ToolCall.t) :
  AgentState.update_last envelope (calls ++ [call])
  = (calls ++ [ {| ToolCall.tool_name := ToolCall.tool_name call;
                   ToolCall.parameters := ToolCall.parameters call;
                   ToolCall.result := envelope;
                   ToolCall.reasoning := ToolCall.reasoning call;
                   ToolCall.success :=
                     get_or (ToolResult.success envelope) false |} ])%list.
Proof.
  induction calls as [|c calls IH]; [reflexivity|].
  change ((c :: calls) ++ [call])%list with (c :: (calls ++ [call]))%list.
  assert (E : AgentState.update_last envelope (c :: (calls ++ [call]))%list
              = c :: AgentState.update_last envelope (calls ++ [call])%list).
  { destruct (calls ++ [call])%list eqn:E; [|reflexivity].
    destruct calls; discriminate. }
  rewrite E, IH. reflexivity.
Qed.

Lemma update_last_signature (envelope : ToolResult.t) (calls : list ToolCall.t) :
  map signature (AgentState.update_last envelope calls) = map signature calls.
Proof.
  induction calls as [|call calls _] using rev_ind; [reflexivity|].
  rewrite update_last_app, !map_app. reflexivity.
Qed.

(** X1.  [update_last_tool_call] fills in the result and the success flag
    of the most recent invocation and leaves everything else as it was:
    the earlier invocations, what the last one was asked to do, the number
    of invocations, the remaining budget and every other field of the
    ledger; an envelope without a success flag counts as failure, and on
    a ledger without invocations nothing happens. *)
Theorem update_last_tool_call_touches_last_only (envelope : ToolResult.t)
    (state : AgentState.t) :
  let state' := AgentState.update_last_tool_call envelope state in
  (forall calls call,
     AgentState.tool_calls state = (calls ++ [call])%list ->
     exists call',
       AgentState.tool_calls state' = (calls ++ [call'])%list
       /\ signature call' = signature call
       /\ ToolCall.result call' = envelope
       /\ ToolCall.success call' = get_or (ToolResult.success envelope) false)
  /\ (AgentState.tool_calls state = [] -> state' = state)
  /\ List.length (AgentState.tool_calls state')
     = List.length (AgentState.tool_calls state)
  /\ AgentState.remaining_calls state' = AgentState.remaining_calls state
  /\ AgentState.set_calls (AgentState.tool_calls state)
       (AgentState.remaining_calls state') state'
     = state.
Proof.
  intros state'. subst state'. unfold AgentState.update_last_tool_call.
  split; [|split; [|split; [|split]]].
  - intros calls call E. cbn [AgentState.tool_calls AgentState.set_calls].
    rewrite E, update_last_app. eexists. split; [reflexivity|].
    repeat split.
  - intros E. rewrite E. destruct state. cbn in E. subst. reflexivity.
  - cbn [AgentState.tool_calls AgentState.set_calls]. apply update_last_length.
  - reflexivity.
  - destruct state. reflexivity.
Qed.

Lemma existsb_eqb_true (x : string) (l : list string) :
  existsb (String.eqb x) l = true <-> In x l.
Proof.
  rewrite existsb_exists. split.
  - intros (y & Hin & E). apply String.eqb_eq in E. subst y. exact Hin.
  - intros H. exists x. split; [exact H|apply String.eqb_refl].
Qed.

Lemma existsb_eqb_false (x : string) (l : list string) :
  existsb (String.eqb x) l = false <-> ~ In x l.
Proof.
  rewrite <- existsb_eqb_true. destruct (existsb _ l); split; intros H;
    try discriminate; try reflexivity; try (intros E; discriminate).
  exfalso. apply H. reflexivity.
Qed.

Lemma add_issue_keeps_distinct (issue : string) (state : AgentState.t) :
  NoDup (AgentState.identified_issues state) ->
  NoDup (AgentState.identified_issues (AgentState.add_issue issue state)).
Proof.
  intros H. unfold AgentState.add_issue.
  destruct (existsb _ _) eqn:E; [exact H|]. cbn.
  apply existsb_eqb_false in E.
  apply NoDup_app; [exact H|repeat constructor; intros []|].
  intros x Hx [<-|[]]. exact (E Hx).
Qed.

Lemma add_issue_extends (issue : string) (state : AgentState.t) :
  extends (AgentState.identified_issues state)
    (AgentState.identified_issues (AgentState.add_issue issue state)).
Proof.
  unfold AgentState.add_issue.
  destruct (existsb _ _); [apply extends_refl|apply extends_app].
Qed.

Lemma add_issue_listed (issue : string) (state : AgentState.t) :
  In issue (AgentState.identified_issues (AgentState.add_issue issue state)).
Proof.
  unfold AgentState.add_issue.
  destruct (existsb _ _) eqn:E.
  - apply existsb_eqb_true in E. exact E.
  - cbn. apply in_or_app. right. left. reflexivity.
Qed.

(** X2.  [add_issue] keeps the list of issues free of repetitions: on a
    list without repetitions the issue is listed afterwards, the earlier
    issues keep their places, no issue occurs twice, and recording the
    same issue again changes nothing. *)
Theorem add_issue_never_repeats (issue : string) (state : AgentState.t) :
  NoDup (AgentState.identified_issues state) ->
  let state' := AgentState.add_issue issue state in
  NoDup (AgentState.identified_issues state')
  /\ In issue (AgentState.identified_issues state')
  /\ extends (AgentState.identified_issues state)
       (AgentState.identified_issues state')
  /\ AgentState.add_issue issue state' = state'.
Proof.
  intros H state'. subst state'.
  split; [apply add_issue_keeps_distinct, H|].
  split; [apply add_issue_listed|].
  split; [apply add_issue_extends|].
  pose proof (add_issue_listed issue state) as Hin.
  apply existsb_eqb_true in Hin.
  unfold AgentState.add_issue at 1. rewrite Hin. reflexivity.
Qed.

Lemma add_issue_never_repeats_witness :
  let state :=
    AgentState.add_issue "think failed: timeout"
      (AgentState.init "sort a list" 15) in
  let state' := AgentState.add_issue "think failed: timeout" state in
  NoDup (AgentState.identified_issues state')
  /\ In "think failed: timeout" (AgentState.identified_issues state')
  /\ extends (AgentState.identified_issues state)
       (AgentState.identified_issues state')
  /\ AgentState.add_issue "think failed: timeout" state' = state'.
Proof.
  apply (add_issue_never_repeats "think failed: timeout"
           (AgentState.add_issue "think failed: timeout"
              (AgentState.init "sort a list" 15))).
  simpl. repeat constructor. intros [].
Defined.

Lemma render_calls_dicts {RT : PyRuntime} (calls : list ToolCall.t) :
  Forall (fun call => exists items, ToolCall.parameters call = JObj items) calls ->
  exists lines,
    AgentState.render_calls calls = Ok lines
    /\ List.length lines = List.length calls.
Proof.
  induction 1 as [|call calls [items Hcall] _ (lines & IH & Hlen)].
  - exists []. split; reflexivity.
  - cbn [AgentState.render_calls]. unfold AgentState.render_call, bind.
    rewrite Hcall, IH. eexists. split; [reflexivity|].
    simpl. rewrite Hlen. reflexivity.
Qed.

Lemma render_calls_raises {RT : PyRuntime} (calls : list ToolCall.t) :
  Exists (fun call => forall items, ToolCall.parameters call <> JObj items) calls ->
  exists e, AgentState.render_calls calls = Raise e
            /\ exn_class e = "AttributeError".
Proof.
  induction calls as [|call calls IH]; intros H; [inversion H|].
  cbn [AgentState.render_calls]. unfold bind.
  destruct (AgentState.render_call call) as [line|e] eqn:E.
  - assert (Hrest : Exists (fun call => forall items,
                              ToolCall.parameters call <> JObj items) calls).
    { inversion H as [? ? Hc|]; [|assumption]. exfalso.
      unfold AgentState.render_call in E.
      destruct (ToolCall.parameters call) eqn:Ep; try discriminate.
      eapply Hc. reflexivity. }
    destruct (IH Hrest) as (e & -> & He). eauto.
  - exists e. split; [reflexivity|].
    unfold AgentState.render_call in E.
    destruct (ToolCall.parameters call); try discriminate;
      injection E as <-; reflexivity.
Qed.

Lemma recent_3_last {RT : PyRuntime} (state : AgentState.t)
    (calls : list ToolCall.t) (call : ToolCall.t) :
  AgentState.tool_calls state = (calls ++ [call])%list ->
  (forall items, ToolCall.parameters call <> JObj items) ->
  exists e, AgentState.get_recent_actions 3 state = Raise e
            /\ exn_class e = "AttributeError".
Proof.
  intros E Hcall. unfold AgentState.get_recent_actions.
  apply render_calls_raises. rewrite E.
  assert (Hex : forall n, (n < List.length (calls ++ [call]))%nat ->
            Exists (fun call => forall items, ToolCall.parameters call <> JObj items)
              (skipn n (calls ++ [call])%list)).
  { intros n Hn. rewrite length_app in Hn. simpl in Hn.
    rewrite skipn_app. apply Exists_app. right.
    replace (n - List.length calls)%nat with 0%nat by lia.
    constructor. exact Hcall. }
  destruct (3 <=? _)%nat eqn:E3.
  - apply Hex. apply Nat.leb_le in E3. lia.
  - apply (Hex 0%nat). rewrite length_app. simpl. lia.
Qed.

(** X3.  The summary of the last three invocations has one line per
    invocation shown when every recorded invocation carries a dict of
    arguments, and rendering raises [AttributeError] as soon as the most
    recent invocation carries anything else. *)
Theorem recent_actions_need_dict_arguments {RT : PyRuntime} (state : AgentState.t) :
  (Forall (fun call => exists items, ToolCall.parameters call = JObj items)
     (AgentState.tool_calls state) ->
   exists lines,
     AgentState.get_recent_actions 3 state = Ok lines
     /\ List.length lines
        = Nat.min 3 (List.length (AgentState.tool_calls state)))
  /\ (forall calls call,
        AgentState.tool_calls state = (calls ++ [call])%list ->
        (forall items, ToolCall.parameters call <> JObj items) ->
        exists e, AgentState.get_recent_actions 3 state = Raise e
                  /\ exn_class e = "AttributeError").
Proof.
  split.
  - intros Hall. unfold AgentState.get_recent_actions.
    destruct (3 <=? _)%nat eqn:E3.
    + apply Nat.leb_le in E3.
      destruct (render_calls_dicts
                  (skipn (List.length (AgentState.tool_calls state) - 3)
                     (AgentState.tool_calls state))) as (lines & -> & Hlen).
      { rewrite <- (firstn_skipn
                      (List.length (AgentState.tool_calls state) - 3)
                      (AgentState.tool_calls state)) in Hall.
        apply Forall_app in Hall. apply Hall. }
      exists lines. split; [reflexivity|].
      rewrite Hlen, length_skipn. lia.
    + apply Nat.leb_gt in E3.
      destruct (render_calls_dicts _ Hall) as (lines & -> & Hlen).
      exists lines. split; [reflexivity|]. lia.
  - intros calls call. apply recent_3_last.
Qed.

(** X4.  An invocation recorded with arguments that are not a dict ends
    the session: at the next cycle the rendering of the recent invocations
    raises [AttributeError] before the oracle is asked, nothing more is
    recorded and the loop ends with that exception. *)
Theorem non_dict_arguments_end_the_session {RT : PyRuntime}
    (env : FullyAutonomousCodingAgent.Environment) (fuel : nat)
    (state : AgentState.t) (calls : list ToolCall.t) (call : ToolCall.t) :
  AgentState.tool_calls state = (calls ++ [call])%list ->
  (forall items, ToolCall.parameters call <> JObj items) ->
  FullyAutonomousCodingAgent.continue state = true ->
  exists e,
    FullyAutonomousCodingAgent.main_loop env (S fuel) state
    = Some {| FullyAutonomousCodingAgent.outcome := Raise e;
              FullyAutonomousCodingAgent.ledgers := [state] |}
    /\ exn_class e = "AttributeError".
Proof.
  intros E Hcall Hcont.
  destruct (recent_3_last state calls call E Hcall) as (e & He & Hclass).
  exists e. split; [|exact Hclass].
  cbn [FullyAutonomousCodingAgent.main_loop]. rewrite Hcont.
  unfold FullyAutonomousCodingAgent._make_autonomous_decision,
    AutonomousToolSelector.decide_next_action, bind.
  rewrite He. reflexivity.
Qed.

Lemma non_dict_arguments_end_the_session_witness :
  exists e,
    FullyAutonomousCodingAgent.main_loop (RT := Reference.runtime) mumbling 1
      misparameterised
    = Some {| FullyAutonomousCodingAgent.outcome := Raise e;
              FullyAutonomousCodingAgent.ledgers := [misparameterised] |}
    /\ exn_class e = "AttributeError".
Proof.
  apply (non_dict_arguments_end_the_session (RT := Reference.runtime) mumbling 0
           misparameterised []
           {| ToolCall.tool_name := JStr "think";
              ToolCall.parameters := JStr "none";
              ToolCall.result := ToolResult.empty;
              ToolCall.reasoning := JStr "start";
              ToolCall.success := false |}).
  - reflexivity.
  - intros items. discriminate.
  - reflexivity.
Defined.

(** ** What holds of every ledger of a session *)

Section LoopLinks.
Context {RT : PyRuntime}.
Variable env : FullyAutonomousCodingAgent.Environment.
Variable R : AgentState.t -> AgentState.t -> Prop.

Import FullyAutonomousCodingAgent.

Hypothesis R_decision :
  forall state, R state (snd (_make_autonomous_decision env state)).
Hypothesis R_stop :
  forall reason state, R state (AgentState.mark_satisfied reason state).
Hypothesis R_dispatch :
  forall decision state, R state (snd (_execute_tool_decision env decision state)).
Hypothesis R_assess :
  forall state, R state (_update_agent_assessment state).

(** A relation that every phase of a cycle establishes links all the
    ledgers of a run. *)
Lemma main_loop_linked (fuel : nat) :
  forall (state : AgentState.t) (r : run),
    main_loop env fuel state = Some r -> linked R state (ledgers r).
Proof.
  induction fuel as [|fuel IH]; intros state r; [discriminate|].
  cbn [main_loop].
  destruct (continue state); [|intros H; injection H as <-; exact I].
  pose proof (R_decision state) as H1.
  destruct (_make_autonomous_decision env state) as [[decision|e] state1];
    cbn [snd] in H1.
  2: { intros H; injection H as <-. simpl. auto. }
  destruct (getitem "action" decision) as [action|e].
  2: { intros H; injection H as <-. simpl. auto. }
  destruct (json_is_str action "stop").
  - destruct (getitem "reasoning" decision) as [reasoning|e];
      intros H; injection H as <-; simpl; auto.
  - pose proof (R_dispatch decision state1) as H2.
    destruct (_execute_tool_decision env decision state1) as [[u|e] state2];
      cbn [snd] in H2.
    2: { intros H; injection H as <-. simpl. auto. }
    destruct (main_loop env fuel (_update_agent_assessment state2)) as [r'|] eqn:E;
      [|discriminate].
    intros H; injection H as <-. simpl.
    split; [exact H1|]. split; [exact H2|]. split; [apply R_assess|].
    apply IH, E.
Qed.

End LoopLinks.

Lemma linked_Forall (P : AgentState.t -> Prop) (ledgers : list AgentState.t) :
  forall state,
    P state -> linked (fun s s' => P s -> P s') state ledgers -> Forall P ledgers.
Proof.
  induction ledgers as [|state' ledgers IH]; intros state HP Hl; [constructor|].
  destruct Hl as [H1 H2]. constructor; [auto|]. eapply IH; [|exact H2]. auto.
Qed.

Lemma linked_last (R : AgentState.t -> AgentState.t -> Prop)
    (R_refl : forall s, R s s)
    (R_trans : forall s1 s2 s3, R s1 s2 -> R s2 s3 -> R s1 s3)
    (ledgers : list AgentState.t) :
  forall state, linked R state ledgers -> R state (List.last ledgers state).
Proof.
  induction ledgers as [|state' ledgers IH]; intros state Hl; [apply R_refl|].
  destruct Hl as [H1 H2].
  rewrite last_cons. eapply R_trans; [exact H1|]. apply IH, H2.
Qed.

Lemma grows_refl (state : AgentState.t) : grows state state.
Proof.
  unfold grows. repeat match goal with |- _ /\ _ => split end;
    auto using extends_refl. lia.
Qed.

Lemma grows_trans (s1 s2 s3 : AgentState.t) :
  grows s1 s2 -> grows s2 s3 -> grows s1 s3.
Proof.
  unfold grows.
  intros (A1 & A2 & A3 & A4 & A5 & A6 & A7 & A8 & A9)
         (B1 & B2 & B3 & B4 & B5 & B6 & B7 & B8 & B9).
  repeat match goal with |- _ /\ _ => split end;
    try congruence; try (eapply extends_trans; eassumption); try lia; auto.
Qed.

(** A step that only appends, raises the best score or sets the
    satisfaction flag. *)
Ltac grows_step :=
  unfold grows; cbn;
  repeat match goal with |- _ /\ _ => split end;
  try reflexivity; try apply extends_refl; try apply extends_app;
  try lia; auto.

Lemma grows_add_thinking (thought : string) (state : AgentState.t) :
  grows state (AgentState.add_thinking thought state).
Proof. grows_step. Qed.

Lemma grows_thought_added (state state' : AgentState.t) :
  thought_added state state' -> grows state state'.
Proof.
  intros [->|[thought ->]]; [apply grows_refl|apply grows_add_thinking].
Qed.

Lemma grows_add_tool_call (tool_name parameters reasoning : json)
    (state : AgentState.t) :
  grows state (AgentState.add_tool_call tool_name parameters reasoning state).
Proof. grows_step. rewrite map_app. apply extends_app. Qed.

Lemma grows_update_last_tool_call (envelope : ToolResult.t) (state : AgentState.t) :
  grows state (AgentState.update_last_tool_call envelope state).
Proof. grows_step. rewrite update_last_signature. apply extends_refl. Qed.

Lemma grows_add_issue (issue : string) (state : AgentState.t) :
  grows state (AgentState.add_issue issue state).
Proof.
  unfold AgentState.add_issue.
  destruct (existsb _ _); [apply grows_refl|grows_step].
Qed.

Lemma grows_mark_satisfied {RT : PyRuntime} (reason : json) (state : AgentState.t) :
  grows state (AgentState.mark_satisfied reason state).
Proof. grows_step. Qed.

Lemma grows_add_execution_result (filename : string) (exit_code : Z)
    (stdout stderr : string) (test_results : TestResults)
    (state state' : AgentState.t) :
  AgentState.add_execution_result filename exit_code stdout stderr test_results state
  = Ok state' ->
  grows state state'.
Proof.
  unfold AgentState.add_execution_result, bind.
  destruct (AgentState._calculate_quality_score _ _ _ _) as [q|]; [|discriminate].
  destruct (q >? _) eqn:E; intros H; injection H as <-; grows_step.
Qed.

Section LedgerGrowth.
Context {RT : PyRuntime}.
Variable env : FullyAutonomousCodingAgent.Environment.

Import FullyAutonomousCodingAgent.

Lemma grows_process_tool_result (tool_name : json) (envelope : ToolResult.t)
    (parameters : Dict.t) (state state' : AgentState.t) :
  _process_tool_result tool_name envelope parameters state = Ok state' ->
  grows state state'.
Proof.
  unfold _process_tool_result.
  destruct (negb _); [intros H; injection H as <-; apply grows_refl|].
  destruct (ToolResult.result envelope) as [tool_result|]; [|discriminate].
  destruct (json_is_str tool_name "think").
  { destruct (Py.truthy _); intros H; injection H as <-; grows_step. }
  destruct (json_is_str tool_name "generate_code").
  { intros H; injection H as <-; grows_step. }
  destruct (json_is_str tool_name "write_file").
  { destruct (ToolResult.file_path tool_result); [|discriminate].
    intros H; injection H as <-; grows_step. }
  destruct (json_is_str tool_name "read_file").
  { intros H; injection H as <-; grows_step. }
  destruct (json_is_str tool_name "execute_code").
  { apply grows_add_execution_result. }
  intros H; injection H as <-; apply grows_refl.
Qed.

Lemma grows_make_decision (state : AgentState.t) :
  grows state (snd (_make_autonomous_decision env state)).
Proof.
  unfold _make_autonomous_decision, AutonomousToolSelector.decide_next_action, bind.
  destruct (AgentState.get_recent_actions 3 state); [|apply grows_refl].
  destruct (llm_client env state) as [llm_response|]; [|apply grows_refl].
  destruct agent_tools_registered as (Hthink & Hexec & Hgen).
  destruct (parse_llm_decision_spec tools llm_response state Hthink Hexec Hgen)
    as (decision & state' & -> & _ & Hthought).
  apply grows_thought_added in Hthought.
  destruct (getitem "action" decision) as [action|]; [|exact Hthought].
  destruct (json_is_str action "use_tool").
  - destruct (getitem "tool" decision); [|exact Hthought].
    destruct (getitem "reasoning" decision); [|exact Hthought].
    destruct (getitem "parameters" decision); [|exact Hthought].
    cbn [snd]. eapply grows_trans; [exact Hthought|apply grows_add_tool_call].
  - destruct (getitem "reasoning" decision); exact Hthought.
Qed.

Lemma grows_execute_tool_decision (decision : json) (state : AgentState.t) :
  grows state (snd (_execute_tool_decision env decision state)).
Proof.
  unfold _execute_tool_decision.
  destruct (bind _ _) as [[tool_name parameters]|]; [|apply grows_refl].
  assert (Hhandler : forall e state',
    grows state state' ->
    grows state
      (AgentState.add_issue (py_str tool_name ++ " execution error: " ++ exn_msg e)
         (AgentState.update_last_tool_call (ToolResult.failure (exn_msg e)) state'))).
  { intros e state' H.
    eapply grows_trans; [exact H|].
    eapply grows_trans; [apply grows_update_last_tool_call|apply grows_add_issue]. }
  destruct (call_tool env tool_name parameters state) as [tool_result|e]; cbn [snd].
  { destruct (_process_tool_result _ _ _ _) as [state'|e] eqn:Hp; cbn [snd].
    - apply grows_process_tool_result in Hp.
      assert (grows state state')
        by (eapply grows_trans; [apply grows_update_last_tool_call|exact Hp]).
      destruct (negb _); cbn [snd]; [|assumption].
      eapply grows_trans; [eassumption|apply grows_add_issue].
    - apply Hhandler, grows_update_last_tool_call. }
  apply Hhandler, grows_refl.
Qed.

Lemma grows_update_agent_assessment (state : AgentState.t) :
  grows state (_update_agent_assessment state).
Proof.
  unfold _update_agent_assessment.
  match goal with |- grows _ (if ?c then _ else _) => destruct c end; grows_step.
Qed.

End LedgerGrowth.

Lemma update_last_names (envelope : ToolResult.t) (calls : list ToolCall.t) :
  map ToolCall.tool_name (AgentState.update_last envelope calls)
  = map ToolCall.tool_name calls.
Proof.
  induction calls as [|call calls _] using rev_ind; [reflexivity|].
  rewrite update_last_app, !map_app. reflexivity.
Qed.

Lemma registered_names (state : AgentState.t) :
  registered state
  <-> Forall (fun tool_name =>
                exists name, tool_name = JStr name
                             /\ In name FullyAutonomousCodingAgent.tools)
        (map ToolCall.tool_name (AgentState.tool_calls state)).
Proof. unfold registered. rewrite Forall_map. reflexivity. Qed.

(** The invariants depend on the names of the invocations, the runs, the
    best-known solution, the two levels and the issues only. *)
Lemma consistent_frame (state state' : AgentState.t) :
  map ToolCall.tool_name (AgentState.tool_calls state')
  = map ToolCall.tool_name (AgentState.tool_calls state) ->
  AgentState.execution_results state' = AgentState.execution_results state ->
  AgentState.best_solution state' = AgentState.best_solution state ->
  AgentState.best_quality_score state' = AgentState.best_quality_score state ->
  AgentState.satisfaction_level state' = AgentState.satisfaction_level state ->
  AgentState.confidence_level state' = AgentState.confidence_level state ->
  AgentState.identified_issues state' = AgentState.identified_issues state ->
  consistent state -> consistent state'.
Proof.
  intros E1 E2 E3 E4 E5 E6 E7 (H1 & H2 & H3).
  unfold consistent, best_tracks_results, assessment_ok in *.
  rewrite registered_names in *.
  rewrite E1, E2, E3, E4, E5, E6, E7. auto.
Qed.

Lemma consistent_init (problem : string) (max_calls : Z) :
  consistent (AgentState.init problem max_calls).
Proof.
  unfold consistent, registered, best_tracks_results, assessment_ok. cbn.
  repeat match goal with |- _ /\ _ => split end;
    try constructor; try reflexivity; lia.
Qed.

Lemma consistent_add_thinking (thought : string) (state : AgentState.t) :
  consistent state -> consistent (AgentState.add_thinking thought state).
Proof. apply consistent_frame; reflexivity. Qed.

Lemma consistent_thought_added (state state' : AgentState.t) :
  thought_added state state' -> consistent state -> consistent state'.
Proof.
  intros [->|[thought ->]]; [auto|apply consistent_add_thinking].
Qed.

Lemma consistent_update_last_tool_call (envelope : ToolResult.t)
    (state : AgentState.t) :
  consistent state -> consistent (AgentState.update_last_tool_call envelope state).
Proof. apply consistent_frame; try reflexivity. cbn. apply update_last_names. Qed.

Lemma consistent_add_tool_call (name : string) (parameters reasoning : json)
    (state : AgentState.t) :
  In name FullyAutonomousCodingAgent.tools ->
  consistent state ->
  consistent (AgentState.add_tool_call (JStr name) parameters reasoning state).
Proof.
  intros Hname (H1 & H2 & H3). split; [|split; assumption].
  unfold registered in *. cbn [AgentState.add_tool_call AgentState.tool_calls
                                 AgentState.set_calls].
  apply Forall_app. split; [exact H1|].
  constructor; [|constructor]. exists name. split; [reflexivity|exact Hname].
Qed.

Lemma consistent_add_issue (issue : string) (state : AgentState.t) :
  consistent state -> consistent (AgentState.add_issue issue state).
Proof.
  intros (H1 & H2 & H3 & H4 & H5). split; [|split; [|split; [|split]]].
  - unfold AgentState.add_issue. destruct (existsb _ _); exact H1.
  - unfold AgentState.add_issue. destruct (existsb _ _); exact H2.
  - unfold AgentState.add_issue. destruct (existsb _ _); exact H3.
  - unfold AgentState.add_issue. destruct (existsb _ _); exact H4.
  - apply add_issue_keeps_distinct, H5.
Qed.

Lemma consistent_levels (satisfaction confidence : Z) (satisfied : bool)
    (reason : json) (state : AgentState.t) :
  0 <= satisfaction <= 100 -> 0 <= confidence <= 100 ->
  consistent state ->
  consistent (AgentState.set_progress satisfaction confidence satisfied reason state).
Proof.
  intros Hs Hc (H1 & H2 & H3 & H4 & H5).
  split; [exact H1|]. split; [exact H2|].
  split; [exact Hs|]. split; [exact Hc|exact H5].
Qed.

Lemma consistent_update_satisfaction (level : Z) (reason : string)
    (state : AgentState.t) :
  consistent state -> consistent (AgentState.update_satisfaction level reason state).
Proof.
  intros H. unfold AgentState.update_satisfaction.
  assert (consistent
            (AgentState.set_progress (Z.max 0 (Z.min 100 level))
               (AgentState.confidence_level state) (AgentState.is_satisfied state)
               (AgentState.stop_reason state) state)).
  { apply consistent_levels; [lia| |exact H]. apply H. }
  destruct (Py.truthy reason); [apply consistent_add_thinking|]; assumption.
Qed.

Lemma consistent_update_confidence (level : Z) (reason : string)
    (state : AgentState.t) :
  consistent state -> consistent (AgentState.update_confidence level reason state).
Proof.
  intros H. unfold AgentState.update_confidence.
  assert (consistent
            (AgentState.set_progress (AgentState.satisfaction_level state)
               (Z.max 0 (Z.min 100 level)) (AgentState.is_satisfied state)
               (AgentState.stop_reason state) state)).
  { apply consistent_levels; [|lia|exact H]. apply H. }
  destruct (Py.truthy reason); [apply consistent_add_thinking|]; assumption.
Qed.

Lemma consistent_mark_satisfied {RT : PyRuntime} (reason : json)
    (state : AgentState.t) :
  consistent state -> consistent (AgentState.mark_satisfied reason state).
Proof. apply consistent_frame; reflexivity. Qed.

Lemma fold_max_ge (l : list Z) : forall a, a <= fold_left Z.max l a.
Proof.
  induction l as [|x l IH]; intros a; simpl; [lia|].
  specialize (IH (Z.max a x)). lia.
Qed.

Lemma consistent_add_execution_result (filename : string) (exit_code : Z)
    (stdout stderr : string) (test_results : TestResults)
    (state state' : AgentState.t) :
  AgentState.add_execution_result filename exit_code stdout stderr test_results state
  = Ok state' ->
  consistent state -> consistent state'.
Proof.
  unfold AgentState.add_execution_result, bind.
  destruct (AgentState._calculate_quality_score _ _ _ _) as [q|] eqn:Hq;
    [|discriminate].
  apply quality_score_le_100 in Hq.
  intros H (H1 & (Hb & Hall & Hsol) & H3).
  assert (H0 : 0 <= AgentState.best_quality_score state).
  { rewrite Hb. apply fold_max_ge. }
  destruct (q >? AgentState.best_quality_score state) eqn:E;
    injection H as <-; (split; [exact H1|]); (split; [|exact H3]);
    unfold best_tracks_results;
    cbn [AgentState.set_executions AgentState.execution_results
         AgentState.best_solution AgentState.best_quality_score];
    rewrite map_app, fold_left_app;
    cbn [map fold_left ExecutionResult.quality_score ExecutionResult.filename];
    rewrite <- Hb.
  - split; [lia|]. split.
    + apply Forall_app. split; [exact Hall|]. constructor; [exact Hq|constructor].
    + split; [lia|]. eexists. split; [apply in_or_app; right; left; reflexivity|].
      split; reflexivity.
  - split; [lia|]. split.
    + apply Forall_app. split; [exact Hall|]. constructor; [exact Hq|constructor].
    + destruct (AgentState.best_solution state) as [file|]; [|exact Hsol].
      destruct Hsol as (Hpos & r & Hin & Hf & Hr).
      split; [exact Hpos|]. exists r. split; [apply in_or_app; left; exact Hin|].
      split; assumption.
Qed.

Section LedgerConsistency.
Context {RT : PyRuntime}.
Variable env : FullyAutonomousCodingAgent.Environment.

Import FullyAutonomousCodingAgent.

Lemma consistent_process_tool_result (tool_name : json) (envelope : ToolResult.t)
    (parameters : Dict.t) (state state' : AgentState.t) :
  _process_tool_result tool_name envelope parameters state = Ok state' ->
  consistent state -> consistent state'.
Proof.
  unfold _process_tool_result.
  destruct (negb _); [intros H; injection H as <-; auto|].
  destruct (ToolResult.result envelope) as [tool_result|]; [|discriminate].
  destruct (json_is_str tool_name "think").
  { destruct (Py.truthy _); intros H; injection H as <-;
      apply consistent_frame; reflexivity. }
  destruct (json_is_str tool_name "generate_code").
  { intros H; injection H as <-; apply consistent_frame; reflexivity. }
  destruct (json_is_str tool_name "write_file").
  { destruct (ToolResult.file_path tool_result); [|discriminate].
    intros H; injection H as <-; apply consistent_frame; reflexivity. }
  destruct (json_is_str tool_name "read_file").
  { intros H; injection H as <-; apply consistent_frame; reflexivity. }
  destruct (json_is_str tool_name "execute_code").
  { apply consistent_add_execution_result. }
  intros H; injection H as <-; auto.
Qed.

Lemma carries_make_decision (state : AgentState.t) :
  carries state (snd (_make_autonomous_decision env state)).
Proof.
  unfold carries.
  unfold _make_autonomous_decision, AutonomousToolSelector.decide_next_action, bind.
  destruct (AgentState.get_recent_actions 3 state); [|auto].
  destruct (llm_client env state) as [llm_response|]; [|auto].
  destruct agent_tools_registered as (Hthink & Hexec & Hgen).
  destruct (parse_llm_decision_spec tools llm_response state Hthink Hexec Hgen)
    as (decision & state' & -> & Hwf & Hthought).
  intros Hc. apply (consistent_thought_added _ _ Hthought) in Hc.
  destruct (well_formed_inv _ _ Hwf) as (d & -> & [[Haction [r Hr]]|[Haction Huse]]).
  - unfold getitem, Dict.getitem. rewrite Haction. cbn. rewrite Hr. exact Hc.
  - destruct Huse as (name & p & r & Htool & Hin & Hp & Hr).
    unfold getitem, Dict.getitem. rewrite Haction. cbn. rewrite Htool, Hr, Hp.
    cbn [snd]. apply consistent_add_tool_call; assumption.
Qed.

Lemma carries_execute_tool_decision (decision : json) (state : AgentState.t) :
  carries state (snd (_execute_tool_decision env decision state)).
Proof.
  unfold carries, _execute_tool_decision. intros Hc.
  destruct (bind _ _) as [[tool_name parameters]|]; [|exact Hc].
  destruct (call_tool env tool_name parameters state) as [tool_result|e]; cbn [snd].
  { destruct (_process_tool_result _ _ _ _) as [state'|e] eqn:Hp; cbn [snd].
    - apply consistent_process_tool_result in Hp;
        [|apply consistent_update_last_tool_call, Hc].
      destruct (negb _); cbn [snd]; [apply consistent_add_issue|]; exact Hp.
    - apply consistent_add_issue.
      do 2 apply consistent_update_last_tool_call. exact Hc. }
  apply consistent_add_issue, consistent_update_last_tool_call, Hc.
Qed.

Lemma carries_update_agent_assessment (state : AgentState.t) :
  carries state (_update_agent_assessment state).
Proof.
  unfold carries, _update_agent_assessment. intros Hc.
  match goal with
  | |- consistent (if ?c then AgentState.mark_satisfied ?r ?s else _) =>
      assert (consistent s)
        by (apply consistent_update_confidence, consistent_update_satisfaction, Hc);
      destruct c; [apply consistent_mark_satisfied|]; assumption
  end.
Qed.

(** Every session ends, and along it every ledger continues the one
    before and keeps the invariants. *)
Lemma session_ledgers (max_tool_calls : Z) (problem_statement : string) :
  let initial := AgentState.init problem_statement max_tool_calls in
  exists r,
    main_loop env (S (Z.to_nat max_tool_calls)) initial = Some r
    /\ linked grows initial (ledgers r)
    /\ Forall consistent (ledgers r).
Proof.
  intros initial.
  destruct (main_loop_terminates env (S (Z.to_nat max_tool_calls)) initial)
    as [r Hr].
  { simpl. lia. }
  exists r. split; [exact Hr|]. split.
  - eapply main_loop_linked; [| | | |exact Hr].
    + apply grows_make_decision.
    + intros. apply grows_mark_satisfied.
    + apply grows_execute_tool_decision.
    + apply grows_update_agent_assessment.
  - apply (linked_Forall consistent _ initial); [apply consistent_init|].
    eapply (main_loop_linked env carries); [| | | |exact Hr].
    + apply carries_make_decision.
    + intros reason state. exact (consistent_mark_satisfied reason state).
    + apply carries_execute_tool_decision.
    + apply carries_update_agent_assessment.
Qed.

End LedgerConsistency.

(** X5.  A session never loses or reorders what it has recorded: it ends,
    and each ledger it passes through continues the one before (same task
    and maximum; invocations, artifacts, runs, thoughts and issues only
    appended; best-known score not lowered; satisfaction not withdrawn), so
    the final ledger continues the initial one. *)
Theorem session_only_appends {RT : PyRuntime}
    (env : FullyAutonomousCodingAgent.Environment)
    (max_tool_calls : Z) (problem_statement : string) :
  let initial := AgentState.init problem_statement max_tool_calls in
  exists r,
    FullyAutonomousCodingAgent.main_loop env (S (Z.to_nat max_tool_calls)) initial
    = Some r
    /\ linked grows initial (FullyAutonomousCodingAgent.ledgers r)
    /\ grows initial (FullyAutonomousCodingAgent.final_state initial r).
Proof.
  intros initial.
  destruct (session_ledgers env max_tool_calls problem_statement)
    as (r & Hr & Hlinked & _).
  exists r. split; [exact Hr|]. split; [exact Hlinked|].
  apply (linked_last grows grows_refl grows_trans), Hlinked.
Qed.

(** X6.  Every invocation recorded during a session names one of the five
    registered capabilities, whatever the oracle replies. *)
Theorem session_records_registered_capabilities {RT : PyRuntime}
    (env : FullyAutonomousCodingAgent.Environment)
    (max_tool_calls : Z) (problem_statement : string) :
  exists r,
    FullyAutonomousCodingAgent.main_loop env (S (Z.to_nat max_tool_calls))
      (AgentState.init problem_statement max_tool_calls)
    = Some r
    /\ Forall registered (FullyAutonomousCodingAgent.ledgers r).
Proof.
  destruct (session_ledgers env max_tool_calls problem_statement)
    as (r & Hr & _ & Hall).
  exists r. split; [exact Hr|].
  eapply Forall_impl; [|exact Hall]. intros state H. apply H.
Qed.

(** X7.  In every ledger of a session the best-known score is the highest
    score among the recorded runs (0 when none is positive), no recorded
    score exceeds 100, and the best-known solution is the file of a
    recorded run with exactly that score, or absent when no run scored
    above 0. *)
Theorem session_best_is_highest_recorded_score {RT : PyRuntime}
    (env : FullyAutonomousCodingAgent.Environment)
    (max_tool_calls : Z) (problem_statement : string) :
  exists r,
    FullyAutonomousCodingAgent.main_loop env (S (Z.to_nat max_tool_calls))
      (AgentState.init problem_statement max_tool_calls)
    = Some r
    /\ Forall best_tracks_results (FullyAutonomousCodingAgent.ledgers r).
Proof.
  destruct (session_ledgers env max_tool_calls problem_statement)
    as (r & Hr & _ & Hall).
  exists r. split; [exact Hr|].
  eapply Forall_impl; [|exact Hall]. intros state H. apply H.
Qed.

(** X8.  In every ledger of a session the satisfaction and confidence
    levels lie between 0 and 100 and no issue is listed twice. *)
Theorem session_levels_are_percentages {RT : PyRuntime}
    (env : FullyAutonomousCodingAgent.Environment)
    (max_tool_calls : Z) (problem_statement : string) :
  exists r,
    FullyAutonomousCodingAgent.main_loop env (S (Z.to_nat max_tool_calls))
      (AgentState.init problem_statement max_tool_calls)
    = Some r
    /\ Forall assessment_ok (FullyAutonomousCodingAgent.ledgers r).
Proof.
  destruct (session_ledgers env max_tool_calls problem_statement)
    as (r & Hr & _ & Hall).
  exists r. split; [exact Hr|].
  eapply Forall_impl; [|exact Hall]. intros state H. apply H.
Qed.

(** ** The self-assessment *)

(** X9.  The self-assessment sets satisfaction to at most 90 and
    confidence to at most 100, neither negative; it marks the agent
    satisfied exactly when it already was or the best-known score is at
    least 90; and it leaves invocations, budget, artifacts, runs and the
    best-known solution as they were. *)
Theorem assessment_levels_and_auto_stop {RT : PyRuntime} (state : AgentState.t) :
  let state' := FullyAutonomousCodingAgent._update_agent_assessment state in
  0 <= AgentState.satisfaction_level state' <= 90
  /\ 0 <= AgentState.confidence_level state' <= 100
  /\ AgentState.is_satisfied state'
     = AgentState.is_satisfied state
       || (AgentState.best_quality_score state >=? 90)
  /\ AgentState.tool_calls state' = AgentState.tool_calls state
  /\ AgentState.remaining_calls state' = AgentState.remaining_calls state
  /\ AgentState.files_created state' = AgentState.files_created state
  /\ AgentState.execution_results state' = AgentState.execution_results state
  /\ AgentState.best_solution state' = AgentState.best_solution state
  /\ AgentState.best_quality_score state' = AgentState.best_quality_score state.
Proof.
  intros state'.
  assert (Hframe :
    AgentState.tool_calls state' = AgentState.tool_calls state
    /\ AgentState.remaining_calls state' = AgentState.remaining_calls state
    /\ AgentState.files_created state' = AgentState.files_created state
    /\ AgentState.execution_results state' = AgentState.execution_results state
    /\ AgentState.best_solution state' = AgentState.best_solution state
    /\ AgentState.best_quality_score state' = AgentState.best_quality_score state).
  { subst state'. unfold FullyAutonomousCodingAgent._update_agent_assessment.
    match goal with
    | |- context [if ?c then AgentState.mark_satisfied _ _ else _] => destruct c
    end; repeat split. }
  split; [|split; [|split; [|exact Hframe]]]; clear Hframe; subst state';
    unfold FullyAutonomousCodingAgent._update_agent_assessment;
    cbn [AgentState.update_satisfaction AgentState.update_confidence Py.truthy
         AgentState.set_progress AgentState.best_quality_score
         AgentState.is_satisfied AgentState.satisfaction_level
         AgentState.confidence_level AgentState.stop_reason];
    assert (Hhalf : (AgentState.best_quality_score state >? 0) = true ->
                    0 <= AgentState.best_quality_score state / 2)
      by (intros H; apply Z.div_pos; lia);
    destruct (AgentState.files_created state);
    destruct (AgentState.execution_results state);
    destruct (AgentState.identified_issues state);
    destruct (AgentState.best_quality_score state >? 0) eqn:E0;
    try specialize (Hhalf eq_refl);
    destruct (Z.of_nat (List.length (AgentState.tool_calls state)) >? 0);
    destruct (AgentState.best_quality_score state >=? 70) eqn:E70;
    destruct (AgentState.best_quality_score state >=? 90) eqn:E90;
    destruct (AgentState.is_satisfied state) eqn:Es;
    cbn [AgentState.mark_satisfied AgentState.add_thinking AgentState.set_mind
         AgentState.set_progress AgentState.satisfaction_level
         AgentState.confidence_level AgentState.is_satisfied
         AgentState.best_quality_score andb negb orb];
    rewrite ?Es; try reflexivity; try lia.
Qed.

(** ** How a session ends *)

Section LoopEnd.
Context {RT : PyRuntime}.
Variable env : FullyAutonomousCodingAgent.Environment.

Import FullyAutonomousCodingAgent.

(** When the loop ends without an exception, its condition is false in
    the last ledger. *)
Lemma main_loop_ends_when_done (fuel : nat) :
  forall (state : AgentState.t) (r : run),
    main_loop env fuel state = Some r ->
    outcome r = Ok tt ->
    continue (final_state state r) = false.
Proof.
  induction fuel as [|fuel IH]; intros state r; [discriminate|].
  cbn [main_loop]. unfold final_state.
  destruct (continue state) eqn:Hcont.
  2: { intros H; injection H as <-. intros _. exact Hcont. }
  destruct (_make_autonomous_decision env state) as [[decision|e] state1].
  2: { intros H; injection H as <-. discriminate. }
  destruct (getitem "action" decision) as [action|e].
  2: { intros H; injection H as <-. discriminate. }
  destruct (json_is_str action "stop").
  - destruct (getitem "reasoning" decision) as [reasoning|e];
      intros H; injection H as <-; [|discriminate].
    intros _. unfold continue. cbn. apply andb_false_r.
  - destruct (_execute_tool_decision env decision state1) as [[u|e] state2].
    2: { intros H; injection H as <-. discriminate. }
    destruct (main_loop env fuel (_update_agent_assessment state2)) as [r'|] eqn:E;
      [|discriminate].
    intros H; injection H as <-. cbn [outcome ledgers prepend].
    intros Hok. cbn [app]. rewrite !last_cons. apply (IH _ _ E Hok).
Qed.

End LoopEnd.

Lemma last_keeps {A : Type} (P : A -> Prop) (l : list A) :
  forall d, Forall P l -> P d -> P (List.last l d).
Proof.
  induction l as [|x l IH]; intros d Hall Hd; [exact Hd|].
  rewrite last_cons. inversion Hall; subst. apply IH; assumption.
Qed.

(** X10.  With a non-negative maximum every session returns a report; a
    session reported as incomplete has spent its whole budget (as many
    invocations recorded as the maximum, none remaining) without
    satisfaction, one reported as successful ends satisfied, and an error
    report is the only one that carries an error message. *)
Theorem incomplete_means_budget_spent {RT : PyRuntime}
    (env : FullyAutonomousCodingAgent.Environment)
    (max_tool_calls : Z) (problem_statement : string) :
  0 <= max_tool_calls ->
  exists report,
    FullyAutonomousCodingAgent.solve_problem env max_tool_calls problem_statement
    = Some report
    /\ let state := FullyAutonomousCodingAgent.state_data report in
       match FullyAutonomousCodingAgent.status report with
       | FullyAutonomousCodingAgent.INCOMPLETE =>
           AgentState.remaining_calls state = 0
           /\ Z.of_nat (List.length (AgentState.tool_calls state)) = max_tool_calls
           /\ AgentState.is_satisfied state = false
           /\ FullyAutonomousCodingAgent.error report = None
       | FullyAutonomousCodingAgent.SUCCESS =>
           AgentState.is_satisfied state = true
           /\ FullyAutonomousCodingAgent.error report = None
       | FullyAutonomousCodingAgent.ERROR =>
           FullyAutonomousCodingAgent.error report <> None
       end.
Proof.
  intros Hmax. unfold FullyAutonomousCodingAgent.solve_problem.
  set (initial := AgentState.init problem_statement max_tool_calls).
  destruct (main_loop_terminates env (S (Z.to_nat max_tool_calls)) initial)
    as [r Hr].
  { simpl. lia. }
  rewrite Hr. eexists. split; [reflexivity|].
  assert (Hinit : budget_ok max_tool_calls initial)
    by (unfold budget_ok; simpl; lia).
  destruct (main_loop_budget env max_tool_calls _ _ r Hinit Hr) as [Hall _].
  assert (Hfinal : budget_ok max_tool_calls
                     (FullyAutonomousCodingAgent.final_state initial r)).
  { unfold FullyAutonomousCodingAgent.final_state.
    apply (last_keeps (budget_ok max_tool_calls)); assumption. }
  destruct (FullyAutonomousCodingAgent.outcome r) as [[]|e] eqn:Ho.
  - pose proof (main_loop_ends_when_done env _ _ _ Hr Ho) as Hend.
    cbn zeta.
    destruct (AgentState.is_satisfied
                (FullyAutonomousCodingAgent.final_state initial r)) eqn:Es;
      cbn [FullyAutonomousCodingAgent.status FullyAutonomousCodingAgent.state_data
           FullyAutonomousCodingAgent.error].
    + rewrite Es. auto.
    + unfold FullyAutonomousCodingAgent.continue in Hend. rewrite Es in Hend.
      unfold budget_ok in Hfinal. rewrite Es.
      repeat match goal with |- _ /\ _ => split end; try reflexivity; lia.
  - cbn. discriminate.
Qed.

Lemma incomplete_means_budget_spent_witness :
  exists report,
    FullyAutonomousCodingAgent.solve_problem (RT := Reference.runtime) mumbling 1
      "sort a list"
    = Some report
    /\ let state := FullyAutonomousCodingAgent.state_data report in
       match FullyAutonomousCodingAgent.status report with
       | FullyAutonomousCodingAgent.INCOMPLETE =>
           AgentState.remaining_calls state = 0
           /\ Z.of_nat (List.length (AgentState.tool_calls state)) = 1
           /\ AgentState.is_satisfied state = false
           /\ FullyAutonomousCodingAgent.error report = None
       | FullyAutonomousCodingAgent.SUCCESS =>
           AgentState.is_satisfied state = true
           /\ FullyAutonomousCodingAgent.error report = None
       | FullyAutonomousCodingAgent.ERROR =>
           FullyAutonomousCodingAgent.error report <> None
       end.
Proof.
  apply (incomplete_means_budget_spent (RT := Reference.runtime) mumbling 1
           "sort a list").
  lia.
Defined.

(** ** Faults of a capability *)

(** X11.  Dispatching a decision that has a tool and parameters never
    raises.  When the capability raises, or returns an envelope that does
    not report success, the invocation recorded last is marked
    unsuccessful with that envelope (for an exception, the failure
    envelope carrying its message), an issue naming the tool and the
    error is listed, and what the invocation was asked to do is
    unchanged. *)
Theorem capability_faults_are_recorded {RT : PyRuntime}
    (env : FullyAutonomousCodingAgent.Environment) (d : Dict.t)
    (tool parameters : json) (state : AgentState.t)
    (calls : list ToolCall.t) (call : ToolCall.t) :
  Dict.get "tool" d = Some tool ->
  Dict.get "parameters" d = Some parameters ->
  AgentState.tool_calls state = (calls ++ [call])%list ->
  let state' :=
    snd (FullyAutonomousCodingAgent._execute_tool_decision env (JObj d) state) in
  let faulted (envelope : ToolResult.t) (issue : string) :=
    exists call',
      AgentState.tool_calls state' = (calls ++ [call'])%list
      /\ signature call' = signature call
      /\ ToolCall.success call' = false
      /\ ToolCall.result call' = envelope
      /\ In issue (AgentState.identified_issues state') in
  fst (FullyAutonomousCodingAgent._execute_tool_decision env (JObj d) state) = Ok tt
  /\ match FullyAutonomousCodingAgent.call_tool env tool parameters state with
     | Raise e =>
         faulted (ToolResult.failure (exn_msg e))
           (py_str tool ++ " execution error: " ++ exn_msg e)
     | Ok envelope =>
         get_or (ToolResult.success envelope) false = false ->
         faulted envelope
           (py_str tool ++ " failed: "
            ++ get_or (ToolResult.error envelope) "Unknown error")
     end.
Proof.
  intros Htool Hparameters Hcalls state' faulted.
  split; [eapply execute_tool_decision_ok; eassumption|].
  subst state' faulted.
  unfold FullyAutonomousCodingAgent._execute_tool_decision,
    FullyAutonomousCodingAgent.getitem, Dict.getitem, bind.
  rewrite Htool, Hparameters.
  destruct (FullyAutonomousCodingAgent.call_tool env tool parameters state)
    as [envelope|e]; cbn [snd].
  - intros Hfailed.
    unfold FullyAutonomousCodingAgent._process_tool_result.
    rewrite Hfailed. cbn [negb snd].
    eexists. split; [|split; [|split; [|split]]].
    5: apply add_issue_listed.
    + unfold AgentState.add_issue. destruct (existsb _ _);
        cbn [AgentState.tool_calls AgentState.set_mind
             AgentState.update_last_tool_call AgentState.set_calls];
        rewrite Hcalls, update_last_app; reflexivity.
    + reflexivity.
    + exact Hfailed.
    + reflexivity.
  - eexists. split; [|split; [|split; [|split]]].
    5: apply add_issue_listed.
    + unfold AgentState.add_issue. destruct (existsb _ _);
        cbn [AgentState.tool_calls AgentState.set_mind
             AgentState.update_last_tool_call AgentState.set_calls];
        rewrite Hcalls, update_last_app; reflexivity.
    + reflexivity.
    + reflexivity.
    + reflexivity.
Qed.

Lemma capability_faults_are_recorded_witness :
  let state' :=
    snd (FullyAutonomousCodingAgent._execute_tool_decision
           (RT := Reference.runtime) mumbling (JObj think_decision)
           asked_to_think) in
  let faulted (envelope : ToolResult.t) (issue : string) :=
    exists call',
      AgentState.tool_calls state' = ([] ++ [call'])%list
      /\ signature call'
         = signature {| ToolCall.tool_name := JStr "think";
                        ToolCall.parameters := JObj [];
                        ToolCall.result := ToolResult.empty;
                        ToolCall.reasoning := JStr "start";
                        ToolCall.success := false |}
      /\ ToolCall.success call' = false
      /\ ToolCall.result call' = envelope
      /\ In issue (AgentState.identified_issues state') in
  fst (FullyAutonomousCodingAgent._execute_tool_decision
         (RT := Reference.runtime) mumbling (JObj think_decision) asked_to_think)
  = Ok tt
  /\ match FullyAutonomousCodingAgent.call_tool (RT := Reference.runtime)
             mumbling (JStr "think") (JObj []) asked_to_think with
     | Raise e =>
         faulted (ToolResult.failure (exn_msg e))
           (@py_str Reference.runtime (JStr "think") ++ " execution error: "
            ++ exn_msg e)
     | Ok envelope =>
         get_or (ToolResult.success envelope) false = false ->
         faulted envelope
           (@py_str Reference.runtime (JStr "think") ++ " failed: "
            ++ get_or (ToolResult.error envelope) "Unknown error")
     end.
Proof.
  apply (capability_faults_are_recorded (RT := Reference.runtime) mumbling
           think_decision (JStr "think") (JObj []) asked_to_think []
           {| ToolCall.tool_name := JStr "think";
              ToolCall.parameters := JObj [];
              ToolCall.result := ToolResult.empty;
              ToolCall.reasoning := JStr "start";
              ToolCall.success := false |});
    reflexivity.
Defined.

(** ** The adapter's effect on the ledger *)

(** X12.  Whatever the reply and whatever capabilities are registered,
    parsing a reply returns a decision without raising, and the only
    trace it can leave in the ledger is one appended thought: that an
    unregistered tool was requested, or that the reply could not be
    parsed. *)
Theorem parsing_leaves_at_most_a_thought {RT : PyRuntime}
    (available_tools : list string) (llm_response : string)
    (state : AgentState.t) :
  exists decision state',
    AutonomousToolSelector._parse_llm_decision available_tools llm_response state
    = Ok (decision, state')
    /\ (state' = state
        \/ (exists tool,
              state' = AgentState.add_thinking
                         ("Invalid tool requested: " ++ py_str tool) state)
        \/ (exists e,
              state' = AgentState.add_thinking
                         ("Error parsing LLM decision: " ++ exn_msg e) state)).
Proof.
  unfold AutonomousToolSelector._parse_llm_decision,
    AutonomousToolSelector.extract_json, try_except, bind.
  assert (Hsame : forall decision : json,
    exists decision' state',
      Ok (decision, state) = Ok (decision', state')
      /\ (state' = state
          \/ (exists tool,
                state' = AgentState.add_thinking
                           ("Invalid tool requested: " ++ py_str tool) state)
          \/ (exists e,
                state' = AgentState.add_thinking
                           ("Error parsing LLM decision: " ++ exn_msg e) state)))
    by (intros decision; eexists _, _; split; [reflexivity|left; reflexivity]).
  assert (Herror : forall (e : exn) (decision : json),
    exists decision' state',
      Ok (decision,
          AgentState.add_thinking ("Error parsing LLM decision: " ++ exn_msg e) state)
      = Ok (decision', state')
      /\ (state' = state
          \/ (exists tool,
                state' = AgentState.add_thinking
                           ("Invalid tool requested: " ++ py_str tool) state)
          \/ (exists e,
                state' = AgentState.add_thinking
                           ("Error parsing LLM decision: " ++ exn_msg e) state)))
    by (intros e decision; eexists _, _; split;
        [reflexivity|right; right; eexists; reflexivity]).
  destruct (_ && _); [|apply Hsame].
  destruct (json_loads _) as [decision|e]; [|apply Herror].
  unfold AutonomousToolSelector._validate_decision, bind.
  destruct decision as [ | | | | |d]; try apply Hsame.
  destruct (negb _); [apply Hsame|].
  destruct (json_is_str _ "use_tool"); [|apply Hsame].
  destruct (AutonomousToolSelector.tool_not_available _ _) as [[|]|e];
    [|apply Hsame|apply Herror].
  eexists _, _. split; [reflexivity|]. right. left. eexists. reflexivity.
Qed.

(** X13.  A decision that validation accepts comes back with every field
    the oracle supplied, unchanged: repair only adds the missing
    [parameters] and [reasoning], the ledger is not touched, and
    validating the repaired decision again returns it as it is. *)
Theorem validation_keeps_oracle_fields {RT : PyRuntime}
    (available_tools : list string) (d : Dict.t) (decision' : json)
    (state state' : AgentState.t) :
  AutonomousToolSelector._validate_decision available_tools (JObj d) state
  = Ok (true, decision', state') ->
  state' = state
  /\ AutonomousToolSelector._validate_decision available_tools decision' state
     = Ok (true, decision', state)
  /\ exists d',
       decision' = JObj d'
       /\ forall (k : string) (v : json),
            Dict.get k d = Some v -> Dict.get k d' = Some v.
Proof.
  assert (Hkeep : forall k' v' (d0 : Dict.t) k v,
    Dict.get k d0 = Some v ->
    Dict.get k (if negb (Dict.mem k' d0) then Dict.set k' v' d0 else d0) = Some v).
  { intros k' v' d0 k v H. unfold Dict.mem.
    destruct (Dict.get k' d0) eqn:E; cbn [negb]; [exact H|].
    destruct (String.eqb k k') eqn:Ek.
    - apply String.eqb_eq in Ek. subst k'. congruence.
    - rewrite dict_get_set_other by exact Ek. exact H. }
  assert (Hfix : forall k' v' (d0 : Dict.t),
    Dict.mem k' d0 = true ->
    (if negb (Dict.mem k' d0) then Dict.set k' v' d0 else d0) = d0).
  { intros k' v' d0 H. rewrite H. reflexivity. }
  unfold AutonomousToolSelector._validate_decision, bind.
  unfold AutonomousToolSelector.get at 1 2 3.
  destruct (Dict.get "action" d) as [[ | | |action| | ]|] eqn:Haction;
    cbn [get_or json_is_str orb negb]; try discriminate.
  destruct (String.eqb action "use_tool") eqn:Euse.
  - cbn [orb negb]. apply String.eqb_eq in Euse. subst action.
    destruct (AutonomousToolSelector.tool_not_available available_tools
                (AutonomousToolSelector.get "tool" d)) as [[|]|] eqn:Htool;
      try discriminate.
    intros H. injection H as <- <-.
    split; [reflexivity|]. split.
    + unfold AutonomousToolSelector.get.
      rewrite !dict_get_set_repaired_other by reflexivity.
      rewrite Haction. cbn [get_or json_is_str String.eqb Ascii.eqb Bool.eqb orb negb].
      unfold AutonomousToolSelector.get in Htool. rewrite Htool.
      rewrite (Hfix "parameters").
      2: { rewrite dict_mem_repaired_other by reflexivity. apply dict_mem_repaired. }
      rewrite (Hfix "reasoning"); [reflexivity|apply dict_mem_repaired].
    + eexists. split; [reflexivity|]. intros k v Hk. auto.
  - destruct (String.eqb action "stop") eqn:Estop; cbn [orb negb]; try discriminate.
    apply String.eqb_eq in Estop. subst action.
    intros H. injection H as <- <-.
    split; [reflexivity|]. split.
    + unfold AutonomousToolSelector.get.
      rewrite !dict_get_set_repaired_other by reflexivity.
      rewrite Haction. cbn [get_or json_is_str String.eqb Ascii.eqb Bool.eqb orb negb].
      rewrite (Hfix "reasoning"); [reflexivity|apply dict_mem_repaired].
    + eexists. split; [reflexivity|]. intros k v Hk. auto.
Qed.

Lemma validation_keeps_oracle_fields_witness :
  let d := [("tool", JStr "think"); ("action", JStr "use_tool");
            ("note", JNum "7")] in
  let decision' :=
    JObj [("tool", JStr "think"); ("action", JStr "use_tool");
          ("note", JNum "7"); ("parameters", JObj []);
          ("reasoning", JStr "No reasoning provided")] in
  let state := AgentState.init "sort a list" 15 in
  state = state
  /\ AutonomousToolSelector._validate_decision (RT := Reference.runtime)
       FullyAutonomousCodingAgent.tools decision' state
     = Ok (true, decision', state)
  /\ exists d',
       decision' = JObj d'
       /\ forall (k : string) (v : json),
            Dict.get k d = Some v -> Dict.get k d' = Some v.
Proof.
  apply (validation_keeps_oracle_fields (RT := Reference.runtime)
           FullyAutonomousCodingAgent.tools
           [("tool", JStr "think"); ("action", JStr "use_tool");
            ("note", JNum "7")]).
  reflexivity.
Defined.

(** * The run capability *)

(** ** Facts about lines and surrounding whitespace *)

Lemma contains_char_cons (c a : ascii) (s : string) :
  Py.contains (String c EmptyString) (String a s)
  = Ascii.eqb c a || Py.contains (String c EmptyString) s.
Proof.
  cbn [Py.contains String.prefix].
  destruct (Ascii.ascii_dec c a) as [->|Hne].
  - rewrite prefix_empty, Ascii.eqb_refl. reflexivity.
  - apply Ascii.eqb_neq in Hne. rewrite Hne. reflexivity.
Qed.

Lemma contains_char_empty (c : ascii) :
  Py.contains (String c EmptyString) EmptyString = false.
Proof. reflexivity. Qed.

Lemma contains_char_app (c : ascii) (a b : string) :
  Py.contains (String c EmptyString) (a ++ b)
  = Py.contains (String c EmptyString) a || Py.contains (String c EmptyString) b.
Proof.
  induction a as [|x a IH].
  - reflexivity.
  - change (String x a ++ b) with (String x (a ++ b)).
    rewrite !contains_char_cons, IH. apply orb_assoc.
Qed.

(** A string without the separator is a single line. *)
Lemma split_no_sep (c : ascii) (s : string) :
  Py.contains (String c EmptyString) s = false -> Py.split c s = [s].
Proof.
  induction s as [|a s IH]; [reflexivity|].
  rewrite contains_char_cons. intros H. apply orb_false_elim in H.
  destruct H as [Hc Hs]. cbn [Py.split].
  rewrite Ascii.eqb_sym, Hc, (IH Hs). reflexivity.
Qed.

(** A string with the separator has at least two lines. *)
Lemma split_sep_two (c : ascii) (s : string) :
  Py.contains (String c EmptyString) s = true ->
  (2 <= List.length (Py.split c s))%nat.
Proof.
  induction s as [|a s IH]; [discriminate|].
  rewrite contains_char_cons. cbn [Py.split]. rewrite (Ascii.eqb_sym a c).
  destruct (Ascii.eqb c a); cbn [orb].
  - intros _. pose proof (split_nonempty c s).
    destruct (Py.split c s); [contradiction|]. simpl. lia.
  - intros H. specialize (IH H).
    destruct (Py.split c s); simpl in *; lia.
Qed.

Lemma uint_no_newline (d : Decimal.uint) :
  Py.contains ThinkingTool.newline_str (NilZero.string_of_uint d) = false.
Proof.
  unfold ThinkingTool.newline_str.
  assert (H : forall d',
    Py.contains (String Py.newline EmptyString) (NilEmpty.string_of_uint d') = false).
  { induction d' as [|d' IH|d' IH|d' IH|d' IH|d' IH|d' IH|d' IH|d' IH|d' IH|d' IH];
      cbn [NilEmpty.string_of_uint]; try reflexivity;
      rewrite contains_char_cons, IH; reflexivity. }
  destruct d; try apply H. reflexivity.
Qed.

Lemma str_of_int_no_newline (n : Z) :
  Py.contains ThinkingTool.newline_str (Py.str_of_int n) = false.
Proof.
  unfold Py.str_of_int.
  destruct (Z.to_int n) as [d|d]; cbn [NilZero.string_of_int].
  - apply uint_no_newline.
  - unfold ThinkingTool.newline_str.
    rewrite contains_char_cons.
    change (Py.contains (String Py.newline EmptyString) (NilZero.string_of_uint d))
      with (Py.contains ThinkingTool.newline_str (NilZero.string_of_uint d)).
    rewrite uint_no_newline. reflexivity.
Qed.

Lemma list_ascii_app (a b : string) :
  list_ascii_of_string (a ++ b)
  = (list_ascii_of_string a ++ list_ascii_of_string b)%list.
Proof. induction a as [|x a IH]; simpl; [|rewrite IH]; reflexivity. Qed.

Lemma string_of_list_app (l1 l2 : list ascii) :
  string_of_list_ascii (l1 ++ l2)
  = string_of_list_ascii l1 ++ string_of_list_ascii l2.
Proof. induction l1 as [|x l1 IH]; simpl; [|rewrite IH]; reflexivity. Qed.

Lemma rev_app (a b : string) : Py.rev (a ++ b) = Py.rev b ++ Py.rev a.
Proof.
  unfold Py.rev. rewrite list_ascii_app, rev_app_distr. apply string_of_list_app.
Qed.

Lemma rev_rev (s : string) : Py.rev (Py.rev s) = s.
Proof.
  unfold Py.rev.
  rewrite list_ascii_of_string_of_list_ascii, rev_involutive.
  apply string_of_list_ascii_of_string.
Qed.

Lemma lstrip_fuel_none (ws : list string) (fuel : nat) (s : string) :
  Py.leading_space ws s = None -> Py.lstrip_fuel ws fuel s = s.
Proof. intros H. destruct fuel; cbn [Py.lstrip_fuel]; [|rewrite H]; reflexivity. Qed.

(** Text that neither starts nor ends with whitespace is its own
    [strip]. *)
Lemma strip_unchanged (s : string) :
  Py.leading_space Py.whitespace s = None ->
  Py.leading_space (map Py.rev Py.whitespace) (Py.rev s) = None ->
  Py.strip s = s.
Proof.
  intros Hl Hr. unfold Py.strip, Py.lstrip, Py.rstrip.
  rewrite (lstrip_fuel_none _ _ _ Hl), (lstrip_fuel_none _ _ _ Hr).
  apply rev_rev.
Qed.

Lemma timeout_message_one_line (timeout : Z) :
  let message :=
    "Execution timed out after " ++ Py.str_of_int timeout ++ " seconds" in
  Py.truthy message = true
  /\ Py.truthy (Py.strip message) = true
  /\ Py.split Py.newline message = [message].
Proof.
  intros message.
  assert (Hstrip : Py.strip message = message).
  { apply strip_unchanged.
    - reflexivity.
    - subst message. rewrite !rev_app. reflexivity. }
  split; [reflexivity|]. split; [rewrite Hstrip; reflexivity|].
  apply split_no_sep. subst message.
  change (String Py.newline EmptyString) with ThinkingTool.newline_str.
  unfold ThinkingTool.newline_str.
  rewrite !contains_char_app.
  change (String Py.newline EmptyString) with ThinkingTool.newline_str.
  rewrite str_of_int_no_newline. reflexivity.
Qed.

Lemma second_to_last_short (line : string) :
  ExecutionRun.second_to_last [line]
  = Raise (Exn "IndexError" "list index out of range").
Proof. reflexivity. Qed.

Lemma second_to_last_long (lines : list string) :
  (2 <= List.length lines)%nat ->
  exists line, ExecutionRun.second_to_last lines = Ok line /\ In line lines.
Proof.
  intros H. unfold ExecutionRun.second_to_last.
  pose proof (length_rev lines) as Hlen.
  pose proof (in_rev lines) as Hin.
  destruct (List.rev lines) as [|x [|y l]]; simpl in Hlen; try lia.
  exists y. split; [reflexivity|]. apply Hin. right. left. reflexivity.
Qed.

(** ** Error analysis *)

(** X14.  [_analyze_errors] raises [IndexError] exactly on error text that
    is not blank and has no line break (it asks for the second line from
    the end).  Otherwise it classifies the text as syntax, import,
    runtime or unknown in that order of precedence, sets the matching
    flag and no other, and takes as summary the second line from the
    end, or the empty string for blank text. *)
Theorem analyze_errors_needs_a_line_break {RT : PyRuntime} (stderr : string) :
  let one_line :=
    Py.truthy (Py.strip stderr)
    && negb (Py.contains ThinkingTool.newline_str stderr) in
  match ExecutionRun._analyze_errors stderr with
  | Raise e => one_line = true /\ e = Exn "IndexError" "list index out of range"
  | Ok a =>
      one_line = false
      /\ ExecutionRun.error_type a
         = (if Py.contains "syntaxerror" (str_lower stderr) then "syntax"
            else if Py.contains "importerror" (str_lower stderr)
                    || Py.contains "modulenotfounderror" (str_lower stderr)
                 then "import"
            else if existsb (fun err => Py.contains err (str_lower stderr))
                      ExecutionRun.runtime_error_names
                 then "runtime"
            else "unknown")
      /\ ExecutionRun.is_syntax_error a
         = String.eqb (ExecutionRun.error_type a) "syntax"
      /\ ExecutionRun.is_import_error a
         = String.eqb (ExecutionRun.error_type a) "import"
      /\ ExecutionRun.is_runtime_error a
         = String.eqb (ExecutionRun.error_type a) "runtime"
      /\ (if Py.truthy (Py.strip stderr)
          then In (ExecutionRun.error_summary a) (Py.split Py.newline stderr)
          else ExecutionRun.error_summary a = EmptyString)
  end.
Proof.
  intros one_line. subst one_line.
  unfold ExecutionRun._analyze_errors, bind, ThinkingTool.newline_str.
  destruct (Py.truthy (Py.strip stderr)) eqn:Hblank; cbn [andb].
  - destruct (Py.contains (String Py.newline EmptyString) stderr) eqn:Hnl;
      cbn [negb].
    + destruct (second_to_last_long _ (split_sep_two _ _ Hnl)) as (line & -> & Hin).
      destruct (Py.contains "syntaxerror" _);
        [|destruct (_ || _);
          [|destruct (existsb _ ExecutionRun.runtime_error_names)]];
        cbn; auto 10.
    + rewrite (split_no_sep _ _ Hnl), second_to_last_short. auto.
  - destruct (Py.contains "syntaxerror" _);
      [|destruct (_ || _);
        [|destruct (existsb _ ExecutionRun.runtime_error_names)]];
      cbn; auto 10.
Qed.

(** ** Runs that do not finish *)

Lemma analyze_one_line {RT : PyRuntime} (r : ExecutionRun.run_result) :
  Py.truthy (ExecutionRun.stderr r) = true ->
  Py.truthy (Py.strip (ExecutionRun.stderr r)) = true ->
  Py.split Py.newline (ExecutionRun.stderr r) = [ExecutionRun.stderr r] ->
  ExecutionRun._analyze_execution_result r
  = Raise (Exn "IndexError" "list index out of range").
Proof.
  intros H1 H2 H3.
  unfold ExecutionRun._analyze_execution_result, ExecutionRun._analyze_errors, bind.
  rewrite H1, H2, H3. reflexivity.
Qed.

(** X15.  A run that times out, or for which no interpreter is found, is
    not reported with the exit status -1 or -2 the tool prepares for it:
    the prepared one-line message makes the error analysis raise, and the
    tool returns the failure envelope
    [Execution tool error: list index out of range]. *)
Theorem timed_out_run_is_a_tool_error {RT : PyRuntime}
    (host : ExecutionRun.Host)
    (workspace_path filename directory : string) (timeout : Z) :
  let script_path :=
    ExecutionTool.script_path workspace_path filename directory in
  ExecutionRun.path_exists host script_path = true ->
  ExecutionRun.run host script_path timeout = ExecutionRun.TimeoutExpired
  \/ ExecutionRun.run host script_path timeout = ExecutionRun.FileNotFoundError ->
  (exists r,
     ExecutionRun._run_python_script (ExecutionRun.run host script_path timeout)
       timeout = Ok r
     /\ ExecutionRun.returncode r < 0)
  /\ ExecutionRun.execute host workspace_path filename directory timeout
     = ExecutionRun.format_result false None
         (Some "Execution tool error: list index out of range").
Proof.
  intros script_path Hexists Hrun.
  unfold ExecutionRun.execute. fold script_path. rewrite Hexists. cbn [negb].
  destruct (timeout_message_one_line timeout) as (T1 & T2 & T3).
  destruct Hrun as [-> | ->]; cbn [ExecutionRun._run_python_script bind].
  - split; [eexists; split; [reflexivity|]; cbn; lia|].
    rewrite analyze_one_line; [reflexivity|exact T1|exact T2|exact T3].
  - split; [eexists; split; [reflexivity|]; cbn; lia|].
    rewrite analyze_one_line; reflexivity.
Qed.

Lemma timed_out_run_is_a_tool_error_witness :
  (exists r,
     ExecutionRun._run_python_script
       (ExecutionRun.run hanging_host
          (ExecutionTool.script_path "workspace" "solution.py" "solutions") 30)
       30 = Ok r
     /\ ExecutionRun.returncode r < 0)
  /\ ExecutionRun.execute (RT := Reference.runtime) hanging_host "workspace"
       "solution.py" "solutions" 30
     = ExecutionRun.format_result false None
         (Some "Execution tool error: list index out of range").
Proof.
  apply (timed_out_run_is_a_tool_error (RT := Reference.runtime) hanging_host
           "workspace" "solution.py" "solutions" 30).
  - reflexivity.
  - left. reflexivity.
Defined.

(** ** From a run to the ledger *)

Lemma analysis_test_results {RT : PyRuntime} (r : ExecutionRun.run_result)
    (a : ExecutionRun.analysis) :
  ExecutionRun._analyze_execution_result r = Ok a ->
  ExecutionRun.test_results a
  = ExecutionTool._parse_test_results (ExecutionRun.stdout r)
  /\ ExecutionRun.success a
     = (ExecutionRun.returncode r =? 0) && negb (ExecutionRun.timed_out r).
Proof.
  unfold ExecutionRun._analyze_execution_result, bind.
  destruct (Py.truthy (ExecutionRun.stderr r)).
  - destruct (ExecutionRun._analyze_errors _); [|discriminate].
    intros H; injection H as <-. split; reflexivity.
  - intros H; injection H as <-. split; reflexivity.
Qed.

(** The envelope of the run capability: a failure without a result, or a
    success whose test summary is the parser's reading of the captured
    output. *)
Lemma execute_envelope {RT : PyRuntime} (host : ExecutionRun.Host)
    (workspace_path filename directory : string) (timeout : Z) :
  let envelope :=
    ExecutionRun.execute host workspace_path filename directory timeout in
  (ExecutionRun.envelope_success envelope = false
   /\ ExecutionRun.envelope_result envelope = None
   /\ ExecutionRun.envelope_error envelope <> None)
  \/ (ExecutionRun.envelope_success envelope = true
      /\ ExecutionRun.envelope_error envelope = None
      /\ exists p,
           ExecutionRun.envelope_result envelope = Some p
           /\ ExecutionRun.test_results (ExecutionRun.payload_analysis p)
              = ExecutionTool._parse_test_results (ExecutionRun.payload_stdout p)).
Proof.
  intros envelope. subst envelope. unfold ExecutionRun.execute.
  destruct (negb _); [left; repeat split; discriminate|].
  unfold bind.
  destruct (ExecutionRun._run_python_script _ timeout) as [r|e];
    [|left; repeat split; discriminate].
  destruct (ExecutionRun._analyze_execution_result r) as [a|e] eqn:Ha;
    [|left; repeat split; discriminate].
  destruct (ExecutionRun.write_log host) as [[]|e];
    [|left; repeat split; discriminate].
  right. split; [reflexivity|]. split; [reflexivity|].
  eexists. split; [reflexivity|]. cbn. apply (analysis_test_results r a Ha).
Qed.

(** X16.  Whatever the script did, handing the run capability's envelope
    to the loop's bookkeeping raises nothing: a failure envelope leaves
    the ledger as it was, and a success envelope appends one run, with the
    exit status and the streams of the envelope, the file name of the
    decision, and a score between 0 and 100. *)
Theorem run_envelopes_are_always_scored {RT : PyRuntime}
    (host : ExecutionRun.Host)
    (workspace_path filename directory : string) (timeout : Z)
    (parameters : Dict.t) (state : AgentState.t) :
  let envelope :=
    ExecutionRun.execute host workspace_path filename directory timeout in
  exists state',
    FullyAutonomousCodingAgent._process_tool_result (JStr "execute_code")
      (ExecutionRun.as_tool_result envelope) parameters state
    = Ok state'
    /\ match ExecutionRun.envelope_result envelope with
       | None => state' = state
       | Some p =>
           exists q,
             0 <= q <= 100
             /\ AgentState.execution_results state'
                = (AgentState.execution_results state
                   ++ [ {| ExecutionResult.filename :=
                             FullyAutonomousCodingAgent.param_str "filename"
                               "unknown" parameters;
                           ExecutionResult.exit_code := ExecutionRun.exit_code p;
                           ExecutionResult.stdout := ExecutionRun.payload_stdout p;
                           ExecutionResult.stderr := ExecutionRun.payload_stderr p;
                           ExecutionResult.test_results :=
                             ExecutionTool._parse_test_results
                               (ExecutionRun.payload_stdout p);
                           ExecutionResult.quality_score := q |} ])%list
       end.
Proof.
  intros envelope.
  destruct (execute_envelope host workspace_path filename directory timeout)
    as [(Hs & Hr & _)|(Hs & _ & p & Hr & Hp)]; fold envelope in Hs, Hr.
  - rewrite Hr. exists state. split; [|reflexivity].
    unfold FullyAutonomousCodingAgent._process_tool_result,
      ExecutionRun.as_tool_result.
    cbn [ToolResult.success get_or]. rewrite Hs. reflexivity.
  - rewrite Hr.
    unfold FullyAutonomousCodingAgent._process_tool_result,
      ExecutionRun.as_tool_result.
    cbn [ToolResult.success ToolResult.result get_or]. rewrite Hs, Hr.
    cbn [negb option_map json_is_str String.eqb Ascii.eqb Bool.eqb
         ToolResult.exit_code ToolResult.stdout ToolResult.stderr
         ToolResult.analysis get_or].
    rewrite Hp.
    unfold AgentState.add_execution_result, bind.
    destruct (quality_score_of_parsed_output (ExecutionRun.exit_code p)
                (ExecutionRun.payload_stdout p) (ExecutionRun.payload_stderr p)
                (ExecutionRun.payload_stdout p)) as (q & -> & Hq).
    destruct (q >? _); eexists; (split; [reflexivity|]); exists q;
      (split; [exact Hq|reflexivity]).
Qed.

(** ** The test-result parser, continued *)

Lemma scan_lines_bounded {RT : PyRuntime} (lines : list string) :
  forall info : ExecutionTool.test_info,
    let info' := fold_left ExecutionTool.scan_line lines info in
    ExecutionTool.passed info <= ExecutionTool.passed info'
    /\ ExecutionTool.failed info <= ExecutionTool.failed info'
    /\ ExecutionTool.passed info' + ExecutionTool.failed info'
       <= ExecutionTool.passed info + ExecutionTool.failed info
          + Z.of_nat (List.length lines).
Proof.
  induction lines as [|line lines IH]; intros info; cbn [fold_left List.length].
  - cbn zeta. lia.
  - specialize (IH (ExecutionTool.scan_line info line)). cbn zeta in *.
    assert (H : ExecutionTool.passed info
                <= ExecutionTool.passed (ExecutionTool.scan_line info line)
                /\ ExecutionTool.failed info
                   <= ExecutionTool.failed (ExecutionTool.scan_line info line)
                /\ ExecutionTool.passed (ExecutionTool.scan_line info line)
                   + ExecutionTool.failed (ExecutionTool.scan_line info line)
                   <= ExecutionTool.passed info + ExecutionTool.failed info + 1).
    { unfold ExecutionTool.scan_line.
      destruct (_ || _); [cbn; lia|].
      destruct (_ || _); [cbn; lia|].
      destruct (_ || _); cbn; lia. }
    lia.
Qed.

(** X17.  The parser counts each line of the output at most once: the
    total never exceeds the number of lines, and output in which no line
    mentions a pass, a failure or a test yields zero counts and no test
    output. *)
Theorem parser_counts_each_line_once {RT : PyRuntime} (out : string) :
  let lines := Py.split Py.newline out in
  let marked (line : string) :=
    Py.contains ExecutionTool.check_mark line
    || Py.contains "passed" (str_lower line)
    || Py.contains ExecutionTool.cross_mark line
    || Py.contains "failed" (str_lower line)
    || Py.contains "test case" (str_lower line)
    || Py.contains "testing" (str_lower line) in
  (exists total,
     total_tests (ExecutionTool._parse_test_results out) = Some total
     /\ 0 <= total <= Z.of_nat (List.length lines))
  /\ (forallb (fun line => negb (marked line)) lines = true ->
      ExecutionTool._parse_test_results out
      = {| total_tests := Some 0; passed_tests := Some 0;
           failed_tests := Some 0; has_test_output := Some false |}).
Proof.
  intros lines marked. split.
  - unfold ExecutionTool._parse_test_results. fold lines.
    eexists. split; [reflexivity|].
    pose proof (scan_lines_bounded lines
                  {| ExecutionTool.passed := 0; ExecutionTool.failed := 0;
                     ExecutionTool.has_output := false |}) as H.
    cbn zeta in H. cbn [ExecutionTool.passed ExecutionTool.failed] in H. lia.
  - intros Hnone. unfold ExecutionTool._parse_test_results. fold lines.
    assert (Hfold : forall info,
              fold_left ExecutionTool.scan_line lines info = info).
    { clearbody lines. induction lines as [|line lines IH]; intros info;
        [reflexivity|].
      cbn [forallb] in Hnone. apply andb_prop in Hnone. destruct Hnone as [H1 H2].
      cbn [fold_left].
      assert (Hline : ExecutionTool.scan_line info line = info).
      { subst marked. cbn beta in H1. apply negb_true_iff in H1.
        repeat (apply orb_false_elim in H1; destruct H1 as [H1 ?]).
        unfold ExecutionTool.scan_line.
        repeat match goal with H : _ = false |- _ => rewrite H; clear H end.
        reflexivity. }
      rewrite Hline. apply IH, H2. }
    rewrite Hfold. reflexivity.
Qed.

(** * Reading the oracle's replies *)

(** ** Lines *)

Lemma join_cons (sep x y : string) (l : list string) :
  Py.join sep (x :: y :: l) = x ++ sep ++ Py.join sep (y :: l).
Proof. reflexivity. Qed.

(** Joining the lines of a text with the separator gives the text back. *)
Lemma join_split (c : ascii) (s : string) :
  Py.join (String c EmptyString) (Py.split c s) = s.
Proof.
  induction s as [|a s IH]; [reflexivity|].
  cbn [Py.split]. pose proof (split_nonempty c s) as Hne.
  destruct (Ascii.eqb a c) eqn:E.
  - apply Ascii.eqb_eq in E. subst a.
    destruct (Py.split c s) as [|l ls]; [contradiction|].
    rewrite join_cons, IH. reflexivity.
  - destruct (Py.split c s) as [|l ls]; [contradiction|].
    destruct ls as [|l' ls].
    + cbn [Py.join] in *. rewrite IH. reflexivity.
    + rewrite join_cons, <- IH, join_cons. reflexivity.
Qed.

Lemma prefix_app (sub a b : string) :
  String.prefix sub a = true -> String.prefix sub (a ++ b) = true.
Proof.
  revert a. induction sub as [|x sub IH]; intros a; [intros _; apply prefix_empty|].
  destruct a as [|y a]; [discriminate|]. cbn [String.prefix append].
  destruct (Ascii.ascii_dec x y); [apply IH|discriminate].
Qed.

Lemma contains_app_l (sub a b : string) :
  Py.contains sub a = true -> Py.contains sub (a ++ b) = true.
Proof.
  induction a as [|x a IH]; cbn [Py.contains append].
  - rewrite orb_false_r. intros H.
    destruct sub; [|discriminate].
    destruct b; reflexivity.
  - intros H. apply orb_prop in H. destruct H as [H|H].
    + change (String x (a ++ b)) with (String x a ++ b).
      rewrite (prefix_app _ _ _ H). reflexivity.
    + rewrite (IH H). apply orb_true_r.
Qed.

Lemma contains_app_r (sub a b : string) :
  Py.contains sub b = true -> Py.contains sub (a ++ b) = true.
Proof.
  intros H. induction a as [|x a IH]; [exact H|].
  cbn [Py.contains append]. rewrite IH. apply orb_true_r.
Qed.

Lemma contains_join (sub sep line : string) (lines : list string) :
  In line lines -> Py.contains sub line = true ->
  Py.contains sub (Py.join sep lines) = true.
Proof.
  intros Hin Hc. induction lines as [|x lines IH]; [contradiction|].
  destruct lines as [|y lines].
  - destruct Hin as [->|[]]. exact Hc.
  - rewrite join_cons. destruct Hin as [->|Hin].
    + apply contains_app_l, Hc.
    + apply contains_app_r, contains_app_r, IH, Hin.
Qed.

(** What occurs in a line occurs in the text. *)
Lemma contains_line (sub line s : string) :
  In line (Py.split Py.newline s) -> Py.contains sub line = true ->
  Py.contains sub s = true.
Proof.
  intros Hin Hc. rewrite <- (join_split Py.newline s).
  eapply contains_join; eassumption.
Qed.

(** ** Code in a reply *)

Section CodeExtraction.
Import CodeGenerationTool.

Lemma code_lines_skips (before rest : list string) :
  Forall (fun line => String.prefix python_fence (Py.strip line) = false
                      /\ Py.contains "def " line = false) before ->
  code_lines false (before ++ rest) = code_lines false rest.
Proof.
  induction 1 as [|line before [H1 H2] _ IH]; [reflexivity|].
  cbn [app code_lines]. rewrite H1, H2.
  rewrite andb_false_r, andb_false_r. exact IH.
Qed.

Lemma code_lines_block (body after : list string) (closing : string) :
  Forall (fun line => String.prefix python_fence (Py.strip line) = false
                      /\ String.eqb (Py.strip line) fence = false) body ->
  Py.strip closing = fence ->
  code_lines true (body ++ closing :: after) = body.
Proof.
  intros Hbody Hclosing.
  induction Hbody as [|line body [H1 H2] _ IH].
  - cbn [app code_lines]. rewrite Hclosing. reflexivity.
  - cbn [app code_lines]. rewrite H1, H2. cbn [andb orb]. rewrite IH. reflexivity.
Qed.

(** X18.  Code in a fenced block is returned as it stands: when the reply
    has prose without [def] before an opening [python] fence, then lines
    none of which is a fence, then a closing fence, the extracted code is
    exactly those lines, stripped of surrounding whitespace; the prose
    before and everything after the closing fence are dropped. *)
Theorem fenced_code_is_extracted (response : string)
    (before body after : list string) (opening closing : string) :
  Py.split Py.newline response
  = (before ++ opening :: body ++ closing :: after)%list ->
  Forall (fun line => String.prefix python_fence (Py.strip line) = false
                      /\ Py.contains "def " line = false) before ->
  String.prefix python_fence (Py.strip opening) = true ->
  Forall (fun line => String.prefix python_fence (Py.strip line) = false
                      /\ String.eqb (Py.strip line) fence = false) body ->
  Py.strip closing = fence ->
  body <> [] ->
  _extract_python_code response
  = Py.strip (Py.join ThinkingTool.newline_str body).
Proof.
  intros Hlines Hbefore Hopening Hbody Hclosing Hne.
  unfold _extract_python_code. rewrite Hlines.
  rewrite (code_lines_skips _ _ Hbefore).
  cbn [code_lines]. rewrite Hopening.
  rewrite (code_lines_block _ _ _ Hbody Hclosing).
  destruct body; [contradiction|reflexivity].
Qed.

Lemma fenced_code_is_extracted_witness :
  _extract_python_code fenced_reply
  = Py.strip (Py.join ThinkingTool.newline_str
                ["def add(a, b):"; "    return a + b"]).
Proof.
  apply (fenced_code_is_extracted fenced_reply ["Here is the solution:"]
           ["def add(a, b):"; "    return a + b"] ["It defines add."]
           "```python" "```").
  - reflexivity.
  - repeat constructor.
  - reflexivity.
  - repeat constructor.
  - reflexivity.
  - discriminate.
Defined.

(** X19.  A reply without any [def] and without an opening [python]
    fence yields no code: the result is the empty string. *)
Theorem reply_without_code_yields_nothing (response : string) :
  Py.contains "def " response = false ->
  forallb (fun line => negb (String.prefix python_fence (Py.strip line)))
    (Py.split Py.newline response) = true ->
  _extract_python_code response = EmptyString.
Proof.
  intros Hdef Hfence. unfold _extract_python_code.
  assert (Hnone : code_lines false (Py.split Py.newline response) = []).
  { rewrite <- (app_nil_r (Py.split Py.newline response)).
    rewrite code_lines_skips; [reflexivity|].
    rewrite forallb_forall in Hfence. apply Forall_forall. intros line Hin.
    split.
    - apply negb_true_iff, Hfence, Hin.
    - destruct (Py.contains "def " line) eqn:E; [|reflexivity].
      rewrite (contains_line _ _ _ Hin E) in Hdef. discriminate. }
  rewrite Hnone, Hdef. reflexivity.
Qed.

Lemma reply_without_code_yields_nothing_witness :
  _extract_python_code "I could not write the function." = EmptyString.
Proof.
  apply (reply_without_code_yields_nothing "I could not write the function.");
    reflexivity.
Defined.

End CodeExtraction.

(** ** Sections of a reply *)

Section SectionExtraction.
Variable str_upper : string -> string.
Import ThinkingTool.

Lemma section_content_skips (section_name : string) (before rest : list string) :
  Forall (fun line => opens str_upper section_name line = false) before ->
  section_content str_upper section_name false (before ++ rest)
  = section_content str_upper section_name false rest.
Proof.
  induction 1 as [|line before H _ IH]; [reflexivity|].
  cbn [app section_content]. rewrite H. cbn [andb]. exact IH.
Qed.

Lemma section_content_body (section_name : string) (body rest : list string) :
  Forall (fun line => opens str_upper section_name line = false
                      /\ closes str_upper line = false) body ->
  section_content str_upper section_name true (body ++ rest)
  = (body ++ section_content str_upper section_name true rest)%list.
Proof.
  induction 1 as [|line body [H1 H2] _ IH]; [reflexivity|].
  cbn [app section_content]. rewrite H1, H2. cbn [andb]. rewrite IH. reflexivity.
Qed.

(** X20.  A section of a reply is the text between its header and the
    next header: when a line with the section's name and a colon is
    followed by lines that are no headers and then by a line with another
    keyword and a colon, the section returned is exactly those lines,
    stripped; the header itself, what precedes it and what follows the
    next header are left out. *)
Theorem section_is_text_between_headers (response section_name : string)
    (before body after : list string) (header next : string) :
  Py.split Py.newline response
  = (before ++ header :: body ++ next :: after)%list ->
  Forall (fun line => opens str_upper section_name line = false) before ->
  opens str_upper section_name header = true ->
  Forall (fun line => opens str_upper section_name line = false
                      /\ closes str_upper line = false) body ->
  opens str_upper section_name next = false ->
  closes str_upper next = true ->
  _extract_section str_upper response section_name
  = Py.strip (Py.join newline_str body).
Proof.
  intros Hlines Hbefore Hheader Hbody Hnext1 Hnext2.
  unfold _extract_section. rewrite Hlines.
  rewrite (section_content_skips _ _ _ Hbefore).
  cbn [section_content]. rewrite Hheader.
  rewrite (section_content_body _ _ _ Hbody).
  cbn [section_content]. rewrite Hnext1, Hnext2. cbn [andb].
  rewrite app_nil_r. reflexivity.
Qed.

(** X21.  A section that the reply does not have is returned as the
    empty string: when no line has the section's name together with a
    colon, and in particular when the reply has no colon at all. *)
Theorem missing_section_is_empty (response section_name : string) :
  Py.contains ":" response = false
  \/ forallb (fun line => negb (opens str_upper section_name line))
       (Py.split Py.newline response) = true ->
  _extract_section str_upper response section_name = EmptyString.
Proof.
  assert (Hnone :
    forallb (fun line => negb (opens str_upper section_name line))
      (Py.split Py.newline response) = true ->
    _extract_section str_upper response section_name = EmptyString).
  { intros H. unfold _extract_section.
    rewrite <- (app_nil_r (Py.split Py.newline response)).
    rewrite section_content_skips; [reflexivity|].
    rewrite forallb_forall in H. apply Forall_forall. intros line Hin.
    apply negb_true_iff, H, Hin. }
  intros [Hcolon|H]; [|exact (Hnone H)].
  apply Hnone. apply forallb_forall. intros line Hin.
  apply negb_true_iff. unfold opens.
  destruct (Py.contains ":" line) eqn:E; [|apply andb_false_r].
  rewrite (contains_line _ _ _ Hin E) in Hcolon. discriminate.
Qed.

End SectionExtraction.

Lemma section_is_text_between_headers_witness :
  ThinkingTool._extract_section upper headed_reply "plan"
  = Py.strip (Py.join ThinkingTool.newline_str
                ["   - read a and b"; "   - return a + b"]).
Proof.
  apply (section_is_text_between_headers upper headed_reply "plan"
           ["1. ANALYSIS: sum of two numbers"; "2. APPROACH: use +"]
           ["   - read a and b"; "   - return a + b"] []
           "3. PLAN:" "4. PSEUDOCODE: return a + b").
  - reflexivity.
  - repeat constructor.
  - reflexivity.
  - repeat constructor.
  - reflexivity.
  - reflexivity.
Defined.

Lemma missing_section_is_empty_witness :
  ThinkingTool._extract_section upper "I would plan to add the numbers" "plan"
  = EmptyString.
Proof.
  apply (missing_section_is_empty upper "I would plan to add the numbers" "plan").
  left. reflexivity.
Defined.

(** ** The shape of generated code *)

Section CodeStructure.
Context {RT : PyRuntime}.
Import CodeGenerationTool.

Lemma scan_code_lines_spec (lines : list string) :
  forall a : code_structure,
    let a' := fold_left scan_code_line lines a in
    let defs :=
      Z.of_nat (List.length
                  (filter (fun line => String.prefix "def " (Py.strip line)) lines)) in
    function_count a' = function_count a + defs
    /\ estimated_test_cases a <= estimated_test_cases a'
    /\ function_count a' + estimated_test_cases a'
       <= function_count a + estimated_test_cases a + Z.of_nat (List.length lines)
    /\ (has_solution_function a' || has_test_function a'
        = has_solution_function a || has_test_function a || (0 <? defs)).
Proof.
  induction lines as [|line lines IH]; intros a.
  - cbn. repeat split; try lia. rewrite orb_false_r. reflexivity.
  - cbn [fold_left filter List.length].
    specialize (IH (scan_code_line a line)). cbn zeta in IH.
    destruct IH as (I1 & I2 & I3 & I4).
    unfold scan_code_line in I1, I2, I3, I4 |- *.
    destruct (String.prefix "def " (Py.strip line)).
    + destruct (Py.contains "test" (str_lower line));
        cbn [function_count estimated_test_cases has_solution_function
             has_test_function List.length] in *;
        rewrite I4; repeat split; try lia;
        destruct (has_solution_function a), (has_test_function a);
        cbn [orb]; try reflexivity; symmetry; apply Z.ltb_lt; lia.
    + destruct (String.prefix "if __name__" (Py.strip line));
        [|destruct (_ || _)];
        cbn [function_count estimated_test_cases has_solution_function
             has_test_function List.length] in *;
        rewrite I4; repeat split; try lia.
Qed.

(** X22.  The structure analysis counts as functions exactly the lines
    that start, after stripping, with [def]; it reports a solution or a
    test function exactly when that count is positive; and no line is
    counted both as a function and as a test case, so the two counts
    together never exceed the number of lines. *)
Theorem code_structure_counts_defs (code : string) :
  let analysis := _analyze_code_structure code in
  let lines := Py.split Py.newline code in
  function_count analysis
  = Z.of_nat (List.length
                (filter (fun line => String.prefix "def " (Py.strip line)) lines))
  /\ has_solution_function analysis || has_test_function analysis
     = (0 <? function_count analysis)
  /\ 0 <= estimated_test_cases analysis
  /\ function_count analysis + estimated_test_cases analysis
     <= Z.of_nat (List.length lines).
Proof.
  intros analysis lines. subst analysis. unfold _analyze_code_structure.
  fold lines.
  pose proof (scan_code_lines_spec lines
                {| has_solution_function := false; has_test_function := false;
                   has_main_block := false; function_count := 0;
                   estimated_test_cases := 0 |}) as H.
  cbn zeta in H.
  cbn [function_count estimated_test_cases has_solution_function
       has_test_function orb] in H.
  destruct H as (H1 & H2 & H3 & H4).
  rewrite H4, H1. repeat split; try lia.
Qed.

End CodeStructure.

(** * Paths inside the workspace *)

(** X23.  For file and directory names that are relative and have no
    [..] component, the paths the read, write and run capabilities
    address resolve inside the workspace root, whatever the root. *)
Theorem plain_names_stay_in_workspace (workspace_path filename directory : string) :
  plain filename = true ->
  plain directory = true ->
  OsPath.within workspace_path
    (ReadFileTool.file_path workspace_path filename directory) = true
  /\ OsPath.within workspace_path
       (WriteFileTool.file_path workspace_path filename directory) = true
  /\ OsPath.within workspace_path
       (ExecutionTool.script_path workspace_path filename directory) = true.
Proof. apply plain_paths_stay_within. Qed.

Lemma plain_names_stay_in_workspace_witness :
  OsPath.within "workspace"
    (ReadFileTool.file_path "workspace" "answer.py" "solutions/v2") = true
  /\ OsPath.within "workspace"
       (WriteFileTool.file_path "workspace" "answer.py" "solutions/v2") = true
  /\ OsPath.within "workspace"
       (ExecutionTool.script_path "workspace" "answer.py" "solutions/v2") = true.
Proof.
  apply (plain_names_stay_in_workspace "workspace" "answer.py" "solutions/v2");
    reflexivity.
Defined.

(** * The scaled component of the score *)

(** ** Values through a rounding *)

Lemma shr_1_value (mrs : shr_record) :
  0 <= shr_m mrs -> shr_m (shr_1 mrs) = shr_m mrs / 2.
Proof.
  destruct mrs as [m r s]. cbn [shr_m].
  destruct m as [|[p|p|]|p]; intros H; try lia;
    rewrite <- Z.div2_div; reflexivity.
Qed.

Lemma iter_shr_1_value (p : positive) :
  forall mrs : shr_record,
    0 <= shr_m mrs ->
    shr_m (iter_pos shr_1 p mrs) = shr_m mrs / 2 ^ Zpos p.
Proof.
  assert (Hpow : forall q : positive, 0 < 2 ^ Zpos q)
    by (intros q; apply Z.pow_pos_nonneg; lia).
  induction p as [p IH|p IH|]; intros mrs Hm; cbn [iter_pos].
  - destruct (shr_1_digits mrs Hm) as [H1 _].
    destruct (iter_shr_1_digits p _ H1) as [H2 _].
    rewrite (IH _ H2), (IH _ H1), (shr_1_value _ Hm).
    pose proof (Hpow p).
    rewrite !Z.div_div by lia.
    replace (Z.pos p~1) with (1 + Z.pos p + Z.pos p) by lia.
    rewrite !Z.pow_add_r by lia. rewrite Z.pow_1_r. f_equal. lia.
  - destruct (iter_shr_1_digits p _ Hm) as [H2 _].
    rewrite (IH _ H2), (IH _ Hm).
    pose proof (Hpow p).
    rewrite !Z.div_div by lia.
    replace (Z.pos p~0) with (Z.pos p + Z.pos p) by lia.
    rewrite !Z.pow_add_r by lia. reflexivity.
  - rewrite (shr_1_value _ Hm). reflexivity.
Qed.

Lemma shr_1_double (k : Z) :
  0 <= k ->
  shr_1 {| shr_m := 2 * k; shr_r := false; shr_s := false |}
  = {| shr_m := k; shr_r := false; shr_s := false |}.
Proof. destruct k; intros H; try lia; reflexivity. Qed.

(** Shifting out zeros only is exact. *)
Lemma iter_shr_1_exact (p : positive) :
  forall k : Z,
    0 <= k ->
    iter_pos shr_1 p {| shr_m := k * 2 ^ Zpos p; shr_r := false; shr_s := false |}
    = {| shr_m := k; shr_r := false; shr_s := false |}.
Proof.
  assert (Hpow : forall q : positive, 0 < 2 ^ Zpos q)
    by (intros q; apply Z.pow_pos_nonneg; lia).
  induction p as [p IH|p IH|]; intros k Hk; cbn [iter_pos].
  - pose proof (Hpow p).
    replace (k * 2 ^ Z.pos p~1) with (2 * (k * 2 ^ Zpos p * 2 ^ Zpos p)).
    2: { replace (Z.pos p~1) with (1 + Z.pos p + Z.pos p) by lia.
         rewrite !Z.pow_add_r by lia. lia. }
    rewrite shr_1_double by nia.
    rewrite IH by nia. apply IH, Hk.
  - pose proof (Hpow p).
    replace (k * 2 ^ Z.pos p~0) with (k * 2 ^ Zpos p * 2 ^ Zpos p).
    2: { replace (Z.pos p~0) with (Z.pos p + Z.pos p) by lia.
         rewrite !Z.pow_add_r by lia. lia. }
    rewrite IH by nia. apply IH, Hk.
  - replace (k * 2 ^ 1) with (2 * k) by lia. apply shr_1_double, Hk.
Qed.

(** Aligning a mantissa divides it by the power of two of the shift. *)
Lemma shr_fexp_value (m e : Z) (l : location) :
  0 <= m ->
  let e1 := Z.max e (fexp Float64.prec Float64.emax (Zdigits2 m + e)) in
  snd (shr_fexp Float64.prec Float64.emax m e l) = e1
  /\ shr_m (fst (shr_fexp Float64.prec Float64.emax m e l)) = m / 2 ^ (e1 - e).
Proof.
  intros Hm e1. subst e1. unfold shr_fexp, shr.
  set (F := fexp Float64.prec Float64.emax (Zdigits2 m + e)).
  pose proof (shr_record_of_loc_m m l) as Hrec.
  destruct (F - e) as [|p|p] eqn:Hn; cbn [fst snd].
  - replace (Z.max e F - e) with 0 by lia. rewrite Hrec, Z.div_1_r. split; [lia|reflexivity].
  - rewrite iter_shr_1_value by (rewrite Hrec; exact Hm).
    rewrite Hrec. replace (Z.max e F - e) with (Z.pos p) by lia.
    split; [lia|reflexivity].
  - replace (Z.max e F - e) with 0 by lia. rewrite Hrec, Z.div_1_r. split; [lia|reflexivity].
Qed.

Lemma shr_fexp_exact (k e n : Z) :
  0 <= k -> 0 <= n ->
  Z.max e (fexp Float64.prec Float64.emax (Zdigits2 (k * 2 ^ n) + e)) = e + n ->
  fst (shr_fexp Float64.prec Float64.emax (k * 2 ^ n) e loc_Exact)
  = {| shr_m := k; shr_r := false; shr_s := false |}.
Proof.
  intros Hk Hn He. unfold shr_fexp, shr.
  set (F := fexp Float64.prec Float64.emax (Zdigits2 (k * 2 ^ n) + e)) in *.
  cbn [shr_record_of_loc].
  destruct (F - e) as [|p|p] eqn:Hd; cbn [fst].
  - replace n with 0 by lia. rewrite Z.mul_1_r. reflexivity.
  - replace n with (Z.pos p) by lia. apply iter_shr_1_exact, Hk.
  - replace n with 0 by lia. rewrite Z.mul_1_r. reflexivity.
Qed.

Lemma Zdigits2_scaled (m v k : Z) :
  0 <= m <= v * 2 ^ k -> 0 < v -> 0 <= k -> Zdigits2 m <= Zdigits2 v + k.
Proof.
  intros [Hm Hle] Hv Hk.
  destruct v as [|pv|pv]; try lia.
  destruct (Zdigits2_bounds pv) as [Hlt _].
  pose proof (Zdigits2_nonneg (Zpos pv)).
  apply Zdigits2_le; [|lia].
  rewrite Z.pow_add_r by lia.
  assert (0 < 2 ^ k) by (apply Z.pow_pos_nonneg; lia).
  nia.
Qed.

(** Rounding does not cross a bound that is itself representable: a
    mantissa below [v * 2 ^ ev] (at the scale of its exponent) rounds to a
    zero or a finite float not above it, and the bound itself, given
    exactly, is returned exactly. *)
Lemma binary_round_aux_below (s : bool) (m e : Z) (l : location) (v ev : Z) :
  0 <= m -> 0 < v -> Zdigits2 v <= 53 -> -1074 <= ev <= 971 ->
  Z.max e (fexp Float64.prec Float64.emax (Zdigits2 m + e)) <= ev ->
  m < v * 2 ^ (ev - e) \/ (m = v * 2 ^ (ev - e) /\ l = loc_Exact) ->
  match binary_round_aux Float64.prec Float64.emax s m e l with
  | S754_zero _ => m < v * 2 ^ (ev - e)
  | S754_finite s' m' e' =>
      s' = s /\ e' <= ev /\ Zpos m' <= v * 2 ^ (ev - e')
      /\ (m = v * 2 ^ (ev - e) -> Zpos m' = v * 2 ^ (ev - e'))
  | _ => False
  end.
Proof.
  intros Hm Hv Hdv Hev He1 Hbound. unfold binary_round_aux.
  pose proof (shr_fexp_value m e l Hm) as H1. cbv zeta in H1.
  set (e1 := Z.max e (fexp Float64.prec Float64.emax (Zdigits2 m + e))) in *.
  set (n := e1 - e).
  assert (Hn : 0 <= n) by (subst n e1; lia).
  set (W1 := v * 2 ^ (ev - e1)).
  assert (Hpn : 0 < 2 ^ n) by (apply Z.pow_pos_nonneg; lia).
  assert (Hp1 : 0 < 2 ^ (ev - e1)) by (apply Z.pow_pos_nonneg; lia).
  assert (HW : v * 2 ^ (ev - e) = W1 * 2 ^ n).
  { subst W1 n. rewrite <- Z.mul_assoc, <- Z.pow_add_r by lia.
    f_equal. f_equal. lia. }
  assert (HW1 : 0 < W1) by (subst W1; nia).
  assert (Hexact : m = v * 2 ^ (ev - e) -> l = loc_Exact ->
                   fst (shr_fexp Float64.prec Float64.emax m e l)
                   = {| shr_m := W1; shr_r := false; shr_s := false |}).
  { intros Em El. subst l. rewrite Em, HW.
    apply shr_fexp_exact; [lia|exact Hn|].
    rewrite <- HW, <- Em. fold e1. subst n. lia. }
  destruct (shr_fexp Float64.prec Float64.emax m e l) as [mrs' e'] eqn:E1.
  cbn [fst snd] in H1, Hexact. destruct H1 as [He' Hm0]. subst e'.
  fold n in Hm0.
  set (m1 := round_nearest_even (shr_m mrs') (loc_of_shr_record mrs')).
  assert (Hm0' : 0 <= shr_m mrs').
  { rewrite Hm0. apply Z.div_pos; lia. }
  assert (Hm1 : 0 <= m1 <= W1
                /\ (m = v * 2 ^ (ev - e) -> m1 = W1)
                /\ (m1 = 0 -> m < v * 2 ^ (ev - e))).
  { pose proof (round_nearest_even_bounds (shr_m mrs') (loc_of_shr_record mrs'))
      as Hr. fold m1 in Hr.
    destruct Hbound as [Hlt|[Em El]].
    - assert (shr_m mrs' < W1).
      { rewrite Hm0. apply Z.div_lt_upper_bound; [lia|]. rewrite HW in Hlt. lia. }
      repeat split; try lia.
    - specialize (Hexact Em El). subst mrs'. subst m1. cbn.
      repeat split; try lia. }
  destruct Hm1 as (Hm1 & Hm1eq & Hm1z).
  pose proof (shr_fexp_value m1 e1 loc_Exact ltac:(lia)) as H2. cbv zeta in H2.
  set (e2 := Z.max e1 (fexp Float64.prec Float64.emax (Zdigits2 m1 + e1))) in *.
  assert (Hd1 : Zdigits2 m1 <= Zdigits2 v + (ev - e1)).
  { apply Zdigits2_scaled; [|exact Hv|lia]. exact Hm1. }
  assert (He2 : e1 <= e2 <= ev).
  { subst e2. rewrite fexp_eq. lia. }
  destruct (shr_fexp Float64.prec Float64.emax m1 e1 loc_Exact) as [mrs'' e''] eqn:E2.
  cbn [fst snd] in H2. destruct H2 as [He'' Hm2]. subst e''.
  set (n2 := e2 - e1) in *.
  assert (Hpn2 : 0 < 2 ^ n2) by (apply Z.pow_pos_nonneg; subst n2; lia).
  assert (Hp2 : 0 < 2 ^ (ev - e2)) by (apply Z.pow_pos_nonneg; lia).
  assert (HW2 : W1 = v * 2 ^ (ev - e2) * 2 ^ n2).
  { subst W1 n2. rewrite <- Z.mul_assoc, <- Z.pow_add_r by lia.
    f_equal. f_equal. lia. }
  assert (Hm2le : 0 <= shr_m mrs'' <= v * 2 ^ (ev - e2)).
  { rewrite Hm2. split; [apply Z.div_pos; lia|].
    apply Z.div_le_upper_bound; [lia|]. rewrite HW2 in Hm1. lia. }
  assert (Hm2eq : m = v * 2 ^ (ev - e) -> shr_m mrs'' = v * 2 ^ (ev - e2)).
  { intros Em. rewrite Hm2, (Hm1eq Em), HW2. apply Z.div_mul. lia. }
  assert (Hm2z : shr_m mrs'' = 0 -> m < v * 2 ^ (ev - e)).
  { intros Ez. destruct Hbound as [Hlt|[Em _]]; [exact Hlt|].
    rewrite (Hm2eq Em) in Ez. nia. }
  destruct (shr_m mrs'') as [|m2|m2] eqn:Em2; [auto| |lia].
  replace (e2 <=? Float64.emax - Float64.prec) with true
    by (symmetry; apply Z.leb_le; unfold Float64.emax, Float64.prec; lia).
  repeat split; lia.
Qed.

(** ** The pass rate and its forty points *)

(** The quotient of two positive ints, the first at most the second, is
    at most 1, and exactly 1 when they are equal. *)
Lemma truediv_at_most_one (p t : positive) :
  (p <= t)%positive ->
  match SFdiv Float64.prec Float64.emax
          (S754_finite false p 0) (S754_finite false t 0) with
  | S754_zero _ => (p < t)%positive
  | S754_finite s m e =>
      s = false /\ e <= 0 /\ Zpos m <= 2 ^ (- e)
      /\ (p = t -> Zpos m = 2 ^ (- e))
  | _ => False
  end.
Proof.
  intros Hpt. apply Pos2Z.pos_le_pos in Hpt.
  unfold SFdiv, SFdiv_core_binary.
  set (e' := Z.min _ _).
  assert (He' : e' <= 0) by (subst e'; lia).
  set (s := 0 - 0 - e').
  set (m' := match s with Z.pos _ => Z.shiftl (Z.pos p) s | 0 => Z.pos p | Z.neg _ => 0 end).
  assert (Hs : 0 <= s) by (subst s; lia).
  assert (Hm' : m' = Zpos p * 2 ^ s).
  { subst m'. clearbody s. destruct s as [|q|q].
    - rewrite Z.pow_0_r. lia.
    - rewrite Z.shiftl_mul_pow2 by lia. reflexivity.
    - lia. }
  destruct (Z.div_eucl m' (Zpos t)) as [q r] eqn:Ediv.
  assert (Hq : q = m' / Zpos t) by (unfold Z.div; rewrite Ediv; reflexivity).
  assert (Hr : r = m' mod Zpos t) by (unfold Z.modulo; rewrite Ediv; reflexivity).
  assert (Hpow : 0 < 2 ^ s) by (apply Z.pow_pos_nonneg; lia).
  assert (Hq0 : 0 <= q) by (subst q; apply Z.div_pos; nia).
  assert (Hq1 : q <= 2 ^ s).
  { subst q. apply Z.div_le_upper_bound; [lia|]. rewrite Hm'. nia. }
  assert (Hd : Zdigits2 q <= s + 1).
  { apply Zdigits2_le; [|lia]. rewrite Z.pow_add_r by lia. lia. }
  assert (Hcases : q < 1 * 2 ^ (0 - e')
                   \/ (q = 1 * 2 ^ (0 - e')
                       /\ new_location (Zpos t) r = loc_Exact)).
  { replace (0 - e') with s by (subst s; lia). rewrite Z.mul_1_l.
    destruct (Z.eq_dec (Zpos p) (Zpos t)) as [E|E].
    - right. rewrite Hm', E in Hq, Hr.
      rewrite Z.mul_comm, Z.div_mul in Hq by lia.
      rewrite Z.mul_comm, Z.mod_mul in Hr by lia.
      split; [exact Hq|]. subst r. unfold new_location.
      destruct (Z.even (Z.pos t)); reflexivity.
    - left. subst q. apply Z.div_lt_upper_bound; [lia|]. rewrite Hm'. nia. }
  pose proof (binary_round_aux_below (xorb false false) q e'
                (new_location (Zpos t) r) 1 0 Hq0 ltac:(lia)
                ltac:(cbn; lia) ltac:(lia)
                ltac:(rewrite fexp_eq; subst s; lia) Hcases) as H.
  rewrite Z.mul_1_l in H.
  replace (0 - e') with s in H by (subst s; lia).
  destruct (binary_round_aux _ _ _ q e' _) as [ | | |s' m e]; try contradiction.
  - destruct (Pos.eq_dec p t) as [->|]; [|lia].
    exfalso. rewrite Hm' in Hq.
    rewrite Z.mul_comm, Z.div_mul in Hq by lia. lia.
  - destruct H as (-> & He & Hle & Heq). rewrite Z.mul_1_l in Hle, Heq.
    rewrite Z.sub_0_l in Hle, Heq.
    repeat split; try assumption.
    intros ->. apply Heq. rewrite Hm' in Hq.
    rewrite Z.mul_comm, Z.div_mul in Hq by lia. exact Hq.
Qed.

(** Forty times a float that is at most 1 is at most 40, and forty times
    1 is 40. *)
Lemma mul_int_40_at_most_40 (s : bool) (m : positive) (e : Z) :
  e <= 0 -> Zpos m <= 2 ^ (- e) ->
  match Float64.mul_int 40 (S754_finite s m e) with
  | S754_finite s' m' e' =>
      s' = s /\ e' <= -47
      /\ Zpos m' <= 5629499534213120 * 2 ^ (-47 - e')
      /\ (Zpos m = 2 ^ (- e) -> Zpos m' = 5629499534213120 * 2 ^ (-47 - e'))
  | S754_zero _ => Zpos m < 2 ^ (- e)
  | _ => False
  end.
Proof.
  intros He Hm. unfold Float64.mul_int.
  assert (Float64.of_Z 40 = S754_finite false 5629499534213120 (-47)) as ->
    by (vm_compute; reflexivity).
  unfold SFmul. rewrite Pos2Z.inj_mul.
  assert (Hpow : 0 < 2 ^ (- e)) by (apply Z.pow_pos_nonneg; lia).
  assert (Hd : Zdigits2 (5629499534213120 * Z.pos m) <= 53 + - e).
  { apply (Zdigits2_scaled _ 5629499534213120); [nia|lia|lia]. }
  assert (Hcases :
    5629499534213120 * Z.pos m < 5629499534213120 * 2 ^ (-47 - (-47 + e))
    \/ (5629499534213120 * Z.pos m = 5629499534213120 * 2 ^ (-47 - (-47 + e))
        /\ loc_Exact = loc_Exact)).
  { replace (-47 - (-47 + e)) with (- e) by lia.
    destruct (Z.eq_dec (Zpos m) (2 ^ (- e))) as [E|E]; [right|left]; [split|];
      try reflexivity; nia. }
  pose proof (binary_round_aux_below (xorb false s)
                (5629499534213120 * Z.pos m) (-47 + e) loc_Exact
                5629499534213120 (-47) ltac:(lia) ltac:(lia)
                ltac:(cbn; lia) ltac:(lia)
                ltac:(rewrite fexp_eq; lia) Hcases) as H.
  replace (-47 - (-47 + e)) with (- e) in H by lia.
  destruct (binary_round_aux _ _ _ _ _ _) as [ | | |s' m' e']; try contradiction;
    [nia|].
  destruct H as (-> & He' & Hle & Heq).
  repeat split; try assumption.
  intros E. apply Heq. rewrite E. reflexivity.
Qed.

(** The scaled component: defined, between 0 and 40, 0 for no passed
    test and 40 when every test passed. *)
Lemma scaled_points_range (passed total : Z) :
  0 <= passed <= total -> 0 < total ->
  exists pass_rate points,
    Float64.truediv passed total = Ok pass_rate
    /\ Float64.to_int (Float64.mul_int 40 pass_rate) = Ok points
    /\ 0 <= points <= 40
    /\ (passed = 0 -> points = 0)
    /\ (passed = total -> points = 40).
Proof.
  intros [Hp Hpt] Ht. unfold Float64.truediv.
  destruct total as [|t|t]; try lia.
  destruct passed as [|p|p]; try lia.
  - eexists _, _. split; [reflexivity|]. split; [vm_compute; reflexivity|].
    repeat split; lia.
  - change (Z.pos p <? 0) with false. change (Z.pos t <? 0) with false.
    cbn [Z.abs Z.to_pos].
    pose proof (truediv_at_most_one p t ltac:(lia)) as Hq.
    destruct (SFdiv _ _ _ _) as [s|s| |s m e] eqn:E; try contradiction.
    + eexists _, _. split; [reflexivity|].
      split; [destruct s; vm_compute; reflexivity|].
      repeat split; lia.
    + destruct Hq as (-> & He & Hle & Heq).
      pose proof (mul_int_40_at_most_40 false m e He Hle) as Hmul.
      exists (S754_finite false m e).
      destruct (Float64.mul_int 40 (S754_finite false m e))
        as [s'|s'| |s' m' e']; try contradiction.
      * eexists. split; [reflexivity|]. split; [reflexivity|].
        repeat split; lia.
      * destruct Hmul as (-> & He' & Hle' & Heq').
        destruct e' as [|pe|pe]; try lia.
        cbn [Float64.to_int]. rewrite Z.shiftr_div_pow2 by lia.
        eexists. split; [reflexivity|]. split; [reflexivity|].
        assert (Hpow : 0 < 2 ^ (-47 - Z.neg pe)) by (apply Z.pow_pos_nonneg; lia).
        assert (Hsplit : 2 ^ (- Z.neg pe) = 140737488355328 * 2 ^ (-47 - Z.neg pe)).
        { replace (- Z.neg pe) with (47 + (-47 - Z.neg pe)) by lia.
          rewrite Z.pow_add_r by lia. reflexivity. }
        repeat split.
        -- apply Z.div_pos; lia.
        -- apply Z.div_le_upper_bound; [lia|]. rewrite Hsplit. lia.
        -- lia.
        -- intros Ept. injection Ept as ->.
           rewrite (Heq' (Heq eq_refl)), Hsplit.
           replace (5629499534213120 * 2 ^ (-47 - Z.neg pe))
             with (40 * (140737488355328 * 2 ^ (-47 - Z.neg pe))) by lia.
           apply Z.div_mul. lia.
Qed.

(** ** The score as a sum *)

(** X24.  With counts as a test run produces them
    ([0 <= passed <= total]) the score is the plain sum of its five
    components, the cap at 100 never being needed: 30 for exit status 0,
    10 for output, 10 for detected tests, a scaled part between 0 and 40
    (0 when no test passed or none was counted, 40 when all passed), 10
    for an empty error stream.  So a run with a non-zero exit status
    scores at most 70, and 100 is reached only with exit status 0. *)
Theorem quality_score_is_sum_of_components (exit_code : Z)
    (stdout stderr : string) (test_results : TestResults) :
  let total := get_or (total_tests test_results) 0 in
  let passed := get_or (passed_tests test_results) 0 in
  let detected := get_or (has_test_output test_results) false in
  0 <= passed <= total ->
  exists q scaled,
    AgentState._calculate_quality_score exit_code stdout stderr test_results = Ok q
    /\ q = exit_points exit_code + output_points stdout
           + (if detected then 10 + scaled else 0) + clean_points stderr
    /\ 0 <= scaled <= 40
    /\ (passed = 0 -> scaled = 0)
    /\ (0 < total -> passed = total -> detected = true -> scaled = 40)
    /\ 0 <= q <= 100
    /\ (exit_code <> 0 -> q <= 70)
    /\ (q = 100 -> exit_code = 0).
Proof.
  intros total passed detected Hcounts.
  unfold AgentState._calculate_quality_score, bind.
  fold total passed detected.
  unfold exit_points, output_points, clean_points.
  assert (Hexit : exit_code <> 0 -> (exit_code =? 0) = false)
    by (intros H; apply Z.eqb_neq, H).
  destruct detected.
  - destruct (total >? 0) eqn:Ht.
    + destruct (scaled_points_range passed total Hcounts ltac:(lia))
        as (pass_rate & points & -> & -> & Hrange & Hzero & Hfull).
      exists (Z.min 100
                ((if exit_code =? 0 then 0 + 30 else 0)
                 + (if Py.truthy (Py.strip stdout) then 10 else 0) + 10 + points
                 + (if negb (Py.truthy (Py.strip stderr)) then 10 else 0))), points.
      destruct (exit_code =? 0) eqn:Ee; destruct (Py.truthy (Py.strip stdout));
        destruct (Py.truthy (Py.strip stderr)); cbn [negb];
        (split; [f_equal; lia|]);
        repeat match goal with |- _ /\ _ => split end;
        try lia; auto; try (intros H; specialize (Hexit H); discriminate).
    + exists (Z.min 100
                ((if exit_code =? 0 then 0 + 30 else 0)
                 + (if Py.truthy (Py.strip stdout) then 10 else 0) + 10
                 + (if negb (Py.truthy (Py.strip stderr)) then 10 else 0))), 0.
      destruct (exit_code =? 0) eqn:Ee; destruct (Py.truthy (Py.strip stdout));
        destruct (Py.truthy (Py.strip stderr)); cbn [negb];
        (split; [f_equal; lia|]);
        repeat match goal with |- _ /\ _ => split end;
        try lia; try (intros H; specialize (Hexit H); discriminate).
  - exists (Z.min 100
              ((if exit_code =? 0 then 0 + 30 else 0)
               + (if Py.truthy (Py.strip stdout) then 10 else 0)
               + (if negb (Py.truthy (Py.strip stderr)) then 10 else 0))), 0.
    destruct (exit_code =? 0) eqn:Ee; destruct (Py.truthy (Py.strip stdout));
      destruct (Py.truthy (Py.strip stderr)); cbn [negb];
      (split; [f_equal; lia|]);
      repeat match goal with |- _ /\ _ => split end;
      try lia; try discriminate;
      try (intros H; specialize (Hexit H); discriminate).
Qed.

Lemma quality_score_is_sum_of_components_witness :
  let test_results :=
    {| total_tests := Some 3; passed_tests := Some 3; failed_tests := Some 0;
       has_test_output := Some true |} in
  exists q scaled,
    AgentState._calculate_quality_score 1 "3 passed" EmptyString test_results = Ok q
    /\ q = exit_points 1 + output_points "3 passed"
           + (if true then 10 + scaled else 0) + clean_points EmptyString
    /\ 0 <= scaled <= 40
    /\ (3 = 0 -> scaled = 0)
    /\ (0 < 3 -> 3 = 3 -> true = true -> scaled = 40)
    /\ 0 <= q <= 100
    /\ (1 <> 0 -> q <= 70)
    /\ (q = 100 -> 1 = 0).
Proof.
  apply (quality_score_is_sum_of_components 1 "3 passed" EmptyString
           {| total_tests := Some 3; passed_tests := Some 3;
              failed_tests := Some 0; has_test_output := Some true |}).
  simpl. lia.
Defined.

(** * The summary of the runs *)






(** * Decisions the adapter makes up *)

Section MadeUpDecisions.
Context {RT : PyRuntime}.
Variable body : AgentState.t -> string -> Dict.t -> result ToolResult.t.
Variable llm : AutonomousToolSelector.llm.

Import FullyAutonomousCodingAgent.

Lemma fallback_cannot_run (state : AgentState.t) :
  cannot_run (keyword_called llm body)
    (AutonomousToolSelector._get_fallback_decision state).
Proof.
  unfold AutonomousToolSelector._get_fallback_decision, cannot_run.
  destruct (AgentState.files_created state) as [|first_file files].
  { right. split; [reflexivity|]. eexists _, _.
    split; [reflexivity|]. split; [reflexivity|].
    intros state'. eexists. split; reflexivity. }
  destruct (match AgentState.execution_results state with
            | [] => _ | _ :: _ => false end).
  { right. split; [reflexivity|]. eexists _, _.
    split; [reflexivity|]. split; [reflexivity|].
    intros state'. eexists. split; reflexivity. }
  destruct (_ <? 70).
  { right. split; [reflexivity|]. eexists _, _.
    split; [reflexivity|]. split; [reflexivity|].
    intros state'. eexists. split; reflexivity. }
  destruct (_ || _).
  { left. reflexivity. }
  right. split; [reflexivity|]. eexists _, _.
  split; [reflexivity|]. split; [reflexivity|].
  intros state'. eexists. split; reflexivity.
Qed.

Lemma interpreted_cannot_run (response : string) (state : AgentState.t) :
  cannot_run (keyword_called llm body)
    (AutonomousToolSelector._interpret_text_response tools response state).
Proof.
  unfold AutonomousToolSelector._interpret_text_response.
  destruct (existsb _ AutonomousToolSelector.stop_indicators).
  { left. reflexivity. }
  destruct (List.find _ tools) as [tool_name|] eqn:E;
    [|apply fallback_cannot_run].
  apply find_some in E. destruct E as [Hin _].
  right. split; [reflexivity|]. eexists _, _.
  split; [reflexivity|]. split; [reflexivity|].
  intros state'. unfold tools in Hin. cbn [In] in Hin.
  destruct Hin as [<-|[<-|[<-|[<-|[<-|[]]]]]]; eexists; split; reflexivity.
Qed.

End MadeUpDecisions.

(** X26.  A decision that the adapter makes up itself, by the fallback
    tree or by reading a reply as text, can stop the session but can
    never run a capability: the parameters it carries do not fit the
    capability's [execute] method (a required parameter is missing or a
    keyword is unexpected), so the call raises [TypeError] before the
    capability's body runs. *)
Theorem made_up_decisions_never_run_a_capability {RT : PyRuntime}
    (body : AgentState.t -> string -> Dict.t -> result ToolResult.t)
    (llm : AutonomousToolSelector.llm) (response : string)
    (state : AgentState.t) :
  cannot_run (keyword_called llm body)
    (AutonomousToolSelector._get_fallback_decision state)
  /\ cannot_run (keyword_called llm body)
       (AutonomousToolSelector._interpret_text_response
          FullyAutonomousCodingAgent.tools response state).
Proof.
  split.
  - apply fallback_cannot_run.
  - apply interpreted_cannot_run.
Qed.

(** * Recorded artifacts *)

Lemma dict_get_key (k : string) (v : json) (d : Dict.t) :
  Dict.get k d = Some v -> In k (map fst d).
Proof.
  induction d as [|[k' v'] d IH]; [discriminate|].
  cbn [Dict.get map fst]. destruct (String.eqb k k') eqn:E.
  - apply String.eqb_eq in E. subst k'. intros _. left. reflexivity.
  - intros H. right. apply IH, H.
Qed.

(** Arguments that bind name parameters of the method only. *)
Lemma bind_arguments_keys (s : Capability.signature) (kwargs : Dict.t)
    (k : string) (v : json) :
  Capability.bind_arguments s kwargs = Ok tt ->
  Dict.get k kwargs = Some v ->
  In k (Capability.required s ++ Capability.optional s).
Proof.
  unfold Capability.bind_arguments.
  destruct (List.find _ (map fst kwargs)) eqn:E; [discriminate|].
  intros _ Hk. apply dict_get_key in Hk.
  pose proof (find_none _ _ E k Hk) as Hnone. cbn beta in Hnone.
  apply negb_false_iff in Hnone. apply existsb_eqb_true in Hnone. exact Hnone.
Qed.

Lemma parsing_files {RT : PyRuntime} (llm_response : string)
    (state : AgentState.t) :
  exists decision state',
    AutonomousToolSelector._parse_llm_decision FullyAutonomousCodingAgent.tools
      llm_response state
    = Ok (decision, state')
    /\ AgentState.files_created state' = AgentState.files_created state.
Proof.
  destruct agent_tools_registered as (Hthink & Hexec & Hgen).
  destruct (parse_llm_decision_spec FullyAutonomousCodingAgent.tools llm_response
              state Hthink Hexec Hgen) as (decision & state' & E & _ & Hthought).
  exists decision, state'. split; [exact E|].
  destruct Hthought as [->|[thought ->]]; reflexivity.
Qed.

Section RecordedArtifacts.
Context {RT : PyRuntime}.

Import FullyAutonomousCodingAgent.

Lemma files_after_decision (env : Environment) (state : AgentState.t) :
  AgentState.files_created (snd (_make_autonomous_decision env state))
  = AgentState.files_created state.
Proof.
  unfold _make_autonomous_decision, AutonomousToolSelector.decide_next_action, bind.
  destruct (AgentState.get_recent_actions 3 state); [|reflexivity].
  destruct (llm_client env state) as [llm_response|]; [|reflexivity].
  destruct (parsing_files llm_response state) as (decision & state' & -> & Hfiles).
  destruct (getitem "action" decision) as [action|]; [|exact Hfiles].
  destruct (json_is_str action "use_tool").
  - destruct (getitem "tool" decision); [|exact Hfiles].
    destruct (getitem "reasoning" decision); [|exact Hfiles].
    destruct (getitem "parameters" decision); exact Hfiles.
  - destruct (getitem "reasoning" decision); exact Hfiles.
Qed.

End RecordedArtifacts.

Lemma files_add_issue (issue : string) (state : AgentState.t) :
  AgentState.files_created (AgentState.add_issue issue state)
  = AgentState.files_created state.
Proof. unfold AgentState.add_issue. destruct (existsb _ _); reflexivity. Qed.

Lemma files_add_execution_result (filename : string) (exit_code : Z)
    (stdout stderr : string) (test_results : TestResults)
    (state state' : AgentState.t) :
  AgentState.add_execution_result filename exit_code stdout stderr test_results state
  = Ok state' ->
  AgentState.files_created state' = AgentState.files_created state.
Proof.
  unfold AgentState.add_execution_result, bind.
  destruct (AgentState._calculate_quality_score _ _ _ _) as [q|]; [|discriminate].
  destruct (q >? _); intros H; injection H as <-; reflexivity.
Qed.

Section KeywordCalls.
Context {RT : PyRuntime}.
Variable body : AgentState.t -> string -> Dict.t -> result ToolResult.t.
Variable llm : AutonomousToolSelector.llm.

Import FullyAutonomousCodingAgent.

(** A successful [write_file] call had no [type] among its arguments. *)
Lemma write_file_call_has_no_type (tool_name parameters : json)
    (state : AgentState.t) (envelope : ToolResult.t) :
  call_tool (keyword_called llm body) tool_name parameters state = Ok envelope ->
  json_is_str tool_name "write_file" = true ->
  exists kwargs,
    parameters = JObj kwargs /\ param_str "type" "unknown" kwargs = "unknown".
Proof.
  intros Hcall Hname.
  destruct tool_name as [ | | |name| | ]; try discriminate.
  cbn [json_is_str] in Hname. apply String.eqb_eq in Hname. subst name.
  cbn in Hcall.
  destruct parameters as [ | | | | |kwargs]; try discriminate.
  exists kwargs. split; [reflexivity|].
  unfold Capability.call, bind in Hcall. cbn [Capability.signature_of String.eqb Ascii.eqb Bool.eqb] in Hcall.
  destruct (Capability.bind_arguments Capability.write_file kwargs) as [[]|] eqn:Hb;
    [|discriminate].
  unfold param_str.
  destruct (Dict.get "type" kwargs) as [v|] eqn:Ht; [|reflexivity].
  pose proof (bind_arguments_keys _ _ _ _ Hb Ht) as Hin.
  cbn in Hin. repeat (destruct Hin as [Hin|Hin]; [discriminate|]). contradiction.
Qed.

Lemma untyped_after_dispatch (decision : json) (state : AgentState.t) :
  untyped_artifacts state ->
  untyped_artifacts
    (snd (_execute_tool_decision (keyword_called llm body) decision state)).
Proof.
  intros Hu. unfold _execute_tool_decision.
  destruct (bind _ _) as [[tool_name parameters]|]; [|exact Hu].
  destruct (call_tool (keyword_called llm body) tool_name parameters state)
    as [tool_result|e] eqn:Hcall; cbn [snd].
  2: { unfold untyped_artifacts. rewrite files_add_issue. exact Hu. }
  destruct (_process_tool_result _ _ _ _) as [state'|e] eqn:Hp; cbn [snd].
  2: { unfold untyped_artifacts. rewrite files_add_issue. exact Hu. }
  assert (Hu' : untyped_artifacts state').
  { unfold _process_tool_result in Hp.
    destruct (negb _); [injection Hp as <-; exact Hu|].
    destruct (ToolResult.result tool_result) as [payload|]; [|discriminate].
    destruct (json_is_str tool_name "think").
    { destruct (Py.truthy _); injection Hp as <-; exact Hu. }
    destruct (json_is_str tool_name "generate_code").
    { injection Hp as <-; exact Hu. }
    destruct (json_is_str tool_name "write_file") eqn:Hw.
    { destruct (write_file_call_has_no_type _ _ _ _ Hcall Hw)
        as (kwargs & -> & Htype).
      destruct (ToolResult.file_path payload); [|discriminate].
      injection Hp as <-. unfold untyped_artifacts.
      cbn [AgentState.add_file AgentState.files_created
           AgentState.set_files_created AgentState.update_last_tool_call
           AgentState.set_calls].
      apply Forall_app. split; [exact Hu|].
      constructor; [|constructor]. exact Htype. }
    destruct (json_is_str tool_name "read_file").
    { injection Hp as <-; exact Hu. }
    destruct (json_is_str tool_name "execute_code").
    { apply files_add_execution_result in Hp.
      unfold untyped_artifacts. rewrite Hp. exact Hu. }
    injection Hp as <-; exact Hu. }
  destruct (negb _); cbn [snd]; [|exact Hu'].
  unfold untyped_artifacts. rewrite files_add_issue. exact Hu'.
Qed.

Lemma untyped_after_assessment (state : AgentState.t) :
  untyped_artifacts state -> untyped_artifacts (_update_agent_assessment state).
Proof.
  unfold _update_agent_assessment.
  match goal with |- _ -> untyped_artifacts (if ?c then _ else _) => destruct c end;
    intros H; exact H.
Qed.

End KeywordCalls.

(** X27.  When capabilities are called with keyword arguments, every
    artifact recorded during a session has the content type [unknown]:
    the loop reads the type from a [type] argument of the decision, and a
    [write_file] call with such an argument raises [TypeError] instead of
    writing. *)
Theorem recorded_artifacts_have_unknown_type {RT : PyRuntime}
    (body : AgentState.t -> string -> Dict.t -> result ToolResult.t)
    (llm : AutonomousToolSelector.llm)
    (max_tool_calls : Z) (problem_statement : string) :
  exists r,
    FullyAutonomousCodingAgent.main_loop (keyword_called llm body)
      (S (Z.to_nat max_tool_calls))
      (AgentState.init problem_statement max_tool_calls)
    = Some r
    /\ Forall untyped_artifacts (FullyAutonomousCodingAgent.ledgers r).
Proof.
  set (initial := AgentState.init problem_statement max_tool_calls).
  destruct (main_loop_terminates (keyword_called llm body)
              (S (Z.to_nat max_tool_calls)) initial) as [r Hr].
  { simpl. lia. }
  exists r. split; [exact Hr|].
  apply (linked_Forall untyped_artifacts _ initial); [constructor|].
  eapply (main_loop_linked (keyword_called llm body)
            (fun s s' => untyped_artifacts s -> untyped_artifacts s'));
    [| | | |exact Hr].
  - intros state. unfold untyped_artifacts. rewrite files_after_decision. auto.
  - intros reason state H. exact H.
  - intros decision state. apply untyped_after_dispatch.
  - intros state. apply untyped_after_assessment.
Qed.

(** * An oracle that never answers with a structured decision *)

Lemma parse_without_brace {RT : PyRuntime} (available_tools : list string)
    (llm_response : string) (state : AgentState.t) :
  Py.find "{"%char (Py.strip llm_response) = -1 ->
  AutonomousToolSelector._parse_llm_decision available_tools llm_response state
  = Ok (AutonomousToolSelector._interpret_text_response available_tools
          (Py.strip llm_response) state, state).
Proof.
  intros H.
  unfold AutonomousToolSelector._parse_llm_decision,
    AutonomousToolSelector.extract_json, try_except, bind.
  rewrite H. reflexivity.
Qed.

Lemma update_last_failure (message : string) (calls : list ToolCall.t) :
  Forall (fun call => ToolCall.success call = false) calls ->
  Forall (fun call => ToolCall.success call = false)
    (AgentState.update_last (ToolResult.failure message) calls).
Proof.
  induction calls as [|call calls _] using rev_ind; [auto|].
  intros H. apply Forall_app in H. destruct H as [H _].
  rewrite update_last_app. apply Forall_app. split; [exact H|].
  constructor; [reflexivity|constructor].
Qed.

Section Unstructured.
Context {RT : PyRuntime}.
Variable body : AgentState.t -> string -> Dict.t -> result ToolResult.t.
Variable llm : AutonomousToolSelector.llm.
Hypothesis llm_unstructured : never_structured llm.

Import FullyAutonomousCodingAgent.

Lemma idle_after_failed_dispatch (tool_name : json) (e : exn)
    (state : AgentState.t) :
  idle state ->
  idle (AgentState.add_issue (py_str tool_name ++ " execution error: " ++ exn_msg e)
          (AgentState.update_last_tool_call (ToolResult.failure (exn_msg e)) state)).
Proof.
  intros (H1 & H2 & H3 & H4).
  unfold idle, AgentState.add_issue.
  destruct (existsb _ _);
    cbn [AgentState.files_created AgentState.execution_results
         AgentState.best_quality_score AgentState.tool_calls AgentState.set_mind
         AgentState.update_last_tool_call AgentState.set_calls];
    repeat split; try assumption; apply update_last_failure, H4.
Qed.

Lemma idle_after_assessment (state : AgentState.t) :
  idle state -> idle (_update_agent_assessment state).
Proof.
  unfold _update_agent_assessment.
  match goal with |- _ -> idle (if ?c then _ else _) => destruct c end;
    intros H; exact H.
Qed.

(** One cycle with such an oracle. *)
Lemma unstructured_cycle (state : AgentState.t) :
  idle state ->
  match _make_autonomous_decision (keyword_called llm body) state with
  | (Raise _, state1) => state1 = state
  | (Ok decision, state1) =>
      idle state1
      /\ exists d,
           decision = JObj d
           /\ ((Dict.get "action" d = Some (JStr "stop")
                /\ exists reasoning, Dict.get "reasoning" d = Some reasoning)
               \/ (Dict.get "action" d = Some (JStr "use_tool")
                   /\ idle (snd (_execute_tool_decision (keyword_called llm body)
                                   decision state1))))
  end.
Proof.
  intros Hidle.
  unfold _make_autonomous_decision, AutonomousToolSelector.decide_next_action, bind.
  destruct (AgentState.get_recent_actions 3 state); [|reflexivity].
  pose proof (llm_unstructured state) as Hreply.
  change (llm_client (keyword_called llm body)) with llm.
  destruct (llm state) as [reply|]; [|reflexivity].
  rewrite (parse_without_brace _ _ _ Hreply).
  destruct agent_tools_registered as (Hthink & Hexec & Hgen).
  pose proof (interpret_well_formed tools Hthink Hexec Hgen (Py.strip reply) state)
    as Hwf.
  pose proof (interpreted_cannot_run body llm (Py.strip reply) state) as Hcannot.
  destruct (well_formed_inv _ _ Hwf) as (d & Hd & [[Haction [r Hr]]|[Haction Huse]]);
    rewrite Hd in *.
  - unfold getitem, Dict.getitem. rewrite Haction. cbn. rewrite Hr.
    split; [exact Hidle|]. exists d. split; [reflexivity|]. left. eauto.
  - destruct Huse as (name & p & r & Htool & Hin & Hp & Hr).
    unfold getitem, Dict.getitem. rewrite Haction. cbn. rewrite Htool, Hr, Hp.
    assert (Hidle1 : idle (AgentState.add_tool_call (JStr name) p r state)).
    { destruct Hidle as (H1 & H2 & H3 & H4). repeat split; try assumption.
      cbn. apply Forall_app. split; [exact H4|].
      constructor; [reflexivity|constructor]. }
    split; [exact Hidle1|]. exists d. split; [reflexivity|]. right.
    split; [exact Haction|].
    cbn [cannot_run] in Hcannot.
    destruct Hcannot as [Hstop|(_ & tool & parameters & Htool' & Hp' & Hraise)];
      [congruence|].
    rewrite Htool in Htool'. injection Htool' as <-.
    rewrite Hp in Hp'. injection Hp' as <-.
    unfold _execute_tool_decision, getitem, Dict.getitem, bind.
    rewrite Htool, Hp.
    destruct (Hraise (AgentState.add_tool_call (JStr name) p r state))
      as (e & -> & _).
    cbn [snd]. apply idle_after_failed_dispatch, Hidle1.
Qed.

Lemma unstructured_loop (fuel : nat) :
  forall (state : AgentState.t) (r : run),
    idle state ->
    main_loop (keyword_called llm body) fuel state = Some r ->
    Forall idle (ledgers r).
Proof.
  induction fuel as [|fuel IH]; intros state r Hidle; [discriminate|].
  cbn [main_loop].
  destruct (continue state); [|intros H; injection H as <-; constructor].
  pose proof (unstructured_cycle state Hidle) as Hcycle.
  destruct (_make_autonomous_decision (keyword_called llm body) state)
    as [[decision|e] state1].
  2: { subst state1. intros H; injection H as <-.
       constructor; [exact Hidle|constructor]. }
  destruct Hcycle as (Hidle1 & d & -> & [(Haction & r0 & Hr)|(Haction & Hidle2)]).
  - unfold getitem, Dict.getitem. rewrite Haction, Hr. cbn.
    intros H; injection H as <-.
    constructor; [exact Hidle1|]. constructor; [|constructor].
    destruct Hidle1 as (H1 & H2 & H3 & H4). repeat split; assumption.
  - unfold getitem at 1, Dict.getitem. rewrite Haction.
    cbn [json_is_str String.eqb Ascii.eqb Bool.eqb].
    destruct (_execute_tool_decision (keyword_called llm body) (JObj d) state1)
      as [[u|e] state2]; cbn [snd] in Hidle2.
    2: { intros H; injection H as <-.
         constructor; [exact Hidle1|]. constructor; [exact Hidle2|constructor]. }
    pose proof (idle_after_assessment state2 Hidle2) as Hidle3.
    destruct (main_loop (keyword_called llm body) fuel
                (_update_agent_assessment state2)) as [r'|] eqn:E; [|discriminate].
    intros H; injection H as <-. cbn [ledgers prepend app].
    constructor; [exact Hidle1|]. constructor; [exact Hidle2|].
    constructor; [exact Hidle3|].
    apply (IH _ _ Hidle3 E).
Qed.

End Unstructured.

(** X28.  With an oracle none of whose replies contains an opening brace,
    a session achieves nothing: it ends, and in every ledger it passes
    through there is no artifact, no run, the best-known score is 0 and
    every recorded invocation is marked unsuccessful.  The decisions are
    then read from the text or taken from the fallback tree, and none of
    them can run a capability. *)
Theorem unstructured_oracle_achieves_nothing {RT : PyRuntime}
    (body : AgentState.t -> string -> Dict.t -> result ToolResult.t)
    (llm : AutonomousToolSelector.llm)
    (max_tool_calls : Z) (problem_statement : string) :
  never_structured llm ->
  exists r,
    FullyAutonomousCodingAgent.main_loop (keyword_called llm body)
      (S (Z.to_nat max_tool_calls))
      (AgentState.init problem_statement max_tool_calls)
    = Some r
    /\ Forall idle (FullyAutonomousCodingAgent.ledgers r).
Proof.
  intros Hllm.
  set (initial := AgentState.init problem_statement max_tool_calls).
  destruct (main_loop_terminates (keyword_called llm body)
              (S (Z.to_nat max_tool_calls)) initial) as [r Hr].
  { simpl. lia. }
  exists r. split; [exact Hr|].
  apply (unstructured_loop body llm Hllm (S (Z.to_nat max_tool_calls)) initial r);
    [|exact Hr].
  repeat split. constructor.
Qed.

Lemma unstructured_oracle_achieves_nothing_witness :
  exists r,
    FullyAutonomousCodingAgent.main_loop (RT := Reference.runtime)
      (keyword_called (fun _ => Ok "let me run execute_code next")
         (fun _ _ _ => Ok ToolResult.empty))
      (S (Z.to_nat 3)) (AgentState.init "sort a list" 3)
    = Some r
    /\ Forall idle (FullyAutonomousCodingAgent.ledgers r).
Proof.
  apply (unstructured_oracle_achieves_nothing (RT := Reference.runtime)
           (fun _ _ _ => Ok ToolResult.empty)
           (fun _ => Ok "let me run execute_code next") 3 "sort a list").
  intros state. reflexivity.
Defined.
